(** * Nitron brushless fire control: the control loop of the two firmware
      revisions, embedded in Rocq

    The repository holds two revisions of one Arduino sketch:
    v0.9.0 (module [V090]) and v0.5.0 (module [V050]).  Each is a single
    control loop, [loop], that debounces the switch inputs and then runs the
    pusher, flywheel and fire-queue controllers in that order.

    Conventions of the embedding.
    - [unsigned long] (the millisecond clock and every timestamp) is a [Z] in
      [0, 2^32); subtraction wraps, see [elapsed].
    - [unsigned int] (the shot counter) is a [Z] in [0, 2^16), the width of
      the AVR boards the sketch is written for; [shotsRemaining--] wraps.
    - The global variables and the function-local [static] variables of the
      sketch are the fields of one record [State], threaded through every
      function.  The two [Servo] objects are the fields [pusher] and
      [flywheel], holding the pulse width last written to the ESC.
    - The outside world of one pass through [loop] is an [Env]: the level
      [digitalRead] returns for each pin and the value [millis()] returns.
      The clock is sampled once per pass: every call of [millis()] inside
      one pass returns the same reading (a pass takes far less than the
      shortest interval the sketch tests, 5 ms).
    - A C array indexed by pin number is a total map from [Z]; every index
      the sketch uses is one of the pin constants 4..10, inside the declared
      bound 22. *)

From Stdlib Require Import ZArith List Bool Lia.
Import ListNotations.
Open Scope Z_scope.

(** ** Machine arithmetic *)

Definition wrap32 (z : Z) : Z := z mod 2 ^ 32.
Definition wrap16 (z : Z) : Z := z mod 2 ^ 16.

(** [millis() - stamp] on [unsigned long]. *)
Definition elapsed (now stamp : Z) : Z := wrap32 (now - stamp).

(** An integer used as a C condition. *)
Definition nonzero (z : Z) : bool := negb (z =? 0).

(** ** The Arduino environment of one pass *)

Record Env : Type := mkEnv {
  digitalRead : Z -> bool;  (* true = HIGH, false = LOW *)
  millis : Z                (* unsigned long *)
}.

(** ** Arrays indexed by pin *)

Definition upd {A : Type} (a : Z -> A) (i : Z) (v : A) : Z -> A :=
  fun j => if j =? i then v else a j.

(** The three static arrays of [debounceInput]. *)
Record Debounce : Type := mkDebounce {
  timer : Z -> Z;
  lastState : Z -> bool;
  currentState : Z -> bool
}.

(** [static ... = {0}] *)
Definition Debounce0 : Debounce :=
  mkDebounce (fun _ => 0) (fun _ => false) (fun _ => false).

(** [debounceInput], identical in both revisions up to the constant
    [debounceDelay]. *)
Definition debounceInputWith (debounceDelay : Z)
    (io : Env) (pin : Z) (d : Debounce) : bool * Debounce :=
  let liveValue := negb (digitalRead io pin) in
  let d :=
    if negb (Bool.eqb liveValue (lastState d pin)) then
      mkDebounce (upd (timer d) pin (millis io))
                 (upd (lastState d) pin liveValue)
                 (currentState d)
    else d in
  let d :=
    if debounceDelay <=? elapsed (millis io) (timer d pin) then
      mkDebounce (timer d) (lastState d) (upd (currentState d) pin liveValue)
    else d in
  (currentState d pin, d).

(** Shot queue depth for each mode: [shotCount[] = {1, 3, 65535}].  The
    sketch never assigns [shotMode], so the index is the initial mode, 1 in
    v0.9.0 and 0 in v0.5.0; an index past the array is given 0 here. *)
Definition shotCount (mode : Z) : Z := nth (Z.to_nat mode) [1; 3; 65535] 0.

(** Arduino pin configuration (the same in both revisions). *)
Definition magazinePin : Z := 4.
Definition ejectPin : Z := 5.
Definition disclPin : Z := 6.
Definition discrPin : Z := 7.
Definition positionPin : Z := 8.
Definition triggerPin : Z := 9.
Definition readyPin : Z := 10.

(** A poll of one channel by a clock that has not been reduced modulo
    2^32: [at_ms] is the time since power-up, [level] the raw pin level. *)
Record Poll : Type := mkPoll { at_ms : Z; level : bool }.

Definition live (p : Poll) : bool := negb (level p).

Definition envOf (p : Poll) : Env := mkEnv (fun _ => level p) (wrap32 (at_ms p)).

(** * Revision v0.9.0 *)

Module V090.

Record State : Type := mkState {
  magazinePinState : bool;
  ejectPinState : bool;
  disclPinState : bool;
  discrPinState : bool;
  positionPinState : bool;
  triggerPinState : bool;
  readyPinState : bool;
  shotMode : Z;  (* unsigned int *)
  shotsRemaining : Z;  (* unsigned int *)
  flywheelStartTime : Z;  (* unsigned long *)
  flywheelTimer : Z;  (* unsigned long *)
  positionPinTimer : Z;  (* unsigned long *)
  pusherPulse : Z;  (* int *)
  flywheelPulse : Z;  (* int *)
  debounce : Debounce;  (* the three static arrays of debounceInput *)
  lastTriggerPinState : bool;  (* static of fireControl *)
  lastpositionPinState : bool;  (* static of fireControl *)
  pusher : Z;  (* Servo pusher: the pulse last written to the ESC *)
  flywheel : Z;  (* Servo flywheel: the pulse last written to the ESC *)
  ledBuiltin : bool  (* level last written to LED_BUILTIN *)
}.

Definition set_magazinePinState (v : bool) (s : State) : State :=
  mkState v (ejectPinState s) (disclPinState s) (discrPinState s)
    (positionPinState s) (triggerPinState s) (readyPinState s) (shotMode s)
    (shotsRemaining s) (flywheelStartTime s) (flywheelTimer s)
    (positionPinTimer s) (pusherPulse s) (flywheelPulse s) (debounce s)
    (lastTriggerPinState s) (lastpositionPinState s) (pusher s) (flywheel s)
    (ledBuiltin s).

Definition set_ejectPinState (v : bool) (s : State) : State :=
  mkState (magazinePinState s) v (disclPinState s) (discrPinState s)
    (positionPinState s) (triggerPinState s) (readyPinState s) (shotMode s)
    (shotsRemaining s) (flywheelStartTime s) (flywheelTimer s)
    (positionPinTimer s) (pusherPulse s) (flywheelPulse s) (debounce s)
    (lastTriggerPinState s) (lastpositionPinState s) (pusher s) (flywheel s)
    (ledBuiltin s).

Definition set_disclPinState (v : bool) (s : State) : State :=
  mkState (magazinePinState s) (ejectPinState s) v (discrPinState s)
    (positionPinState s) (triggerPinState s) (readyPinState s) (shotMode s)
    (shotsRemaining s) (flywheelStartTime s) (flywheelTimer s)
    (positionPinTimer s) (pusherPulse s) (flywheelPulse s) (debounce s)
    (lastTriggerPinState s) (lastpositionPinState s) (pusher s) (flywheel s)
    (ledBuiltin s).

Definition set_discrPinState (v : bool) (s : State) : State :=
  mkState (magazinePinState s) (ejectPinState s) (disclPinState s) v
    (positionPinState s) (triggerPinState s) (readyPinState s) (shotMode s)
    (shotsRemaining s) (flywheelStartTime s) (flywheelTimer s)
    (positionPinTimer s) (pusherPulse s) (flywheelPulse s) (debounce s)
    (lastTriggerPinState s) (lastpositionPinState s) (pusher s) (flywheel s)
    (ledBuiltin s).

Definition set_positionPinState (v : bool) (s : State) : State :=
  mkState (magazinePinState s) (ejectPinState s) (disclPinState s)
    (discrPinState s) v (triggerPinState s) (readyPinState s) (shotMode s)
    (shotsRemaining s) (flywheelStartTime s) (flywheelTimer s)
    (positionPinTimer s) (pusherPulse s) (flywheelPulse s) (debounce s)
    (lastTriggerPinState s) (lastpositionPinState s) (pusher s) (flywheel s)
    (ledBuiltin s).

Definition set_triggerPinState (v : bool) (s : State) : State :=
  mkState (magazinePinState s) (ejectPinState s) (disclPinState s)
    (discrPinState s) (positionPinState s) v (readyPinState s) (shotMode s)
    (shotsRemaining s) (flywheelStartTime s) (flywheelTimer s)
    (positionPinTimer s) (pusherPulse s) (flywheelPulse s) (debounce s)
    (lastTriggerPinState s) (lastpositionPinState s) (pusher s) (flywheel s)
    (ledBuiltin s).

Definition set_readyPinState (v : bool) (s : State) : State :=
  mkState (magazinePinState s) (ejectPinState s) (disclPinState s)
    (discrPinState s) (positionPinState s) (triggerPinState s) v
    (shotMode s) (shotsRemaining s) (flywheelStartTime s) (flywheelTimer s)
    (positionPinTimer s) (pusherPulse s) (flywheelPulse s) (debounce s)
    (lastTriggerPinState s) (lastpositionPinState s) (pusher s) (flywheel s)
    (ledBuiltin s).

Definition set_shotsRemaining (v : Z) (s : State) : State :=
  mkState (magazinePinState s) (ejectPinState s) (disclPinState s)
    (discrPinState s) (positionPinState s) (triggerPinState s)
    (readyPinState s) (shotMode s) v (flywheelStartTime s) (flywheelTimer s)
    (positionPinTimer s) (pusherPulse s) (flywheelPulse s) (debounce s)
    (lastTriggerPinState s) (lastpositionPinState s) (pusher s) (flywheel s)
    (ledBuiltin s).

Definition set_flywheelStartTime (v : Z) (s : State) : State :=
  mkState (magazinePinState s) (ejectPinState s) (disclPinState s)
    (discrPinState s) (positionPinState s) (triggerPinState s)
    (readyPinState s) (shotMode s) (shotsRemaining s) v (flywheelTimer s)
    (positionPinTimer s) (pusherPulse s) (flywheelPulse s) (debounce s)
    (lastTriggerPinState s) (lastpositionPinState s) (pusher s) (flywheel s)
    (ledBuiltin s).

Definition set_flywheelTimer (v : Z) (s : State) : State :=
  mkState (magazinePinState s) (ejectPinState s) (disclPinState s)
    (discrPinState s) (positionPinState s) (triggerPinState s)
    (readyPinState s) (shotMode s) (shotsRemaining s) (flywheelStartTime s)
    v (positionPinTimer s) (pusherPulse s) (flywheelPulse s) (debounce s)
    (lastTriggerPinState s) (lastpositionPinState s) (pusher s) (flywheel s)
    (ledBuiltin s).

Definition set_pusherPulse (v : Z) (s : State) : State :=
  mkState (magazinePinState s) (ejectPinState s) (disclPinState s)
    (discrPinState s) (positionPinState s) (triggerPinState s)
    (readyPinState s) (shotMode s) (shotsRemaining s) (flywheelStartTime s)
    (flywheelTimer s) (positionPinTimer s) v (flywheelPulse s) (debounce s)
    (lastTriggerPinState s) (lastpositionPinState s) (pusher s) (flywheel s)
    (ledBuiltin s).

Definition set_flywheelPulse (v : Z) (s : State) : State :=
  mkState (magazinePinState s) (ejectPinState s) (disclPinState s)
    (discrPinState s) (positionPinState s) (triggerPinState s)
    (readyPinState s) (shotMode s) (shotsRemaining s) (flywheelStartTime s)
    (flywheelTimer s) (positionPinTimer s) (pusherPulse s) v (debounce s)
    (lastTriggerPinState s) (lastpositionPinState s) (pusher s) (flywheel s)
    (ledBuiltin s).

Definition set_debounce (v : Debounce) (s : State) : State :=
  mkState (magazinePinState s) (ejectPinState s) (disclPinState s)
    (discrPinState s) (positionPinState s) (triggerPinState s)
    (readyPinState s) (shotMode s) (shotsRemaining s) (flywheelStartTime s)
    (flywheelTimer s) (positionPinTimer s) (pusherPulse s) (flywheelPulse s)
    v (lastTriggerPinState s) (lastpositionPinState s) (pusher s)
    (flywheel s) (ledBuiltin s).

Definition set_lastTriggerPinState (v : bool) (s : State) : State :=
  mkState (magazinePinState s) (ejectPinState s) (disclPinState s)
    (discrPinState s) (positionPinState s) (triggerPinState s)
    (readyPinState s) (shotMode s) (shotsRemaining s) (flywheelStartTime s)
    (flywheelTimer s) (positionPinTimer s) (pusherPulse s) (flywheelPulse s)
    (debounce s) v (lastpositionPinState s) (pusher s) (flywheel s)
    (ledBuiltin s).

Definition set_lastpositionPinState (v : bool) (s : State) : State :=
  mkState (magazinePinState s) (ejectPinState s) (disclPinState s)
    (discrPinState s) (positionPinState s) (triggerPinState s)
    (readyPinState s) (shotMode s) (shotsRemaining s) (flywheelStartTime s)
    (flywheelTimer s) (positionPinTimer s) (pusherPulse s) (flywheelPulse s)
    (debounce s) (lastTriggerPinState s) v (pusher s) (flywheel s)
    (ledBuiltin s).

Definition set_pusher (v : Z) (s : State) : State :=
  mkState (magazinePinState s) (ejectPinState s) (disclPinState s)
    (discrPinState s) (positionPinState s) (triggerPinState s)
    (readyPinState s) (shotMode s) (shotsRemaining s) (flywheelStartTime s)
    (flywheelTimer s) (positionPinTimer s) (pusherPulse s) (flywheelPulse s)
    (debounce s) (lastTriggerPinState s) (lastpositionPinState s) v
    (flywheel s) (ledBuiltin s).

Definition set_flywheel (v : Z) (s : State) : State :=
  mkState (magazinePinState s) (ejectPinState s) (disclPinState s)
    (discrPinState s) (positionPinState s) (triggerPinState s)
    (readyPinState s) (shotMode s) (shotsRemaining s) (flywheelStartTime s)
    (flywheelTimer s) (positionPinTimer s) (pusherPulse s) (flywheelPulse s)
    (debounce s) (lastTriggerPinState s) (lastpositionPinState s) (pusher s)
    v (ledBuiltin s).

Definition set_ledBuiltin (v : bool) (s : State) : State :=
  mkState (magazinePinState s) (ejectPinState s) (disclPinState s)
    (discrPinState s) (positionPinState s) (triggerPinState s)
    (readyPinState s) (shotMode s) (shotsRemaining s) (flywheelStartTime s)
    (flywheelTimer s) (positionPinTimer s) (pusherPulse s) (flywheelPulse s)
    (debounce s) (lastTriggerPinState s) (lastpositionPinState s) (pusher s)
    (flywheel s) v.
(** ESC pulse lengths in uS *)
Definition pusherRunPulse : Z := 1590.
Definition pusherReturnPulse : Z := 1550.
Definition pusherStopPulse : Z := 1000.
Definition flywheelRunPulse : Z := 1650.
Definition flywheelStopPulse : Z := 1520.

(** Timers in mS *)
Definition flywheelSpoolTime : Z := 250.
Definition flywheelRunTime : Z := 250.
Definition pusherDiscDelay : Z := 50.
Definition debounceDelay : Z := 5.

(** The initial values of the globals and statics. *)
Definition init : State :=
  mkState false false false false false false false
          1 0 0 0 0 1520 1520
          Debounce0 false false 1520 1520 false.

Definition debounceInput : Env -> Z -> Debounce -> bool * Debounce :=
  debounceInputWith debounceDelay.

Definition pusherControl (io : Env) (s : State) : State :=
  let s :=
    if ejectPinState s && magazinePinState s then
      if positionPinState s then
        if nonzero (shotsRemaining s) then
          if disclPinState s && discrPinState s
             && nonzero (flywheelStartTime s)
             && (flywheelSpoolTime <=? elapsed (millis io) (flywheelStartTime s))
          then set_pusherPulse pusherRunPulse s
          else s
        else set_pusherPulse pusherReturnPulse s
      else
        if nonzero (shotsRemaining s) then
          let s :=
            if nonzero (flywheelStartTime s)
               && (flywheelSpoolTime <=? elapsed (millis io) (flywheelStartTime s))
            then
              if (shotsRemaining s =? 1) && (1 <=? shotMode s)
              then set_pusherPulse pusherReturnPulse s
              else set_pusherPulse pusherRunPulse s
            else s in
          if negb (disclPinState s) && negb (discrPinState s)
          then set_pusherPulse pusherStopPulse s
          else s
        else set_pusherPulse pusherStopPulse s
    else set_pusherPulse pusherStopPulse s in
  set_pusher (pusherPulse s) s.

Definition flywheelControl (io : Env) (s : State) : State :=
  let s :=
    if (nonzero (shotsRemaining s) || readyPinState s)
       && ejectPinState s && magazinePinState s
    then
      let s :=
        if flywheelStartTime s =? 0
        then set_flywheelStartTime (millis io) s
        else s in
      let s := set_flywheelTimer (millis io) s in
      set_flywheelPulse flywheelRunPulse s
    else s in
  let s :=
    if (flywheelRunTime <=? elapsed (millis io) (flywheelTimer s))
       || negb (ejectPinState s) || negb (magazinePinState s)
    then set_flywheelStartTime 0 (set_flywheelPulse flywheelStopPulse s)
    else s in
  set_flywheel (flywheelPulse s) s.

Definition fireControl (s : State) : State :=
  let s :=
    if triggerPinState s && negb (lastTriggerPinState s)
       && ejectPinState s && magazinePinState s
    then set_shotsRemaining (shotCount (shotMode s)) s
    else s in
  let s :=
    if nonzero (shotsRemaining s) && negb (lastpositionPinState s)
       && positionPinState s
    then set_shotsRemaining (wrap16 (shotsRemaining s - 1)) s
    else s in
  let s :=
    if negb (triggerPinState s) || negb (ejectPinState s)
       || negb (magazinePinState s)
    then set_shotsRemaining 0 s
    else s in
  let s := set_lastTriggerPinState (triggerPinState s) s in
  set_lastpositionPinState (positionPinState s) s.

(** The first seven statements of [loop]: the magazine and the two chamber
    channels are assigned [true], the other four are debounced. *)
Definition readInputs (io : Env) (s : State) : State :=
  let s := set_magazinePinState true s in
  let r := debounceInput io ejectPin (debounce s) in
  let s := set_ejectPinState (fst r) (set_debounce (snd r) s) in
  let s := set_disclPinState true s in
  let s := set_discrPinState true s in
  let r := debounceInput io positionPin (debounce s) in
  let s := set_positionPinState (fst r) (set_debounce (snd r) s) in
  let r := debounceInput io triggerPin (debounce s) in
  let s := set_triggerPinState (fst r) (set_debounce (snd r) s) in
  let r := debounceInput io readyPin (debounce s) in
  set_readyPinState (fst r) (set_debounce (snd r) s).

(** The three controller calls of [loop], in the order of the source. *)
Definition control (io : Env) (s : State) : State :=
  fireControl (flywheelControl io (pusherControl io s)).

Definition loop (io : Env) (s : State) : State :=
  let s := control io (readInputs io s) in
  set_ledBuiltin (positionPinState s) s.

(** Passes through [loop], one per environment of the list. *)
Fixpoint run (ios : list Env) (s : State) : State :=
  match ios with
  | [] => s
  | io :: rest => run rest (loop io s)
  end.

(** The states the sketch can be in after any number of passes. *)
Inductive reachable : State -> Prop :=
| reachable_init : reachable init
| reachable_loop : forall io s, reachable s -> reachable (loop io s).

(** The trigger is debounced active and the interlock is satisfied at the
    pass taken in environment [io] from state [s]. *)
Definition held (io : Env) (s : State) : bool :=
  let s1 := readInputs io s in
  triggerPinState s1 && ejectPinState s1 && magazinePinState s1.

Fixpoint allHeld (ios : list Env) (s : State) : bool :=
  match ios with
  | [] => true
  | io :: rest => held io s && allHeld rest (loop io s)
  end.

(** A completed stroke, as [fireControl] counts it: the position signal
    was inactive at the previous pass and is active at this one. *)
Definition strokeEdge (io : Env) (s : State) : bool :=
  negb (lastpositionPinState s) && positionPinState (readInputs io s).

Fixpoint strokes (ios : list Env) (s : State) : Z :=
  match ios with
  | [] => 0
  | io :: rest => (if strokeEdge io s then 1 else 0) + strokes rest (loop io s)
  end.

End V090.

(** * Revision v0.5.0 *)

Module V050.

Record State : Type := mkState {
  magazinePinState : bool;
  ejectPinState : bool;
  disclPinState : bool;
  discrPinState : bool;
  positionPinState : bool;
  triggerPinState : bool;
  readyPinState : bool;
  shotMode : Z;  (* unsigned int *)
  shotsRemaining : Z;  (* unsigned int *)
  flywheelStartTime : Z;  (* unsigned long *)
  flywheelTimer : Z;  (* unsigned long *)
  positionPinTimer : Z;  (* unsigned long *)
  debounce : Debounce;  (* the three static arrays of debounceInput *)
  lastPositionPinState : bool;  (* static of pusherControl *)
  lastTriggerPinState : bool;  (* static of fireControl *)
  lastDiscState : bool;  (* static of fireControl *)
  pusher : Z;  (* Servo pusher: the pulse last written to the ESC *)
  flywheel : Z  (* Servo flywheel: the pulse last written to the ESC *)
}.

Definition set_magazinePinState (v : bool) (s : State) : State :=
  mkState v (ejectPinState s) (disclPinState s) (discrPinState s)
    (positionPinState s) (triggerPinState s) (readyPinState s) (shotMode s)
    (shotsRemaining s) (flywheelStartTime s) (flywheelTimer s)
    (positionPinTimer s) (debounce s) (lastPositionPinState s)
    (lastTriggerPinState s) (lastDiscState s) (pusher s) (flywheel s).

Definition set_ejectPinState (v : bool) (s : State) : State :=
  mkState (magazinePinState s) v (disclPinState s) (discrPinState s)
    (positionPinState s) (triggerPinState s) (readyPinState s) (shotMode s)
    (shotsRemaining s) (flywheelStartTime s) (flywheelTimer s)
    (positionPinTimer s) (debounce s) (lastPositionPinState s)
    (lastTriggerPinState s) (lastDiscState s) (pusher s) (flywheel s).

Definition set_disclPinState (v : bool) (s : State) : State :=
  mkState (magazinePinState s) (ejectPinState s) v (discrPinState s)
    (positionPinState s) (triggerPinState s) (readyPinState s) (shotMode s)
    (shotsRemaining s) (flywheelStartTime s) (flywheelTimer s)
    (positionPinTimer s) (debounce s) (lastPositionPinState s)
    (lastTriggerPinState s) (lastDiscState s) (pusher s) (flywheel s).

Definition set_discrPinState (v : bool) (s : State) : State :=
  mkState (magazinePinState s) (ejectPinState s) (disclPinState s) v
    (positionPinState s) (triggerPinState s) (readyPinState s) (shotMode s)
    (shotsRemaining s) (flywheelStartTime s) (flywheelTimer s)
    (positionPinTimer s) (debounce s) (lastPositionPinState s)
    (lastTriggerPinState s) (lastDiscState s) (pusher s) (flywheel s).

Definition set_positionPinState (v : bool) (s : State) : State :=
  mkState (magazinePinState s) (ejectPinState s) (disclPinState s)
    (discrPinState s) v (triggerPinState s) (readyPinState s) (shotMode s)
    (shotsRemaining s) (flywheelStartTime s) (flywheelTimer s)
    (positionPinTimer s) (debounce s) (lastPositionPinState s)
    (lastTriggerPinState s) (lastDiscState s) (pusher s) (flywheel s).

Definition set_triggerPinState (v : bool) (s : State) : State :=
  mkState (magazinePinState s) (ejectPinState s) (disclPinState s)
    (discrPinState s) (positionPinState s) v (readyPinState s) (shotMode s)
    (shotsRemaining s) (flywheelStartTime s) (flywheelTimer s)
    (positionPinTimer s) (debounce s) (lastPositionPinState s)
    (lastTriggerPinState s) (lastDiscState s) (pusher s) (flywheel s).

Definition set_readyPinState (v : bool) (s : State) : State :=
  mkState (magazinePinState s) (ejectPinState s) (disclPinState s)
    (discrPinState s) (positionPinState s) (triggerPinState s) v
    (shotMode s) (shotsRemaining s) (flywheelStartTime s) (flywheelTimer s)
    (positionPinTimer s) (debounce s) (lastPositionPinState s)
    (lastTriggerPinState s) (lastDiscState s) (pusher s) (flywheel s).

Definition set_shotsRemaining (v : Z) (s : State) : State :=
  mkState (magazinePinState s) (ejectPinState s) (disclPinState s)
    (discrPinState s) (positionPinState s) (triggerPinState s)
    (readyPinState s) (shotMode s) v (flywheelStartTime s) (flywheelTimer s)
    (positionPinTimer s) (debounce s) (lastPositionPinState s)
    (lastTriggerPinState s) (lastDiscState s) (pusher s) (flywheel s).

Definition set_flywheelStartTime (v : Z) (s : State) : State :=
  mkState (magazinePinState s) (ejectPinState s) (disclPinState s)
    (discrPinState s) (positionPinState s) (triggerPinState s)
    (readyPinState s) (shotMode s) (shotsRemaining s) v (flywheelTimer s)
    (positionPinTimer s) (debounce s) (lastPositionPinState s)
    (lastTriggerPinState s) (lastDiscState s) (pusher s) (flywheel s).

Definition set_flywheelTimer (v : Z) (s : State) : State :=
  mkState (magazinePinState s) (ejectPinState s) (disclPinState s)
    (discrPinState s) (positionPinState s) (triggerPinState s)
    (readyPinState s) (shotMode s) (shotsRemaining s) (flywheelStartTime s)
    v (positionPinTimer s) (debounce s) (lastPositionPinState s)
    (lastTriggerPinState s) (lastDiscState s) (pusher s) (flywheel s).

Definition set_positionPinTimer (v : Z) (s : State) : State :=
  mkState (magazinePinState s) (ejectPinState s) (disclPinState s)
    (discrPinState s) (positionPinState s) (triggerPinState s)
    (readyPinState s) (shotMode s) (shotsRemaining s) (flywheelStartTime s)
    (flywheelTimer s) v (debounce s) (lastPositionPinState s)
    (lastTriggerPinState s) (lastDiscState s) (pusher s) (flywheel s).

Definition set_debounce (v : Debounce) (s : State) : State :=
  mkState (magazinePinState s) (ejectPinState s) (disclPinState s)
    (discrPinState s) (positionPinState s) (triggerPinState s)
    (readyPinState s) (shotMode s) (shotsRemaining s) (flywheelStartTime s)
    (flywheelTimer s) (positionPinTimer s) v (lastPositionPinState s)
    (lastTriggerPinState s) (lastDiscState s) (pusher s) (flywheel s).

Definition set_lastPositionPinState (v : bool) (s : State) : State :=
  mkState (magazinePinState s) (ejectPinState s) (disclPinState s)
    (discrPinState s) (positionPinState s) (triggerPinState s)
    (readyPinState s) (shotMode s) (shotsRemaining s) (flywheelStartTime s)
    (flywheelTimer s) (positionPinTimer s) (debounce s) v
    (lastTriggerPinState s) (lastDiscState s) (pusher s) (flywheel s).

Definition set_lastTriggerPinState (v : bool) (s : State) : State :=
  mkState (magazinePinState s) (ejectPinState s) (disclPinState s)
    (discrPinState s) (positionPinState s) (triggerPinState s)
    (readyPinState s) (shotMode s) (shotsRemaining s) (flywheelStartTime s)
    (flywheelTimer s) (positionPinTimer s) (debounce s)
    (lastPositionPinState s) v (lastDiscState s) (pusher s) (flywheel s).

Definition set_lastDiscState (v : bool) (s : State) : State :=
  mkState (magazinePinState s) (ejectPinState s) (disclPinState s)
    (discrPinState s) (positionPinState s) (triggerPinState s)
    (readyPinState s) (shotMode s) (shotsRemaining s) (flywheelStartTime s)
    (flywheelTimer s) (positionPinTimer s) (debounce s)
    (lastPositionPinState s) (lastTriggerPinState s) v (pusher s)
    (flywheel s).

Definition set_pusher (v : Z) (s : State) : State :=
  mkState (magazinePinState s) (ejectPinState s) (disclPinState s)
    (discrPinState s) (positionPinState s) (triggerPinState s)
    (readyPinState s) (shotMode s) (shotsRemaining s) (flywheelStartTime s)
    (flywheelTimer s) (positionPinTimer s) (debounce s)
    (lastPositionPinState s) (lastTriggerPinState s) (lastDiscState s) v
    (flywheel s).

Definition set_flywheel (v : Z) (s : State) : State :=
  mkState (magazinePinState s) (ejectPinState s) (disclPinState s)
    (discrPinState s) (positionPinState s) (triggerPinState s)
    (readyPinState s) (shotMode s) (shotsRemaining s) (flywheelStartTime s)
    (flywheelTimer s) (positionPinTimer s) (debounce s)
    (lastPositionPinState s) (lastTriggerPinState s) (lastDiscState s)
    (pusher s) v.
(** ESC pulse lengths in uS *)
Definition centeringPulse : Z := 1500.
Definition pusherRunPulse : Z := 2000.
Definition pusherStopPulse : Z := 1000.
Definition flywheelRunPulse : Z := 2000.
Definition flywheelStopPulse : Z := 1500.

(** Timers in mS *)
Definition flywheelSpoolTime : Z := 500.
Definition flywheelRunTime : Z := 2500.
Definition pusherDiscDelay : Z := 100.
Definition debounceDelay : Z := 10.

(** The initial values of the globals and statics; [setup] writes
    [centeringPulse] to both ESCs. *)
Definition init : State :=
  mkState false false false false false false false
          0 0 0 0 0
          Debounce0 false false false centeringPulse centeringPulse.

Definition debounceInput : Env -> Z -> Debounce -> bool * Debounce :=
  debounceInputWith debounceDelay.

Definition pusherControl (io : Env) (s : State) : State :=
  let s :=
    if negb (Bool.eqb (positionPinState s) (lastPositionPinState s))
    then set_lastPositionPinState (positionPinState s)
           (set_positionPinTimer (millis io) s)
    else s in
  (* Run the pusher motor. *)
  let s :=
    if (positionPinState s
        || (nonzero (shotsRemaining s)
            && (flywheelSpoolTime <=? elapsed (millis io) (flywheelStartTime s))))
       && ejectPinState s && magazinePinState s
    then set_pusher pusherRunPulse s
    else s in
  (* Brake pusher motor. *)
  if (negb (positionPinState s)
      && (negb (nonzero (shotsRemaining s))
          || ((negb (disclPinState s) || negb (discrPinState s))
              && (pusherDiscDelay <=? elapsed (millis io) (positionPinTimer s)))))
     || negb (ejectPinState s) || negb (magazinePinState s)
  then set_pusher pusherStopPulse s
  else s.

Definition flywheelControl (io : Env) (s : State) : State :=
  let s :=
    if (nonzero (shotsRemaining s) || readyPinState s)
       && ejectPinState s && magazinePinState s
    then
      let s :=
        if flywheelStartTime s =? 0
        then set_flywheelStartTime (millis io) s
        else s in
      let s := set_flywheelTimer (millis io) s in
      set_flywheel flywheelRunPulse s
    else s in
  if (flywheelRunTime <=? elapsed (millis io) (flywheelTimer s))
     || negb (ejectPinState s) || negb (magazinePinState s)
  then set_flywheelStartTime 0 (set_flywheel flywheelStopPulse s)
  else s.

Definition fireControl (s : State) : State :=
  let s :=
    if triggerPinState s && negb (lastTriggerPinState s)
       && ejectPinState s && magazinePinState s
    then set_shotsRemaining (shotCount (shotMode s)) s
    else s in
  let s :=
    if nonzero (shotsRemaining s) && lastDiscState s
       && (negb (disclPinState s) || negb (discrPinState s))
    then set_shotsRemaining (wrap16 (shotsRemaining s - 1)) s
    else s in
  let s :=
    if negb (triggerPinState s) || negb (ejectPinState s)
       || negb (magazinePinState s)
    then set_shotsRemaining 0 s
    else s in
  let s := set_lastTriggerPinState (triggerPinState s) s in
  set_lastDiscState (disclPinState s && discrPinState s) s.

(** The first seven statements of [loop]: every channel is debounced. *)
Definition readInputs (io : Env) (s : State) : State :=
  let r := debounceInput io magazinePin (debounce s) in
  let s := set_magazinePinState (fst r) (set_debounce (snd r) s) in
  let r := debounceInput io ejectPin (debounce s) in
  let s := set_ejectPinState (fst r) (set_debounce (snd r) s) in
  let r := debounceInput io disclPin (debounce s) in
  let s := set_disclPinState (fst r) (set_debounce (snd r) s) in
  let r := debounceInput io discrPin (debounce s) in
  let s := set_discrPinState (fst r) (set_debounce (snd r) s) in
  let r := debounceInput io positionPin (debounce s) in
  let s := set_positionPinState (fst r) (set_debounce (snd r) s) in
  let r := debounceInput io triggerPin (debounce s) in
  let s := set_triggerPinState (fst r) (set_debounce (snd r) s) in
  let r := debounceInput io readyPin (debounce s) in
  set_readyPinState (fst r) (set_debounce (snd r) s).

(** The three controller calls of [loop], in the order of the source. *)
Definition control (io : Env) (s : State) : State :=
  fireControl (flywheelControl io (pusherControl io s)).

Definition loop (io : Env) (s : State) : State :=
  control io (readInputs io s).

Fixpoint run (ios : list Env) (s : State) : State :=
  match ios with
  | [] => s
  | io :: rest => run rest (loop io s)
  end.

Inductive reachable : State -> Prop :=
| reachable_init : reachable init
| reachable_loop : forall io s, reachable s -> reachable (loop io s).

Definition held (io : Env) (s : State) : bool :=
  let s1 := readInputs io s in
  triggerPinState s1 && ejectPinState s1 && magazinePinState s1.

Fixpoint allHeld (ios : list Env) (s : State) : bool :=
  match ios with
  | [] => true
  | io :: rest => held io s && allHeld rest (loop io s)
  end.

(** A completed stroke, as this revision's [fireControl] counts it: both
    chamber sensors were active at the previous pass and at least one is
    inactive at this one. *)
Definition strokeEdge (io : Env) (s : State) : bool :=
  let s1 := readInputs io s in
  lastDiscState s && (negb (disclPinState s1) || negb (discrPinState s1)).

Fixpoint strokes (ios : list Env) (s : State) : Z :=
  match ios with
  | [] => 0
  | io :: rest => (if strokeEdge io s then 1 else 0) + strokes rest (loop io s)
  end.

End V050.

(** * Runs, invariants and the concrete inputs of the examples *)

(** ** Runs *)

(** The environment in which exactly the pins of [low] read LOW (switch
    closed, active) and the clock reads [t]. *)
Definition ioOf (low : list Z) (t : Z) : Env :=
  mkEnv (fun pin => negb (existsb (Z.eqb pin) low)) t.

(** One channel polled at each element of [ps], oldest first. *)
Fixpoint pollAll (debounceDelay : Z) (pin : Z) (ps : list Poll)
    (d : Debounce) : Debounce :=
  match ps with
  | [] => d
  | p :: rest =>
      pollAll debounceDelay pin rest
              (snd (debounceInputWith debounceDelay (envOf p) pin d))
  end.

(** The clock readings of the passes [ios] do not decrease, starting from
    [t], and stay below 2^32: the clock has not rolled over. *)
Fixpoint clockAscends (t : Z) (ios : list Env) : Prop :=
  match ios with
  | [] => True
  | io :: rest => t <= millis io < 2 ^ 32 /\ clockAscends (millis io) rest
  end.

(** ** Invariants used by the proofs *)

(** What the three entries of a channel record after the polls [ps] taken
    from power-up: either no sample ever differed from the initial
    [false], or the last change of sample happened at a poll [q] whose time
    is in [timer] and whose value every later poll has seen again. *)
Definition channelInv (pin : Z) (ps : list Poll) (d : Debounce) : Prop :=
  (lastState d pin = false /\ currentState d pin = false /\
   Forall (fun x => live x = false) ps)
  \/
  (exists pre q post,
      ps = pre ++ q :: post /\ lastState d pin = live q /\
      timer d pin = wrap32 (at_ms q) /\
      Forall (fun x => live x = live q) post).

(** v0.9.0: a set spin-up timestamp goes with a Run command. *)
Definition stampedRunning (s : V090.State) : Prop :=
  V090.flywheelStartTime s <> 0 ->
  V090.flywheelPulse s = V090.flywheelRunPulse /\
  V090.flywheel s = V090.flywheelRunPulse.

(** v0.5.0: a set spin-up timestamp goes with a Run pulse at the ESC. *)
Definition stampedRunning_050 (s : V050.State) : Prop :=
  V050.flywheelStartTime s <> 0 -> V050.flywheel s = V050.flywheelRunPulse.

(** v0.9.0, with a clock that has not rolled over and reads [t] at the
    last pass: the spin-up timestamp is not in the future, and a pusher
    commanded Run has a flywheel that was spun up at least the spool time
    ago. *)
Definition spoolInv (t : Z) (s : V090.State) : Prop :=
  0 <= V090.flywheelStartTime s <= t /\
  (V090.pusherPulse s = V090.pusherRunPulse ->
   V090.flywheelStartTime s <> 0 /\
   V090.flywheelStartTime s + V090.flywheelSpoolTime <= t).

(** ** Concrete states and environments *)

(** v0.9.0 in the middle of a burst of three: two shots left, pusher and
    flywheel running, the flywheel spun up at 1000 ms; the eject switch
    opened at 1995 ms and its change is still inside the debounce window. *)
Definition midBurst090 : V090.State :=
  V090.mkState true true true true false true true
               1 2 1000 1999 0 1590 1650
               (mkDebounce
                  (upd (fun _ => 0) ejectPin 1995)
                  (fun pin => (pin =? triggerPin) || (pin =? readyPin))
                  (fun pin => (pin =? ejectPin) || (pin =? triggerPin)
                              || (pin =? readyPin)))
               true false 1590 1650 false.

(** v0.9.0 in full-auto mode with the full-auto count loaded, the trigger
    held, the interlock satisfied, and the position signal active at this
    pass after being inactive at the previous one. *)
Definition fullAuto090 : V090.State :=
  V090.mkState true true true true true true true
               2 65535 1000 1999 0 1590 1650
               Debounce0 true false 1590 1650 false.

(** v0.9.0 at home with two shots queued, both chamber sensors active and
    the spin-up timestamp taken 100 ms before the clock rolls over. *)
Definition spoolingAcrossRollover090 : V090.State :=
  V090.mkState true true true true true true true
               1 2 (wrap32 (2 ^ 32 - 100)) 150 0 1550 1650
               Debounce0 true true 1550 1650 true.

(** v0.5.0 in the middle of a burst of three, every switch debounced
    active except the position switch. *)
Definition midBurst050 : V050.State :=
  V050.mkState true true true true false true true
               1 2 1000 1999 1500
               (mkDebounce
                  (fun _ => 0)
                  (fun pin => (4 <=? pin) && (pin <=? 10)
                              && negb (pin =? positionPin))
                  (fun pin => (4 <=? pin) && (pin <=? 10)
                              && negb (pin =? positionPin)))
               false true true 2000 2000.

(** v0.5.0 in full-auto mode with the full-auto count loaded, the trigger
    held, the interlock satisfied, and the left chamber sensor inactive at
    this pass after both were active at the previous one. *)
Definition fullAuto050 : V050.State :=
  V050.mkState true true false true false true true
               2 65535 1000 1999 1500
               Debounce0 false true true 2000 2000.

(** Scenario A on v0.9.0, from power-up: the eject switch closes and the
    ready switch is pressed; then the trigger is pressed; then the position
    switch closes and opens three times.  Every change is held for one
    debounce window. *)
Definition scenarioA_ready : list Env :=
  [ioOf [ejectPin; readyPin] 10; ioOf [ejectPin; readyPin] 15].

Definition scenarioA_press : list Env :=
  [ioOf [ejectPin; readyPin; triggerPin] 20;
   ioOf [ejectPin; readyPin; triggerPin] 25].

Definition scenarioA_strokes : list Env :=
  [ioOf [ejectPin; readyPin; triggerPin; positionPin] 30;
   ioOf [ejectPin; readyPin; triggerPin; positionPin] 35;
   ioOf [ejectPin; readyPin; triggerPin] 40;
   ioOf [ejectPin; readyPin; triggerPin] 45;
   ioOf [ejectPin; readyPin; triggerPin; positionPin] 50;
   ioOf [ejectPin; readyPin; triggerPin; positionPin] 55;
   ioOf [ejectPin; readyPin; triggerPin] 60;
   ioOf [ejectPin; readyPin; triggerPin] 65;
   ioOf [ejectPin; readyPin; triggerPin; positionPin] 70;
   ioOf [ejectPin; readyPin; triggerPin; positionPin] 75].

(** v0.9.0 passes from power-up: eject closed and ready pressed, trigger
    pressed at 300 ms, the pusher started at 310 ms, the position switch
    closed at 320 ms. *)
Definition longRun090 : list Env :=
  [ioOf [ejectPin; readyPin] 10;
   ioOf [ejectPin; readyPin] 15;
   ioOf [ejectPin; readyPin; triggerPin] 300;
   ioOf [ejectPin; readyPin; triggerPin] 305;
   ioOf [ejectPin; readyPin; triggerPin] 310;
   ioOf [ejectPin; readyPin; triggerPin; positionPin] 320;
   ioOf [ejectPin; readyPin; triggerPin; positionPin] 325].

(** v0.5.0 from power-up: magazine in, eject closed, both chamber sensors
    active and the ready switch pressed, held for one debounce window. *)
Definition ready050 : list Env :=
  [ioOf [magazinePin; ejectPin; disclPin; discrPin; readyPin] 10;
   ioOf [magazinePin; ejectPin; disclPin; discrPin; readyPin] 20].

(** A trigger press as the debouncer sees it: released at power-up, then
    pressed at 10 ms and still pressed at 12 ms and at 15 ms. *)
Definition pressPolls : list Poll :=
  [mkPoll 0 true; mkPoll 10 false; mkPoll 12 false].

Definition pressCommit : Poll := mkPoll 15 false.

(** ** Clocks of runs that stay before the first rollover *)

(** The times of the polls [ps] do not decrease, starting from [t], and
    stay below 2^32. *)
Fixpoint pollsAscend (t : Z) (ps : list Poll) : Prop :=
  match ps with
  | [] => True
  | p :: rest => t <= at_ms p < 2 ^ 32 /\ pollsAscend (at_ms p) rest
  end.

(** The clock reading of the last pass of [ios], or [t] if there is none. *)
Fixpoint lastClock (t : Z) (ios : list Env) : Z :=
  match ios with
  | [] => t
  | io :: rest => lastClock (millis io) rest
  end.

(** ** Further concrete runs *)

(** v0.5.0 from power-up: magazine in, eject closed and both chamber
    sensors active; at 600 ms the trigger is pressed without the ready
    switch. *)
Definition pressNoReady050 : list Env :=
  [ioOf [magazinePin; ejectPin; disclPin; discrPin] 10;
   ioOf [magazinePin; ejectPin; disclPin; discrPin] 20;
   ioOf [magazinePin; ejectPin; disclPin; discrPin; triggerPin] 600;
   ioOf [magazinePin; ejectPin; disclPin; discrPin; triggerPin] 610].

(** ** Passes in true time *)

(** One pass through [loop] as the outside world has it: the time since
    power-up in milliseconds, not reduced modulo 2^32, and the level of
    every pin. *)
Record Pass : Type := mkPass { at_time : Z; pins : Z -> bool }.

(** What the sketch sees of a pass: [millis()] is the time modulo 2^32. *)
Definition envAt (p : Pass) : Env := mkEnv (pins p) (wrap32 (at_time p)).

(** The pass in which exactly the pins of [low] read LOW, at time [t]. *)
Definition passOf (low : list Z) (t : Z) : Pass :=
  mkPass t (fun pin => negb (existsb (Z.eqb pin) low)).

(** The times of the passes [ps] do not decrease, starting from [t]. *)
Fixpoint timesAscend (t : Z) (ps : list Pass) : Prop :=
  match ps with
  | [] => True
  | p :: rest => t <= at_time p /\ timesAscend (at_time p) rest
  end.

(** The true time of the spin-up of v0.9.0: [flywheelControl] writes
    [flywheelStartTime] at a pass exactly when it was zero before the pass
    and is not zero after it; [g] is the true time of the last pass that
    did so before [p]. *)
Definition stampedAt090 (p : Pass) (s : V090.State) (g : Z) : Z :=
  if (V090.flywheelStartTime s =? 0)
     && negb (V090.flywheelStartTime (V090.loop (envAt p) s) =? 0)
  then at_time p else g.

Fixpoint spinUp090 (ps : list Pass) (s : V090.State) (g : Z) : Z :=
  match ps with
  | [] => g
  | p :: rest => spinUp090 rest (V090.loop (envAt p) s) (stampedAt090 p s g)
  end.

(** v0.9.0 at true time [t] with spin-up at true time [g]: a set timestamp
    is [g] modulo 2^32 and not in the future, and a pusher commanded Run
    has a flywheel that was spun up at least the spool time ago. *)
Definition trueTimeInv (t : Z) (s : V090.State) (g : Z) : Prop :=
  (V090.flywheelStartTime s <> 0 ->
   V090.flywheelStartTime s = wrap32 g /\ g <= t) /\
  (V090.pusherPulse s = V090.pusherRunPulse ->
   V090.flywheelStartTime s <> 0 /\ g + V090.flywheelSpoolTime <= t).

(** v0.5.0 from power-up: magazine in, eject closed, both chamber sensors
    active and ready pressed (the flywheel spins up at 20 ms); the trigger
    is pressed at 30 ms; the position switch closes at 50 ms. *)
Definition homeBeforeSpool050 : list Env :=
  [ioOf [magazinePin; ejectPin; disclPin; discrPin; readyPin] 10;
   ioOf [magazinePin; ejectPin; disclPin; discrPin; readyPin] 20;
   ioOf [magazinePin; ejectPin; disclPin; discrPin; readyPin; triggerPin] 30;
   ioOf [magazinePin; ejectPin; disclPin; discrPin; readyPin; triggerPin] 40;
   ioOf [magazinePin; ejectPin; disclPin; discrPin; readyPin; triggerPin;
         positionPin] 50].

(** The next pass, at 60 ms, with the same switches: the position signal
    is debounced active. *)
Definition homePass050 : Env :=
  ioOf [magazinePin; ejectPin; disclPin; discrPin; readyPin; triggerPin;
        positionPin] 60.

(** Scenario A on v0.9.0 in true time, started 2^32 - 20 ms after
    power-up, up to the pass before the position signal is debounced
    active: the clock rolls over between the ready press and the trigger
    press. *)
Definition scenarioAcrossRollover : list Pass :=
  [passOf [ejectPin; readyPin] (2 ^ 32 - 20);
   passOf [ejectPin; readyPin] (2 ^ 32 - 15);
   passOf [ejectPin; readyPin; triggerPin] (2 ^ 32 + 20);
   passOf [ejectPin; readyPin; triggerPin] (2 ^ 32 + 25);
   passOf [ejectPin; readyPin; triggerPin; positionPin] (2 ^ 32 + 30)].

Definition homePassAcrossRollover : Pass :=
  passOf [ejectPin; readyPin; triggerPin; positionPin] (2 ^ 32 + 35).

(** * Facts shared by the proofs *)

#[global] Arguments shotCount : simpl never.
#[global] Arguments wrap16 : simpl never.
#[global] Arguments wrap32 : simpl never.
#[global] Arguments elapsed : simpl never.
#[global] Arguments nonzero : simpl never.
#[global] Arguments debounceInputWith : simpl never.
#[global] Arguments V090.debounceInput : simpl never.
#[global] Arguments V090.pusherControl : simpl never.
#[global] Arguments V090.flywheelControl : simpl never.
#[global] Arguments V090.fireControl : simpl never.
#[global] Arguments V090.readInputs : simpl never.
#[global] Arguments V090.control : simpl never.
#[global] Arguments V090.loop : simpl never.
#[global] Arguments V090.held : simpl never.
#[global] Arguments V090.strokeEdge : simpl never.
#[global] Arguments V050.debounceInput : simpl never.
#[global] Arguments V050.pusherControl : simpl never.
#[global] Arguments V050.flywheelControl : simpl never.
#[global] Arguments V050.fireControl : simpl never.
#[global] Arguments V050.readInputs : simpl never.
#[global] Arguments V050.control : simpl never.
#[global] Arguments V050.loop : simpl never.
#[global] Arguments V050.held : simpl never.
#[global] Arguments V050.strokeEdge : simpl never.

Section Arithmetic.

Lemma elapsed_self (t : Z) : elapsed t t = 0.
Proof. unfold elapsed, wrap32. now rewrite Z.sub_diag. Qed.

Lemma elapsed_wrap (T1 T0 : Z) :
  elapsed (wrap32 T1) (wrap32 T0) = (T1 - T0) mod 2 ^ 32.
Proof. unfold elapsed, wrap32. now rewrite <- Zminus_mod. Qed.

Lemma elapsed_exact (T1 T0 : Z) :
  0 <= T1 - T0 < 2 ^ 32 -> elapsed (wrap32 T1) (wrap32 T0) = T1 - T0.
Proof. intros H. rewrite elapsed_wrap. now apply Z.mod_small. Qed.

Lemma elapsed_le (T1 T0 : Z) :
  T0 <= T1 -> elapsed (wrap32 T1) (wrap32 T0) <= T1 - T0.
Proof.
  intros H. rewrite elapsed_wrap. apply Z.mod_le; lia.
Qed.

Lemma elapsed_range (now stamp : Z) : 0 <= elapsed now stamp < 2 ^ 32.
Proof. unfold elapsed, wrap32. apply Z.mod_pos_bound. lia. Qed.

Lemma wrap16_pred (n : Z) : 0 < n < 2 ^ 16 -> wrap16 (n - 1) = n - 1.
Proof. intros H. unfold wrap16. apply Z.mod_small. lia. Qed.

Lemma nonzero_true (z : Z) : nonzero z = true <-> z <> 0.
Proof. unfold nonzero. rewrite negb_true_iff. apply Z.eqb_neq. Qed.

Lemma nonzero_false (z : Z) : nonzero z = false <-> z = 0.
Proof. unfold nonzero. rewrite negb_false_iff. apply Z.eqb_eq. Qed.

(** One step of a count that drops by one at an event unless it is already
    zero, followed by [k] further events. *)
Lemma countdown_step (n k : Z) (e : bool) :
  0 <= n < 2 ^ 16 -> 0 <= k ->
  Z.max 0 ((if e && nonzero n then n - 1 else n) - k)
  = Z.max 0 (n - ((if e then 1 else 0) + k)) /\
  0 <= (if e && nonzero n then n - 1 else n) < 2 ^ 16.
Proof.
  intros R K. destruct e; destruct (nonzero n) eqn:N; cbn [andb];
    try apply nonzero_true in N; try apply nonzero_false in N; lia.
Qed.

End Arithmetic.

Lemma upd_same {A : Type} (a : Z -> A) (i : Z) (v : A) : upd a i v i = v.
Proof. unfold upd. now rewrite Z.eqb_refl. Qed.

Lemma upd_other {A : Type} (a : Z -> A) (i j : Z) (v : A) :
  j <> i -> upd a i v j = a j.
Proof. intros H. unfold upd. apply Z.eqb_neq in H. now rewrite H. Qed.

(** Case analysis on every condition of a controller. *)
Ltac split_ifs :=
  repeat (cbn in *;
          match goal with
          | |- context [if ?b then _ else _] =>
              lazymatch type of b with
              | bool =>
                  lazymatch b with
                  | context [if _ then _ else _] => fail
                  | _ => destruct b eqn:?
                  end
              end
          end);
  cbn in *.

Ltac bool_hyps :=
  repeat match goal with
         | H : _ && _ = true |- _ => apply andb_true_iff in H; destruct H
         | H : _ || _ = false |- _ => apply orb_false_iff in H; destruct H
         | H : negb _ = true |- _ => apply negb_true_iff in H
         | H : negb _ = false |- _ => apply negb_false_iff in H
         | H : (_ <=? _) = true |- _ => apply Z.leb_le in H
         | H : (_ <=? _) = false |- _ => apply Z.leb_gt in H
         | H : (_ =? _) = true |- _ => apply Z.eqb_eq in H
         | H : (_ =? _) = false |- _ => apply Z.eqb_neq in H
         | H : nonzero _ = true |- _ => apply nonzero_true in H
         | H : nonzero _ = false |- _ => apply nonzero_false in H
         end.

(** Splitting of conjunctions only (never an equation). *)
Ltac conjs := repeat match goal with |- _ /\ _ => split end.

(** Destructuring of the frame facts of one call. *)
Ltac frames_of H := cbv zeta in H; decompose [and] H; clear H.

(** ** What each function of v0.9.0 leaves alone *)

Section Frames090.

Import V090.

Lemma readInputs_frame (io : Env) (s : State) :
  let s1 := readInputs io s in
  shotMode s1 = shotMode s /\ shotsRemaining s1 = shotsRemaining s /\
  flywheelStartTime s1 = flywheelStartTime s /\
  flywheelTimer s1 = flywheelTimer s /\
  pusherPulse s1 = pusherPulse s /\ flywheelPulse s1 = flywheelPulse s /\
  lastTriggerPinState s1 = lastTriggerPinState s /\
  lastpositionPinState s1 = lastpositionPinState s /\
  pusher s1 = pusher s /\ flywheel s1 = flywheel s.
Proof. unfold readInputs. cbn. repeat split. Qed.

Lemma readInputs_constants (io : Env) (s : State) :
  let s1 := readInputs io s in
  magazinePinState s1 = true /\ disclPinState s1 = true /\
  discrPinState s1 = true.
Proof. unfold readInputs. cbn. repeat split. Qed.

Lemma pusherControl_frame (io : Env) (s : State) :
  let s' := pusherControl io s in
  magazinePinState s' = magazinePinState s /\
  ejectPinState s' = ejectPinState s /\
  disclPinState s' = disclPinState s /\
  discrPinState s' = discrPinState s /\
  positionPinState s' = positionPinState s /\
  triggerPinState s' = triggerPinState s /\
  readyPinState s' = readyPinState s /\
  shotMode s' = shotMode s /\ shotsRemaining s' = shotsRemaining s /\
  flywheelStartTime s' = flywheelStartTime s /\
  flywheelTimer s' = flywheelTimer s /\
  flywheelPulse s' = flywheelPulse s /\ flywheel s' = flywheel s /\
  lastTriggerPinState s' = lastTriggerPinState s /\
  lastpositionPinState s' = lastpositionPinState s /\
  debounce s' = debounce s /\
  pusher s' = pusherPulse s'.
Proof.
  destruct s. unfold pusherControl. cbn. split_ifs; cbn; repeat split.
Qed.

Lemma flywheelControl_frame (io : Env) (s : State) :
  let s' := flywheelControl io s in
  magazinePinState s' = magazinePinState s /\
  ejectPinState s' = ejectPinState s /\
  disclPinState s' = disclPinState s /\
  discrPinState s' = discrPinState s /\
  positionPinState s' = positionPinState s /\
  triggerPinState s' = triggerPinState s /\
  readyPinState s' = readyPinState s /\
  shotMode s' = shotMode s /\ shotsRemaining s' = shotsRemaining s /\
  pusherPulse s' = pusherPulse s /\ pusher s' = pusher s /\
  lastTriggerPinState s' = lastTriggerPinState s /\
  lastpositionPinState s' = lastpositionPinState s /\
  debounce s' = debounce s /\
  flywheel s' = flywheelPulse s'.
Proof.
  destruct s. unfold flywheelControl. cbn. split_ifs; cbn; repeat split.
Qed.

Lemma fireControl_frame (s : State) :
  let s' := fireControl s in
  magazinePinState s' = magazinePinState s /\
  ejectPinState s' = ejectPinState s /\
  disclPinState s' = disclPinState s /\
  discrPinState s' = discrPinState s /\
  positionPinState s' = positionPinState s /\
  triggerPinState s' = triggerPinState s /\
  readyPinState s' = readyPinState s /\
  shotMode s' = shotMode s /\
  flywheelStartTime s' = flywheelStartTime s /\
  flywheelTimer s' = flywheelTimer s /\
  pusherPulse s' = pusherPulse s /\ pusher s' = pusher s /\
  flywheelPulse s' = flywheelPulse s /\ flywheel s' = flywheel s /\
  debounce s' = debounce s /\
  lastTriggerPinState s' = triggerPinState s /\
  lastpositionPinState s' = positionPinState s.
Proof.
  destruct s. unfold fireControl. cbn. split_ifs; cbn; repeat split.
Qed.

Lemma loop_fields (io : Env) (s : State) :
  let c := control io (readInputs io s) in
  let s' := loop io s in
  magazinePinState s' = magazinePinState c /\
  ejectPinState s' = ejectPinState c /\
  disclPinState s' = disclPinState c /\
  discrPinState s' = discrPinState c /\
  positionPinState s' = positionPinState c /\
  triggerPinState s' = triggerPinState c /\
  readyPinState s' = readyPinState c /\
  shotMode s' = shotMode c /\ shotsRemaining s' = shotsRemaining c /\
  flywheelStartTime s' = flywheelStartTime c /\
  flywheelTimer s' = flywheelTimer c /\
  pusherPulse s' = pusherPulse c /\ pusher s' = pusher c /\
  flywheelPulse s' = flywheelPulse c /\ flywheel s' = flywheel c /\
  debounce s' = debounce c /\
  lastTriggerPinState s' = lastTriggerPinState c /\
  lastpositionPinState s' = lastpositionPinState c.
Proof.
  unfold loop. cbv zeta. destruct (control io (readInputs io s)).
  cbn. repeat split.
Qed.

Lemma control_pins (io : Env) (s : State) :
  let s' := control io s in
  magazinePinState s' = magazinePinState s /\
  ejectPinState s' = ejectPinState s /\
  disclPinState s' = disclPinState s /\
  discrPinState s' = discrPinState s /\
  positionPinState s' = positionPinState s /\
  triggerPinState s' = triggerPinState s /\
  readyPinState s' = readyPinState s /\
  shotMode s' = shotMode s /\
  debounce s' = debounce s.
Proof.
  unfold control. cbv zeta.
  pose proof (pusherControl_frame io s) as P.
  pose proof (flywheelControl_frame io (pusherControl io s)) as F.
  pose proof (fireControl_frame (flywheelControl io (pusherControl io s))) as Q.
  frames_of P. frames_of F. frames_of Q.
  conjs; congruence.
Qed.

(** ** The interlock branch of each controller *)

Lemma pusherControl_interlock_open (io : Env) (s : State) :
  ejectPinState s && magazinePinState s = false ->
  pusherPulse (pusherControl io s) = pusherStopPulse /\
  pusher (pusherControl io s) = pusherStopPulse.
Proof.
  intros H. destruct s. unfold pusherControl. cbn in *. rewrite H. cbn.
  split; reflexivity.
Qed.

Lemma flywheelControl_interlock_open (io : Env) (s : State) :
  ejectPinState s && magazinePinState s = false ->
  flywheelPulse (flywheelControl io s) = flywheelStopPulse /\
  flywheel (flywheelControl io s) = flywheelStopPulse /\
  flywheelStartTime (flywheelControl io s) = 0.
Proof.
  intros H. destruct s. cbn in H. unfold flywheelControl.
  destruct ejectPinState0, magazinePinState0; try discriminate H;
    cbn; rewrite ?andb_false_r, ?orb_true_r; cbn; repeat split.
Qed.

Lemma fireControl_interlock_open (s : State) :
  ejectPinState s && magazinePinState s = false ->
  shotsRemaining (fireControl s) = 0.
Proof.
  intros H. destruct s. cbn in H. unfold fireControl.
  destruct ejectPinState0, magazinePinState0; try discriminate H;
    split_ifs; rewrite ?andb_false_r, ?orb_true_r in *;
    try reflexivity; discriminate.
Qed.

End Frames090.

(** * The safety interlock (v0.9.0) *)

Section Interlock090.

Import V090.

Lemma control_interlock_open (io : Env) (s : State) :
  ejectPinState s && magazinePinState s = false ->
  pusherPulse (control io s) = pusherStopPulse /\
  pusher (control io s) = pusherStopPulse /\
  flywheelPulse (control io s) = flywheelStopPulse /\
  flywheel (control io s) = flywheelStopPulse /\
  shotsRemaining (control io s) = 0.
Proof.
  intros Open. unfold control.
  pose proof (pusherControl_frame io s) as P.
  pose proof (flywheelControl_frame io (pusherControl io s)) as F.
  pose proof (fireControl_frame (flywheelControl io (pusherControl io s))) as Q.
  frames_of P. frames_of F. frames_of Q.
  assert (Ip : ejectPinState (pusherControl io s)
               && magazinePinState (pusherControl io s) = false)
    by congruence.
  assert (If : ejectPinState (flywheelControl io (pusherControl io s))
               && magazinePinState (flywheelControl io (pusherControl io s))
               = false) by congruence.
  destruct (pusherControl_interlock_open io s Open) as [Pp Ps].
  destruct (flywheelControl_interlock_open io _ Ip) as (Fp & Fs & _).
  pose proof (fireControl_interlock_open _ If) as Z0.
  conjs; congruence.
Qed.

(** C1.  At every pass in which the interlock is not satisfied, the pass
    ends with the pusher command Stop, the flywheel command Stop (both also
    written to the ESCs) and the remaining-shot count zero, whatever the
    commands, stroke phase and count were before.  The first half is the
    three controllers run on any state (eject open or magazine absent); the
    second half is a whole pass of [loop], where the interlock is the one
    debounced at that pass. *)
Theorem C1_interlock_open_stops_everything (io : Env) (s : State) :
  (ejectPinState s && magazinePinState s = false ->
   pusherPulse (control io s) = pusherStopPulse /\
   pusher (control io s) = pusherStopPulse /\
   flywheelPulse (control io s) = flywheelStopPulse /\
   flywheel (control io s) = flywheelStopPulse /\
   shotsRemaining (control io s) = 0)
  /\
  (ejectPinState (loop io s) && magazinePinState (loop io s) = false ->
   pusherPulse (loop io s) = pusherStopPulse /\
   pusher (loop io s) = pusherStopPulse /\
   flywheelPulse (loop io s) = flywheelStopPulse /\
   flywheel (loop io s) = flywheelStopPulse /\
   shotsRemaining (loop io s) = 0).
Proof.
  split.
  - apply control_interlock_open.
  - intros Open.
    pose proof (loop_fields io s) as L. frames_of L.
    pose proof (control_pins io (readInputs io s)) as C. frames_of C.
    assert (Open' : ejectPinState (readInputs io s)
                 && magazinePinState (readInputs io s) = false)
      by congruence.
    pose proof (control_interlock_open io _ Open') as R.
    decompose [and] R. conjs; congruence.
Qed.

Lemma C1_witness :
  (pusherPulse (control (ioOf [] 2000) (set_magazinePinState false midBurst090))
   = pusherStopPulse /\
   pusher (control (ioOf [] 2000) (set_magazinePinState false midBurst090))
   = pusherStopPulse /\
   flywheelPulse (control (ioOf [] 2000) (set_magazinePinState false midBurst090))
   = flywheelStopPulse /\
   flywheel (control (ioOf [] 2000) (set_magazinePinState false midBurst090))
   = flywheelStopPulse /\
   shotsRemaining (control (ioOf [] 2000) (set_magazinePinState false midBurst090))
   = 0)
  /\
  (pusherPulse (loop (ioOf [triggerPin; readyPin] 2000) midBurst090)
   = pusherStopPulse /\
   pusher (loop (ioOf [triggerPin; readyPin] 2000) midBurst090)
   = pusherStopPulse /\
   flywheelPulse (loop (ioOf [triggerPin; readyPin] 2000) midBurst090)
   = flywheelStopPulse /\
   flywheel (loop (ioOf [triggerPin; readyPin] 2000) midBurst090)
   = flywheelStopPulse /\
   shotsRemaining (loop (ioOf [triggerPin; readyPin] 2000) midBurst090) = 0).
Proof.
  split.
  - apply (proj1 (C1_interlock_open_stops_everything
                    (ioOf [] 2000) (set_magazinePinState false midBurst090))).
    reflexivity.
  - apply (proj2 (C1_interlock_open_stops_everything
                    (ioOf [triggerPin; readyPin] 2000) midBurst090)).
    vm_compute. reflexivity.
Defined.

(** ** The channels the v0.9.0 loop does not read *)

Lemma debounceInputWith_env (delay : Z) (io io' : Env) (pin : Z) (d : Debounce) :
  digitalRead io' pin = digitalRead io pin ->
  millis io' = millis io ->
  debounceInputWith delay io' pin d = debounceInputWith delay io pin d.
Proof.
  intros R M. unfold debounceInputWith. now rewrite R, M.
Qed.

Lemma readInputs_env (io io' : Env) (s : State) :
  digitalRead io' ejectPin = digitalRead io ejectPin ->
  digitalRead io' positionPin = digitalRead io positionPin ->
  digitalRead io' triggerPin = digitalRead io triggerPin ->
  digitalRead io' readyPin = digitalRead io readyPin ->
  millis io' = millis io ->
  readInputs io' s = readInputs io s.
Proof.
  intros E P T R M. unfold readInputs, debounceInput. cbv zeta.
  rewrite (debounceInputWith_env _ io io' ejectPin _ E M).
  rewrite (debounceInputWith_env _ io io' positionPin _ P M).
  rewrite (debounceInputWith_env _ io io' triggerPin _ T M).
  rewrite (debounceInputWith_env _ io io' readyPin _ R M).
  reflexivity.
Qed.

Lemma control_env (io io' : Env) (s : State) :
  millis io' = millis io -> control io' s = control io s.
Proof.
  intros M. unfold control, flywheelControl, pusherControl.
  now rewrite M.
Qed.

Lemma pusherControl_stop_cases (io : Env) (s : State) :
  disclPinState s = true ->
  pusherPulse (pusherControl io s) = pusherStopPulse ->
  ejectPinState s && magazinePinState s = false \/
  (positionPinState s = false /\ shotsRemaining s = 0) \/
  pusherPulse s = pusherStopPulse.
Proof.
  destruct s. unfold pusherControl. cbn. intros D. subst.
  split_ifs; intros E; bool_hyps; subst; auto; try discriminate E.
Qed.

(** C2.  In v0.9.0 the magazine state and both chamber-sensor states are
    the constant [true] at every pass: they hold [true] when the controllers
    run and when the pass ends, the interlock is the eject channel alone,
    the both-sensors-absent condition is false, the pass does not depend on
    the levels of the three pins, and the pusher is commanded Stop only by
    an open eject switch, by an empty queue away from home, or because Stop
    was already the command. *)
Theorem C2_magazine_and_chamber_constant (io : Env) (s : State) :
  (magazinePinState (readInputs io s) = true /\
   disclPinState (readInputs io s) = true /\
   discrPinState (readInputs io s) = true) /\
  (magazinePinState (loop io s) = true /\
   disclPinState (loop io s) = true /\
   discrPinState (loop io s) = true) /\
  ejectPinState (readInputs io s) && magazinePinState (readInputs io s)
  = ejectPinState (readInputs io s) /\
  negb (disclPinState (readInputs io s))
  && negb (discrPinState (readInputs io s)) = false /\
  (forall io' : Env,
      digitalRead io' ejectPin = digitalRead io ejectPin ->
      digitalRead io' positionPin = digitalRead io positionPin ->
      digitalRead io' triggerPin = digitalRead io triggerPin ->
      digitalRead io' readyPin = digitalRead io readyPin ->
      millis io' = millis io ->
      loop io' s = loop io s) /\
  (pusherPulse (loop io s) = pusherStopPulse ->
   ejectPinState (loop io s) = false \/
   (positionPinState (loop io s) = false /\ shotsRemaining s = 0) \/
   pusherPulse s = pusherStopPulse).
Proof.
  pose proof (readInputs_constants io s) as K. cbv zeta in K.
  destruct K as (Km & Kl & Kr).
  pose proof (loop_fields io s) as L. frames_of L.
  pose proof (control_pins io (readInputs io s)) as C. frames_of C.
  pose proof (readInputs_frame io s) as RF. frames_of RF.
  split; [auto|]. split; [conjs; congruence|].
  split; [rewrite Km; apply andb_true_r|].
  split; [rewrite Kl; reflexivity|].
  split.
  - intros io' E P T R M. unfold loop.
    rewrite (readInputs_env io io' s E P T R M).
    now rewrite (control_env io io' _ M).
  - intros S.
    assert (S' : pusherPulse (pusherControl io (readInputs io s))
                 = pusherStopPulse).
    { unfold control in *.
      pose proof (flywheelControl_frame io (pusherControl io (readInputs io s))) as F.
      pose proof (fireControl_frame
                    (flywheelControl io (pusherControl io (readInputs io s)))) as Q.
      frames_of F. frames_of Q. congruence. }
    destruct (pusherControl_stop_cases io _ Kl S') as [A | [[A B] | A]].
    + left. rewrite Km, andb_true_r in A. congruence.
    + right. left. split; congruence.
    + right. right. congruence.
Qed.

Lemma C2_witness :
  loop (ioOf [ejectPin; triggerPin; readyPin] 2000) midBurst090
  = loop (ioOf [magazinePin; ejectPin; disclPin; discrPin; triggerPin; readyPin]
               2000) midBurst090.
Proof.
  apply (proj1 (proj2 (proj2 (proj2 (proj2
           (C2_magazine_and_chamber_constant
              (ioOf [magazinePin; ejectPin; disclPin; discrPin;
                     triggerPin; readyPin] 2000) midBurst090)))))
           (ioOf [ejectPin; triggerPin; readyPin] 2000));
    reflexivity.
Defined.

End Interlock090.

(** * The input debouncer (both revisions) *)

Section DebounceFacts.

Variable delay : Z.
Hypothesis delay_pos : 0 < delay.

(** A sample equal to the one seen at the previous poll of the channel. *)
Lemma debounce_step_same (io : Env) (pin : Z) (d : Debounce) :
  negb (digitalRead io pin) = lastState d pin ->
  timer (snd (debounceInputWith delay io pin d)) pin = timer d pin /\
  lastState (snd (debounceInputWith delay io pin d)) pin = lastState d pin /\
  currentState (snd (debounceInputWith delay io pin d)) pin
  = (if delay <=? elapsed (millis io) (timer d pin)
     then negb (digitalRead io pin) else currentState d pin) /\
  fst (debounceInputWith delay io pin d)
  = currentState (snd (debounceInputWith delay io pin d)) pin.
Proof.
  intros E. unfold debounceInputWith. rewrite E, eqb_reflx. cbn.
  destruct (delay <=? elapsed (millis io) (timer d pin)); cbn;
    rewrite ?upd_same; auto.
Qed.

(** A sample different from the one seen at the previous poll. *)
Lemma debounce_step_edge (io : Env) (pin : Z) (d : Debounce) :
  negb (digitalRead io pin) <> lastState d pin ->
  timer (snd (debounceInputWith delay io pin d)) pin = millis io /\
  lastState (snd (debounceInputWith delay io pin d)) pin
  = negb (digitalRead io pin) /\
  currentState (snd (debounceInputWith delay io pin d)) pin
  = currentState d pin /\
  fst (debounceInputWith delay io pin d) = currentState d pin.
Proof.
  intros E. unfold debounceInputWith.
  apply eqb_false_iff in E. rewrite E. cbn.
  rewrite upd_same, elapsed_self.
  assert (G : (delay <=? 0) = false) by (apply Z.leb_gt; exact delay_pos).
  rewrite G. cbn. rewrite !upd_same. auto.
Qed.

(** Polling one pin leaves the entries of every other pin alone. *)
Lemma debounce_other_pin (io : Env) (pin other : Z) (d : Debounce) :
  other <> pin ->
  timer (snd (debounceInputWith delay io pin d)) other = timer d other /\
  lastState (snd (debounceInputWith delay io pin d)) other
  = lastState d other /\
  currentState (snd (debounceInputWith delay io pin d)) other
  = currentState d other.
Proof.
  intros N. unfold debounceInputWith.
  destruct (negb (Bool.eqb (negb (digitalRead io pin)) (lastState d pin)));
    cbn;
    match goal with
    | |- context [if ?b then _ else _] => destruct b
    end; cbn; rewrite ?upd_other by exact N; auto.
Qed.

(** After a poll, [lastState] holds the sample of that poll. *)
Lemma debounce_last_sample (io : Env) (pin : Z) (d : Debounce) :
  lastState (snd (debounceInputWith delay io pin d)) pin
  = negb (digitalRead io pin).
Proof.
  destruct (bool_dec (negb (digitalRead io pin)) (lastState d pin)) as [E | E].
  - destruct (debounce_step_same io pin d E) as (_ & L & _). congruence.
  - destruct (debounce_step_edge io pin d E) as (_ & L & _). exact L.
Qed.

Lemma debounce_glitch (io1 io2 : Env) (pin : Z) (d : Debounce) :
  negb (digitalRead io1 pin) <> lastState d pin ->
  negb (digitalRead io2 pin) <> negb (digitalRead io1 pin) ->
  fst (debounceInputWith delay io1 pin d) = currentState d pin /\
  fst (debounceInputWith delay io2 pin
         (snd (debounceInputWith delay io1 pin d))) = currentState d pin.
Proof.
  intros E1 E2.
  destruct (debounce_step_edge io1 pin d E1) as (_ & L1 & C1 & F1).
  split; [exact F1|].
  rewrite <- L1 in E2.
  destruct (debounce_step_edge io2 pin _ E2) as (_ & _ & _ & F2).
  congruence.
Qed.

Lemma pollAll_snoc (pin : Z) (ps : list Poll) (p : Poll) (d : Debounce) :
  pollAll delay pin (ps ++ [p]) d
  = snd (debounceInputWith delay (envOf p) pin (pollAll delay pin ps d)).
Proof.
  revert d. induction ps as [|x ps IH]; intros d; cbn; [reflexivity|].
  apply IH.
Qed.

Lemma channelInv_step (pin : Z) (ps : list Poll) (p : Poll) (d : Debounce) :
  channelInv pin ps d ->
  channelInv pin (ps ++ [p])
             (snd (debounceInputWith delay (envOf p) pin d)).
Proof.
  intros I.
  destruct (bool_dec (negb (digitalRead (envOf p) pin)) (lastState d pin))
    as [E | E].
  - destruct (debounce_step_same (envOf p) pin d E) as (T & L & C & _).
    destruct I as [(L0 & C0 & A) | (pre & q & post & S & L0 & T0 & A)].
    + left. rewrite L, C. cbn in E. fold (live p) in E.
      repeat split.
      * exact L0.
      * destruct (delay <=? _); [cbn; fold (live p); congruence | exact C0].
      * apply Forall_app. split; [exact A|]. constructor; [congruence|constructor].
    + right. exists pre, q, (post ++ [p]). repeat split.
      * rewrite S, <- app_assoc. reflexivity.
      * congruence.
      * congruence.
      * apply Forall_app. split; [exact A|].
        constructor; [|constructor]. cbn in E. fold (live p) in E. congruence.
  - destruct (debounce_step_edge (envOf p) pin d E) as (T & L & _ & _).
    right. exists ps, p, []. repeat split.
    + exact L.
    + exact T.
    + constructor.
Qed.

Lemma channelInv_pollAll (pin : Z) (ps : list Poll) :
  channelInv pin ps (pollAll delay pin ps Debounce0).
Proof.
  induction ps as [|p ps IH] using rev_ind.
  - left. cbn. auto.
  - rewrite pollAll_snoc. apply channelInv_step. exact IH.
Qed.

(** A poll that changes the committed value commits a value that every
    poll of the last [delay] milliseconds has seen. *)
Lemma debounce_commit_stable (pin : Z) (ps : list Poll) (p : Poll) :
  Forall (fun q => at_ms q <= at_ms p) ps ->
  fst (debounceInputWith delay (envOf p) pin (pollAll delay pin ps Debounce0))
  <> currentState (pollAll delay pin ps Debounce0) pin ->
  exists pre q post,
    ps = pre ++ q :: post /\
    live q = fst (debounceInputWith delay (envOf p) pin
                    (pollAll delay pin ps Debounce0)) /\
    Forall (fun x => live x
                     = fst (debounceInputWith delay (envOf p) pin
                              (pollAll delay pin ps Debounce0))) post /\
    live p = fst (debounceInputWith delay (envOf p) pin
                    (pollAll delay pin ps Debounce0)) /\
    delay <= at_ms p - at_ms q.
Proof.
  intros Mono Change.
  pose proof (channelInv_pollAll pin ps) as I.
  set (d := pollAll delay pin ps Debounce0) in *.
  destruct (bool_dec (negb (digitalRead (envOf p) pin)) (lastState d pin))
    as [E | E].
  2:{ destruct (debounce_step_edge (envOf p) pin d E) as (_ & _ & _ & F).
      contradiction. }
  destruct (debounce_step_same (envOf p) pin d E) as (_ & _ & C & F).
  rewrite F, C in *. cbn in E, C, Change |- *. fold (live p) in *.
  destruct (delay <=? elapsed (wrap32 (at_ms p)) (timer d pin)) eqn:G;
    [|contradiction].
  apply Z.leb_le in G.
  destruct I as [(L0 & C0 & A) | (pre & q & post & S & L0 & T0 & A)].
  - congruence.
  - exists pre, q, post.
    assert (Q : at_ms q <= at_ms p).
    { rewrite Forall_forall in Mono. apply Mono. rewrite S.
      apply in_or_app. right. left. reflexivity. }
    rewrite T0 in G. pose proof (elapsed_le _ _ Q).
    conjs; try congruence; try lia.
    eapply Forall_impl; [|exact A]. cbn. intros; congruence.
Qed.

End DebounceFacts.

(** C6.  For every channel [pin] and in both revisions ([delay] is the
    revision's [debounceDelay]), whatever the times of the polls:
    - [lastState] holds the sample of the channel's previous poll, and a
      sample that differs from the previous sample and from the next one
      (a glitch seen at a single poll) leaves the committed value
      unchanged at both polls;
    - polling another channel does not touch this channel's entries;
    - from power-up, a poll at which the committed value changes commits a
      value that was sampled at an earlier poll [q] at least [delay]
      milliseconds before, at every poll since, and at this poll. *)
Theorem C6_debounce_needs_full_stable_window (delay pin : Z) :
  delay = V090.debounceDelay \/ delay = V050.debounceDelay ->
  (forall (io : Env) (d : Debounce),
      lastState (snd (debounceInputWith delay io pin d)) pin
      = negb (digitalRead io pin))
  /\
  (forall (io1 io2 : Env) (d : Debounce),
      negb (digitalRead io1 pin) <> lastState d pin ->
      negb (digitalRead io2 pin) <> negb (digitalRead io1 pin) ->
      fst (debounceInputWith delay io1 pin d) = currentState d pin /\
      fst (debounceInputWith delay io2 pin
             (snd (debounceInputWith delay io1 pin d))) = currentState d pin)
  /\
  (forall (io : Env) (other : Z) (d : Debounce),
      other <> pin ->
      timer (snd (debounceInputWith delay io other d)) pin = timer d pin /\
      lastState (snd (debounceInputWith delay io other d)) pin
      = lastState d pin /\
      currentState (snd (debounceInputWith delay io other d)) pin
      = currentState d pin)
  /\
  (forall (ps : list Poll) (p : Poll),
      Forall (fun q => at_ms q <= at_ms p) ps ->
      fst (debounceInputWith delay (envOf p) pin
             (pollAll delay pin ps Debounce0))
      <> currentState (pollAll delay pin ps Debounce0) pin ->
      exists pre q post,
        ps = pre ++ q :: post /\
        live q = fst (debounceInputWith delay (envOf p) pin
                        (pollAll delay pin ps Debounce0)) /\
        Forall (fun x => live x
                         = fst (debounceInputWith delay (envOf p) pin
                                  (pollAll delay pin ps Debounce0))) post /\
        live p = fst (debounceInputWith delay (envOf p) pin
                        (pollAll delay pin ps Debounce0)) /\
        delay <= at_ms p - at_ms q).
Proof.
  intros D.
  assert (P : 0 < delay) by (destruct D; subst; reflexivity).
  split; [|split; [|split]].
  - intros. apply debounce_last_sample. exact P.
  - intros. now apply debounce_glitch.
  - intros io other d N. apply debounce_other_pin. congruence.
  - intros. now apply debounce_commit_stable.
Qed.

Lemma C6_witness :
  (fst (debounceInputWith 5 (ioOf [triggerPin] 100) triggerPin Debounce0)
   = currentState Debounce0 triggerPin /\
   fst (debounceInputWith 5 (ioOf [] 101) triggerPin
          (snd (debounceInputWith 5 (ioOf [triggerPin] 100) triggerPin
                  Debounce0)))
   = currentState Debounce0 triggerPin)
  /\
  (exists pre q post,
      pressPolls = pre ++ q :: post /\
      live q = fst (debounceInputWith 5 (envOf pressCommit) triggerPin
                      (pollAll 5 triggerPin pressPolls Debounce0)) /\
      Forall (fun x => live x
                       = fst (debounceInputWith 5 (envOf pressCommit) triggerPin
                                (pollAll 5 triggerPin pressPolls Debounce0)))
             post /\
      live pressCommit
      = fst (debounceInputWith 5 (envOf pressCommit) triggerPin
               (pollAll 5 triggerPin pressPolls Debounce0)) /\
      5 <= at_ms pressCommit - at_ms q).
Proof.
  split.
  - apply (proj1 (proj2 (C6_debounce_needs_full_stable_window
                           5 triggerPin (or_introl eq_refl))));
      vm_compute; discriminate.
  - apply (proj2 (proj2 (proj2 (C6_debounce_needs_full_stable_window
                                  5 triggerPin (or_introl eq_refl))))).
    + repeat constructor; vm_compute; discriminate.
    + vm_compute. discriminate.
Defined.

(** * The fire queue (v0.9.0) *)

Section FireQueue090.

Import V090.

(** [fireControl] with the trigger held since the previous pass and the
    interlock satisfied: the only thing that can happen to the count is the
    decrement. *)
Lemma fireControl_held (s : State) :
  triggerPinState s = true -> lastTriggerPinState s = true ->
  ejectPinState s = true -> magazinePinState s = true ->
  shotsRemaining (fireControl s)
  = (if nonzero (shotsRemaining s) && negb (lastpositionPinState s)
        && positionPinState s
     then wrap16 (shotsRemaining s - 1) else shotsRemaining s).
Proof.
  destruct s. unfold fireControl. cbn. intros; subst. cbn.
  split_ifs; reflexivity.
Qed.

(** [fireControl] at a trigger press with the interlock satisfied. *)
Lemma fireControl_press (s : State) :
  triggerPinState s = true -> lastTriggerPinState s = false ->
  ejectPinState s = true -> magazinePinState s = true ->
  shotsRemaining (fireControl s)
  = (if nonzero (shotCount (shotMode s)) && negb (lastpositionPinState s)
        && positionPinState s
     then wrap16 (shotCount (shotMode s) - 1) else shotCount (shotMode s)).
Proof.
  destruct s. unfold fireControl. cbn. intros; subst. cbn.
  split_ifs; reflexivity.
Qed.

(** The fields [fireControl] reads, as a whole pass leaves them. *)
Lemma loop_fire (io : Env) (s : State) :
  shotsRemaining (loop io s)
  = shotsRemaining
      (fireControl (flywheelControl io (pusherControl io (readInputs io s))))
  /\ lastTriggerPinState (loop io s) = triggerPinState (readInputs io s)
  /\ lastpositionPinState (loop io s) = positionPinState (readInputs io s).
Proof.
  pose proof (loop_fields io s) as L. frames_of L.
  pose proof (pusherControl_frame io (readInputs io s)) as P.
  pose proof (flywheelControl_frame io (pusherControl io (readInputs io s))) as F.
  pose proof (fireControl_frame
                (flywheelControl io (pusherControl io (readInputs io s)))) as Q.
  frames_of P. frames_of F. frames_of Q. unfold control in *.
  conjs; congruence.
Qed.

(** The state [fireControl] runs on in a pass agrees with the state after
    [readInputs] on everything [fireControl] reads. *)
Lemma before_fire (io : Env) (s : State) :
  let s1 := readInputs io s in
  let s2 := flywheelControl io (pusherControl io s1) in
  triggerPinState s2 = triggerPinState s1 /\
  ejectPinState s2 = ejectPinState s1 /\
  magazinePinState s2 = magazinePinState s1 /\
  positionPinState s2 = positionPinState s1 /\
  shotMode s2 = shotMode s /\ shotsRemaining s2 = shotsRemaining s /\
  lastTriggerPinState s2 = lastTriggerPinState s /\
  lastpositionPinState s2 = lastpositionPinState s.
Proof.
  cbv zeta.
  pose proof (readInputs_frame io s) as R.
  pose proof (pusherControl_frame io (readInputs io s)) as P.
  pose proof (flywheelControl_frame io (pusherControl io (readInputs io s))) as F.
  frames_of R. frames_of P. frames_of F.
  conjs; congruence.
Qed.

Lemma held_true (io : Env) (s : State) :
  held io s = true ->
  triggerPinState (readInputs io s) = true /\
  ejectPinState (readInputs io s) = true /\
  magazinePinState (readInputs io s) = true.
Proof.
  unfold held. cbv zeta. intros H.
  apply andb_true_iff in H. destruct H as [H M].
  apply andb_true_iff in H. destruct H as [T E]. auto.
Qed.

(** One pass with the trigger held: the count drops by one exactly at a
    completed stroke, and only if it is not already zero. *)
Lemma loop_held (io : Env) (s : State) :
  held io s = true -> lastTriggerPinState s = true ->
  0 <= shotsRemaining s < 2 ^ 16 ->
  shotsRemaining (loop io s)
  = (if strokeEdge io s && nonzero (shotsRemaining s)
     then shotsRemaining s - 1 else shotsRemaining s)
  /\ lastTriggerPinState (loop io s) = true.
Proof.
  intros H LT Rg.
  destruct (held_true io s H) as (T & E & M).
  destruct (loop_fire io s) as (LS & LT' & LP).
  pose proof (before_fire io s) as B. frames_of B.
  split; [|congruence].
  rewrite LS, fireControl_held by congruence.
  unfold strokeEdge.
  replace (shotsRemaining (flywheelControl io (pusherControl io (readInputs io s))))
    with (shotsRemaining s) by congruence.
  replace (lastpositionPinState
             (flywheelControl io (pusherControl io (readInputs io s))))
    with (lastpositionPinState s) by congruence.
  replace (positionPinState
             (flywheelControl io (pusherControl io (readInputs io s))))
    with (positionPinState (readInputs io s)) by congruence.
  destruct (nonzero (shotsRemaining s)) eqn:N;
    destruct (lastpositionPinState s), (positionPinState (readInputs io s));
    cbn; try reflexivity.
  apply wrap16_pred. apply nonzero_true in N. lia.
Qed.

(** The equations of the pass-by-pass definitions. *)
Lemma run_cons (io : Env) (ios : list Env) (s : State) :
  run (io :: ios) s = run ios (loop io s).
Proof. reflexivity. Qed.

Lemma strokes_cons (io : Env) (ios : list Env) (s : State) :
  strokes (io :: ios) s
  = (if strokeEdge io s then 1 else 0) + strokes ios (loop io s).
Proof. reflexivity. Qed.

Lemma allHeld_cons (io : Env) (ios : list Env) (s : State) :
  allHeld (io :: ios) s = held io s && allHeld ios (loop io s).
Proof. reflexivity. Qed.

Lemma strokes_nonneg (ios : list Env) (s : State) : 0 <= strokes ios s.
Proof.
  revert s. induction ios as [|io ios IH]; intros s.
  - cbn [strokes]. lia.
  - rewrite strokes_cons. specialize (IH (loop io s)).
    destruct (strokeEdge io s); lia.
Qed.

(** Any number of passes with the trigger held and the interlock
    satisfied: the count is the initial count less the completed strokes,
    and stays at zero once there. *)
Lemma run_held (ios : list Env) (s : State) :
  allHeld ios s = true -> lastTriggerPinState s = true ->
  0 <= shotsRemaining s < 2 ^ 16 ->
  shotsRemaining (run ios s) = Z.max 0 (shotsRemaining s - strokes ios s).
Proof.
  revert s. induction ios as [|io ios IH]; intros s H LT Rg.
  - cbn [run strokes]. lia.
  - rewrite allHeld_cons in H. apply andb_true_iff in H.
    destruct H as [H HA].
    destruct (loop_held io s H LT Rg) as (S1 & LT1).
    pose proof (strokes_nonneg ios (loop io s)) as NN.
    destruct (countdown_step (shotsRemaining s) (strokes ios (loop io s))
                (strokeEdge io s) Rg NN) as (C1 & C2).
    rewrite run_cons, strokes_cons.
    rewrite IH; [|exact HA|exact LT1|].
    + rewrite S1. exact C1.
    + rewrite S1. exact C2.
Qed.

End FireQueue090.

(** * The fire queue (v0.5.0) *)

Section FireQueue050.

Import V050.

Lemma readInputs_frame_050 (io : Env) (s : State) :
  let s1 := readInputs io s in
  shotMode s1 = shotMode s /\ shotsRemaining s1 = shotsRemaining s /\
  flywheelStartTime s1 = flywheelStartTime s /\
  flywheelTimer s1 = flywheelTimer s /\
  positionPinTimer s1 = positionPinTimer s /\
  lastPositionPinState s1 = lastPositionPinState s /\
  lastTriggerPinState s1 = lastTriggerPinState s /\
  lastDiscState s1 = lastDiscState s /\
  pusher s1 = pusher s /\ flywheel s1 = flywheel s.
Proof. unfold readInputs. cbn. repeat split. Qed.

Lemma pusherControl_frame_050 (io : Env) (s : State) :
  let s' := pusherControl io s in
  magazinePinState s' = magazinePinState s /\
  ejectPinState s' = ejectPinState s /\
  disclPinState s' = disclPinState s /\
  discrPinState s' = discrPinState s /\
  positionPinState s' = positionPinState s /\
  triggerPinState s' = triggerPinState s /\
  readyPinState s' = readyPinState s /\
  shotMode s' = shotMode s /\ shotsRemaining s' = shotsRemaining s /\
  flywheelStartTime s' = flywheelStartTime s /\
  flywheelTimer s' = flywheelTimer s /\
  flywheel s' = flywheel s /\
  lastTriggerPinState s' = lastTriggerPinState s /\
  lastDiscState s' = lastDiscState s /\
  debounce s' = debounce s.
Proof.
  destruct s. unfold pusherControl. split_ifs; repeat split.
Qed.

Lemma flywheelControl_frame_050 (io : Env) (s : State) :
  let s' := flywheelControl io s in
  magazinePinState s' = magazinePinState s /\
  ejectPinState s' = ejectPinState s /\
  disclPinState s' = disclPinState s /\
  discrPinState s' = discrPinState s /\
  positionPinState s' = positionPinState s /\
  triggerPinState s' = triggerPinState s /\
  readyPinState s' = readyPinState s /\
  shotMode s' = shotMode s /\ shotsRemaining s' = shotsRemaining s /\
  positionPinTimer s' = positionPinTimer s /\
  lastPositionPinState s' = lastPositionPinState s /\
  pusher s' = pusher s /\
  lastTriggerPinState s' = lastTriggerPinState s /\
  lastDiscState s' = lastDiscState s /\
  debounce s' = debounce s.
Proof.
  destruct s. unfold flywheelControl. split_ifs; repeat split.
Qed.

Lemma fireControl_frame_050 (s : State) :
  let s' := fireControl s in
  magazinePinState s' = magazinePinState s /\
  ejectPinState s' = ejectPinState s /\
  disclPinState s' = disclPinState s /\
  discrPinState s' = discrPinState s /\
  positionPinState s' = positionPinState s /\
  triggerPinState s' = triggerPinState s /\
  readyPinState s' = readyPinState s /\
  shotMode s' = shotMode s /\
  flywheelStartTime s' = flywheelStartTime s /\
  flywheelTimer s' = flywheelTimer s /\
  positionPinTimer s' = positionPinTimer s /\
  lastPositionPinState s' = lastPositionPinState s /\
  pusher s' = pusher s /\ flywheel s' = flywheel s /\
  debounce s' = debounce s /\
  lastTriggerPinState s' = triggerPinState s /\
  lastDiscState s' = disclPinState s && discrPinState s.
Proof.
  destruct s. unfold fireControl. split_ifs; repeat split.
Qed.

Lemma fireControl_held_050 (s : State) :
  triggerPinState s = true -> lastTriggerPinState s = true ->
  ejectPinState s = true -> magazinePinState s = true ->
  shotsRemaining (fireControl s)
  = (if nonzero (shotsRemaining s) && lastDiscState s
        && (negb (disclPinState s) || negb (discrPinState s))
     then wrap16 (shotsRemaining s - 1) else shotsRemaining s).
Proof.
  destruct s. unfold fireControl. cbn. intros; subst. cbn.
  split_ifs; reflexivity.
Qed.

Lemma before_fire_050 (io : Env) (s : State) :
  let s1 := readInputs io s in
  let s2 := flywheelControl io (pusherControl io s1) in
  triggerPinState s2 = triggerPinState s1 /\
  ejectPinState s2 = ejectPinState s1 /\
  magazinePinState s2 = magazinePinState s1 /\
  disclPinState s2 = disclPinState s1 /\
  discrPinState s2 = discrPinState s1 /\
  shotMode s2 = shotMode s /\ shotsRemaining s2 = shotsRemaining s /\
  lastTriggerPinState s2 = lastTriggerPinState s /\
  lastDiscState s2 = lastDiscState s.
Proof.
  cbv zeta.
  pose proof (readInputs_frame_050 io s) as R.
  pose proof (pusherControl_frame_050 io (readInputs io s)) as P.
  pose proof (flywheelControl_frame_050 io (pusherControl io (readInputs io s)))
    as F.
  frames_of R. frames_of P. frames_of F.
  conjs; congruence.
Qed.

Lemma held_true_050 (io : Env) (s : State) :
  held io s = true ->
  triggerPinState (readInputs io s) = true /\
  ejectPinState (readInputs io s) = true /\
  magazinePinState (readInputs io s) = true.
Proof.
  unfold held. cbv zeta. intros H.
  apply andb_true_iff in H. destruct H as [H M].
  apply andb_true_iff in H. destruct H as [T E]. auto.
Qed.

Lemma loop_held_050 (io : Env) (s : State) :
  held io s = true -> lastTriggerPinState s = true ->
  0 <= shotsRemaining s < 2 ^ 16 ->
  shotsRemaining (loop io s)
  = (if strokeEdge io s && nonzero (shotsRemaining s)
     then shotsRemaining s - 1 else shotsRemaining s)
  /\ lastTriggerPinState (loop io s) = true.
Proof.
  intros H LT Rg.
  destruct (held_true_050 io s H) as (T & E & M).
  pose proof (before_fire_050 io s) as B. frames_of B.
  pose proof (fireControl_frame_050
                (flywheelControl io (pusherControl io (readInputs io s)))) as Q.
  frames_of Q.
  unfold loop, control. split; [|congruence].
  rewrite fireControl_held_050 by congruence.
  unfold strokeEdge. cbv zeta.
  replace (shotsRemaining (flywheelControl io (pusherControl io (readInputs io s))))
    with (shotsRemaining s) by congruence.
  replace (lastDiscState (flywheelControl io (pusherControl io (readInputs io s))))
    with (lastDiscState s) by congruence.
  replace (disclPinState (flywheelControl io (pusherControl io (readInputs io s))))
    with (disclPinState (readInputs io s)) by congruence.
  replace (discrPinState (flywheelControl io (pusherControl io (readInputs io s))))
    with (discrPinState (readInputs io s)) by congruence.
  destruct (nonzero (shotsRemaining s)) eqn:N;
    destruct (lastDiscState s), (disclPinState (readInputs io s)),
      (discrPinState (readInputs io s));
    cbn [andb orb negb]; try reflexivity;
    apply wrap16_pred; apply nonzero_true in N; lia.
Qed.

(** The equations of the pass-by-pass definitions. *)
Lemma run_cons_050 (io : Env) (ios : list Env) (s : State) :
  run (io :: ios) s = run ios (loop io s).
Proof. reflexivity. Qed.

Lemma strokes_cons_050 (io : Env) (ios : list Env) (s : State) :
  strokes (io :: ios) s
  = (if strokeEdge io s then 1 else 0) + strokes ios (loop io s).
Proof. reflexivity. Qed.

Lemma allHeld_cons_050 (io : Env) (ios : list Env) (s : State) :
  allHeld (io :: ios) s = held io s && allHeld ios (loop io s).
Proof. reflexivity. Qed.

Lemma strokes_nonneg_050 (ios : list Env) (s : State) : 0 <= strokes ios s.
Proof.
  revert s. induction ios as [|io ios IH]; intros s.
  - cbn [strokes]. lia.
  - rewrite strokes_cons_050. specialize (IH (loop io s)).
    destruct (strokeEdge io s); lia.
Qed.

Lemma run_held_050 (ios : list Env) (s : State) :
  allHeld ios s = true -> lastTriggerPinState s = true ->
  0 <= shotsRemaining s < 2 ^ 16 ->
  shotsRemaining (run ios s) = Z.max 0 (shotsRemaining s - strokes ios s).
Proof.
  revert s. induction ios as [|io ios IH]; intros s H LT Rg.
  - cbn [run strokes]. lia.
  - rewrite allHeld_cons_050 in H. apply andb_true_iff in H.
    destruct H as [H HA].
    destruct (loop_held_050 io s H LT Rg) as (S1 & LT1).
    pose proof (strokes_nonneg_050 ios (loop io s)) as NN.
    destruct (countdown_step (shotsRemaining s) (strokes ios (loop io s))
                (strokeEdge io s) Rg NN) as (C1 & C2).
    rewrite run_cons_050, strokes_cons_050.
    rewrite IH; [|exact HA|exact LT1|].
    + rewrite S1. exact C1.
    + rewrite S1. exact C2.
Qed.

End FireQueue050.

(** * Bursts and full-auto *)

Section Bursts.

(** C3, as the code has it.  With the full-auto count 65535 loaded, the
    trigger held and the interlock satisfied, a completed stroke decrements
    the count like any other: [fireControl] of v0.9.0 takes it to 65534 at
    a rising edge of the position signal, and [fireControl] of v0.5.0 does
    so when a chamber sensor clears. *)
Lemma C3_counterexample :
  (V090.shotsRemaining fullAuto090 = shotCount (V090.shotMode fullAuto090) /\
   V090.triggerPinState fullAuto090 = true /\
   V090.lastTriggerPinState fullAuto090 = true /\
   V090.ejectPinState fullAuto090 && V090.magazinePinState fullAuto090 = true /\
   negb (V090.lastpositionPinState fullAuto090)
   && V090.positionPinState fullAuto090 = true /\
   V090.shotsRemaining (V090.fireControl fullAuto090) = 65534 /\
   V090.shotsRemaining (V090.fireControl fullAuto090)
   <> V090.shotsRemaining fullAuto090)
  /\
  (V050.shotsRemaining fullAuto050 = shotCount (V050.shotMode fullAuto050) /\
   V050.triggerPinState fullAuto050 = true /\
   V050.lastTriggerPinState fullAuto050 = true /\
   V050.ejectPinState fullAuto050 && V050.magazinePinState fullAuto050 = true /\
   V050.shotsRemaining (V050.fireControl fullAuto050) = 65534 /\
   V050.shotsRemaining (V050.fireControl fullAuto050)
   <> V050.shotsRemaining fullAuto050).
Proof.
  vm_compute. repeat split; discriminate.
Qed.

(** C3, amended.  In both revisions the full-auto count 65535 is an
    ordinary count.  Over any passes with the trigger held and the
    interlock satisfied, starting with 65535 loaded, the count is 65535
    less the number of completed strokes, and zero from the 65535th stroke
    on; so it is non-zero exactly while fewer than 65535 strokes have
    completed. *)
Theorem C3_full_auto_counts_down :
  (forall (ios : list Env) (s : V090.State),
      V090.shotsRemaining s = 65535 ->
      V090.lastTriggerPinState s = true ->
      V090.allHeld ios s = true ->
      V090.shotsRemaining (V090.run ios s)
      = Z.max 0 (65535 - V090.strokes ios s) /\
      (V090.shotsRemaining (V090.run ios s) = 0
       <-> 65535 <= V090.strokes ios s))
  /\
  (forall (ios : list Env) (s : V050.State),
      V050.shotsRemaining s = 65535 ->
      V050.lastTriggerPinState s = true ->
      V050.allHeld ios s = true ->
      V050.shotsRemaining (V050.run ios s)
      = Z.max 0 (65535 - V050.strokes ios s) /\
      (V050.shotsRemaining (V050.run ios s) = 0
       <-> 65535 <= V050.strokes ios s)).
Proof.
  split; intros ios s S LT H.
  - assert (R : V090.shotsRemaining (V090.run ios s)
                = Z.max 0 (65535 - V090.strokes ios s)).
    { rewrite run_held by (auto; rewrite S; lia). now rewrite S. }
    split; [exact R|]. rewrite R. lia.
  - assert (R : V050.shotsRemaining (V050.run ios s)
                = Z.max 0 (65535 - V050.strokes ios s)).
    { rewrite run_held_050 by (auto; rewrite S; lia). now rewrite S. }
    split; [exact R|]. rewrite R. lia.
Qed.

Lemma C3_witness :
  (V090.shotsRemaining
     (V090.run [ioOf [ejectPin; triggerPin; readyPin; positionPin] 2000;
                ioOf [ejectPin; triggerPin; readyPin; positionPin] 2005]
               (V090.set_shotsRemaining 65535 midBurst090))
   = Z.max 0 (65535
              - V090.strokes
                  [ioOf [ejectPin; triggerPin; readyPin; positionPin] 2000;
                   ioOf [ejectPin; triggerPin; readyPin; positionPin] 2005]
                  (V090.set_shotsRemaining 65535 midBurst090)))
  /\
  (V050.shotsRemaining
     (V050.run [ioOf [4; 5; 7; 9; 10] 2000; ioOf [4; 5; 7; 9; 10] 2010]
               (V050.set_shotsRemaining 65535 midBurst050))
   = Z.max 0 (65535
              - V050.strokes
                  [ioOf [4; 5; 7; 9; 10] 2000; ioOf [4; 5; 7; 9; 10] 2010]
                  (V050.set_shotsRemaining 65535 midBurst050))).
Proof.
  split.
  - apply (proj1 C3_full_auto_counts_down); reflexivity.
  - apply (proj2 C3_full_auto_counts_down); reflexivity.
Defined.

End Bursts.

Section ScenarioA.

Import V090.

Lemma flywheelControl_demand (io : Env) (s : State) :
  ejectPinState s = true -> magazinePinState s = true ->
  nonzero (shotsRemaining s) || readyPinState s = true ->
  flywheelPulse (flywheelControl io s) = flywheelRunPulse /\
  flywheel (flywheelControl io s) = flywheelRunPulse /\
  flywheelTimer (flywheelControl io s) = millis io /\
  flywheelStartTime (flywheelControl io s)
  = (if flywheelStartTime s =? 0 then millis io else flywheelStartTime s).
Proof.
  destruct s. unfold flywheelControl. cbn. intros E M D. subst.
  rewrite D. cbn.
  destruct (flywheelStartTime0 =? 0); cbn; rewrite elapsed_self; cbn;
    repeat split.
Qed.

(** C8.  Scenario A on v0.9.0.
    - At a pass with the interlock satisfied, ready asserted and the queue
      empty, the flywheel is commanded Run.
    - At a pass with a rising edge of the trigger, the interlock satisfied
      and the mode whose shot count is 3 selected (and no stroke completing
      at that same pass), the remaining-shot count becomes 3.
    - From a count of 3 with the trigger held and the interlock satisfied,
      the count after the passes [ios] is 3 less the rising edges of the
      position signal among them: not zero before the third edge, zero
      after it. *)
Theorem C8_scenario_burst_of_three :
  (forall (io : Env) (s : State),
      ejectPinState (readInputs io s) = true ->
      readyPinState (readInputs io s) = true ->
      shotsRemaining s = 0 ->
      flywheelPulse (loop io s) = flywheelRunPulse /\
      flywheel (loop io s) = flywheelRunPulse)
  /\
  (forall (io : Env) (s : State),
      triggerPinState (readInputs io s) = true ->
      lastTriggerPinState s = false ->
      ejectPinState (readInputs io s) = true ->
      shotCount (shotMode s) = 3 ->
      strokeEdge io s = false ->
      shotsRemaining (loop io s) = 3 /\
      lastTriggerPinState (loop io s) = true)
  /\
  (forall (ios : list Env) (s : State),
      shotsRemaining s = 3 ->
      lastTriggerPinState s = true ->
      allHeld ios s = true ->
      (strokes ios s < 3 ->
       shotsRemaining (run ios s) = 3 - strokes ios s /\
       shotsRemaining (run ios s) <> 0) /\
      (strokes ios s = 3 -> shotsRemaining (run ios s) = 0)).
Proof.
  split; [|split].
  - intros io s E R Q.
    pose proof (loop_fields io s) as L. frames_of L.
    pose proof (readInputs_constants io s) as K. cbv zeta in K.
    destruct K as (Km & _ & _).
    pose proof (pusherControl_frame io (readInputs io s)) as P.
    pose proof (fireControl_frame
                  (flywheelControl io (pusherControl io (readInputs io s)))) as F.
    frames_of P. frames_of F. unfold control in *.
    destruct (flywheelControl_demand io (pusherControl io (readInputs io s)))
      as (A & B & _); try congruence.
    { replace (readyPinState (pusherControl io (readInputs io s))) with true
        by congruence.
      apply orb_true_r. }
    pose proof (flywheelControl_frame io (pusherControl io (readInputs io s))) as G.
    frames_of G. split; congruence.
  - intros io s T LT E C NE.
    destruct (loop_fire io s) as (LS & LT' & _).
    pose proof (before_fire io s) as B. frames_of B.
    pose proof (readInputs_constants io s) as K. cbv zeta in K.
    destruct K as (Km & _ & _).
    split; [|congruence].
    rewrite LS, fireControl_press by congruence.
    unfold strokeEdge in NE.
    replace (shotMode (flywheelControl io (pusherControl io (readInputs io s))))
      with (shotMode s) by congruence.
    replace (lastpositionPinState
               (flywheelControl io (pusherControl io (readInputs io s))))
      with (lastpositionPinState s) by congruence.
    replace (positionPinState
               (flywheelControl io (pusherControl io (readInputs io s))))
      with (positionPinState (readInputs io s)) by congruence.
    rewrite C, <- andb_assoc, NE, andb_false_r. reflexivity.
  - intros ios s S LT H.
    pose proof (strokes_nonneg ios s) as NN.
    assert (R : shotsRemaining (run ios s) = Z.max 0 (3 - strokes ios s)).
    { rewrite run_held by (auto; rewrite S; lia). now rewrite S. }
    rewrite R. split; intros; lia.
Qed.

Lemma C8_witness :
  (flywheelPulse (loop (ioOf [ejectPin; readyPin] 15)
                       (run [ioOf [ejectPin; readyPin] 10] init))
   = flywheelRunPulse /\
   flywheel (loop (ioOf [ejectPin; readyPin] 15)
                  (run [ioOf [ejectPin; readyPin] 10] init))
   = flywheelRunPulse)
  /\
  (shotsRemaining
     (loop (ioOf [ejectPin; readyPin; triggerPin] 25)
           (run (scenarioA_ready ++ [ioOf [ejectPin; readyPin; triggerPin] 20])
                init)) = 3 /\
   lastTriggerPinState
     (loop (ioOf [ejectPin; readyPin; triggerPin] 25)
           (run (scenarioA_ready ++ [ioOf [ejectPin; readyPin; triggerPin] 20])
                init)) = true)
  /\
  shotsRemaining
    (run scenarioA_strokes (run (scenarioA_ready ++ scenarioA_press) init)) = 0.
Proof.
  split; [|split].
  - apply (proj1 C8_scenario_burst_of_three); reflexivity.
  - apply (proj1 (proj2 C8_scenario_burst_of_three)); reflexivity.
  - apply (proj2 (proj2 C8_scenario_burst_of_three)
             scenarioA_strokes
             (run (scenarioA_ready ++ scenarioA_press) init));
      reflexivity.
Defined.

End ScenarioA.

(** * The flywheel spin-up timestamp (both revisions) *)

Section Flywheel090.

Import V090.

(** What one call of [flywheelControl] does to the timestamp. *)
Lemma flywheelControl_stamp (io : Env) (s : State) :
  (flywheelStartTime (flywheelControl io s) <> flywheelStartTime s ->
   flywheelStartTime (flywheelControl io s) <> 0 ->
   flywheelStartTime s = 0 /\
   flywheelStartTime (flywheelControl io s) = millis io) /\
  (flywheelStartTime s <> 0 ->
   flywheelPulse (flywheelControl io s) = flywheelRunPulse ->
   flywheelStartTime (flywheelControl io s) = flywheelStartTime s) /\
  ((flywheelStartTime s <> 0 -> flywheelPulse s = flywheelRunPulse) ->
   flywheelStartTime (flywheelControl io s) <> 0 ->
   flywheelPulse (flywheelControl io s) = flywheelRunPulse).
Proof.
  destruct s. unfold flywheelControl.
  split_ifs; bool_hyps; repeat split; intros; subst;
    try congruence; try discriminate; auto.
Qed.

Lemma loop_flywheel (io : Env) (s : State) :
  let x := pusherControl io (readInputs io s) in
  flywheelStartTime (loop io s) = flywheelStartTime (flywheelControl io x) /\
  flywheelPulse (loop io s) = flywheelPulse (flywheelControl io x) /\
  flywheel (loop io s) = flywheelPulse (flywheelControl io x) /\
  flywheelStartTime x = flywheelStartTime s /\
  flywheelPulse x = flywheelPulse s.
Proof.
  cbv zeta.
  pose proof (loop_fields io s) as L. frames_of L.
  pose proof (readInputs_frame io s) as R.
  pose proof (pusherControl_frame io (readInputs io s)) as P.
  pose proof (flywheelControl_frame io (pusherControl io (readInputs io s))) as F.
  pose proof (fireControl_frame
                (flywheelControl io (pusherControl io (readInputs io s)))) as Q.
  frames_of R. frames_of P. frames_of F. frames_of Q. unfold control in *.
  conjs; congruence.
Qed.

Lemma stampedRunning_loop (io : Env) (s : State) :
  stampedRunning s -> stampedRunning (loop io s).
Proof.
  intros I N.
  pose proof (loop_flywheel io s) as L. cbv zeta in L.
  destruct L as (LS & LP & LF & XS & XP).
  destruct (flywheelControl_stamp io (pusherControl io (readInputs io s)))
    as (_ & _ & K).
  assert (flywheelPulse (flywheelControl io (pusherControl io (readInputs io s)))
          = flywheelRunPulse).
  { apply K; [|congruence]. intros M. rewrite XS in M. rewrite XP.
    apply I. exact M. }
  split; congruence.
Qed.

Lemma reachable_stampedRunning (s : State) : reachable s -> stampedRunning s.
Proof.
  induction 1 as [|io s R IH].
  - intros N. cbn in N. congruence.
  - now apply stampedRunning_loop.
Qed.

Lemma reachable_run (ios : list Env) (s : State) :
  reachable s -> reachable (run ios s).
Proof.
  revert s. induction ios as [|io ios IH]; intros s R.
  - exact R.
  - rewrite run_cons. apply IH. now constructor.
Qed.

Lemma loop_stamp (io : Env) (s : State) :
  reachable s ->
  (flywheelStartTime (loop io s) <> flywheelStartTime s ->
   flywheelStartTime (loop io s) <> 0 ->
   flywheelStartTime s = 0 /\ flywheelStartTime (loop io s) = millis io) /\
  (flywheelStartTime s <> 0 ->
   flywheelPulse (loop io s) = flywheelRunPulse ->
   flywheelStartTime (loop io s) = flywheelStartTime s) /\
  (flywheelPulse (loop io s) = flywheelStopPulse ->
   flywheel (loop io s) = flywheelStopPulse /\
   flywheelStartTime (loop io s) = 0).
Proof.
  intros R.
  pose proof (loop_flywheel io s) as L. cbv zeta in L.
  destruct L as (LS & LP & LF & XS & XP).
  destruct (flywheelControl_stamp io (pusherControl io (readInputs io s)))
    as (A & B & _).
  rewrite <- LS, <- LP, XS in *.
  split; [exact A|]. split; [exact B|].
  intros St. split; [congruence|].
  destruct (Z.eq_dec (flywheelStartTime (loop io s)) 0) as [E|N]; [exact E|].
  destruct (stampedRunning_loop io s (reachable_stampedRunning s R) N) as [P _].
  rewrite P in St. discriminate St.
Qed.

End Flywheel090.

Section Flywheel050.

Import V050.

Lemma flywheelControl_stamp_050 (io : Env) (s : State) :
  (flywheelStartTime (flywheelControl io s) <> flywheelStartTime s ->
   flywheelStartTime (flywheelControl io s) <> 0 ->
   flywheelStartTime s = 0 /\
   flywheelStartTime (flywheelControl io s) = millis io) /\
  (flywheelStartTime s <> 0 ->
   flywheel (flywheelControl io s) = flywheelRunPulse ->
   flywheelStartTime (flywheelControl io s) = flywheelStartTime s) /\
  ((flywheelStartTime s <> 0 -> flywheel s = flywheelRunPulse) ->
   flywheelStartTime (flywheelControl io s) <> 0 ->
   flywheel (flywheelControl io s) = flywheelRunPulse).
Proof.
  destruct s. unfold flywheelControl.
  split_ifs; bool_hyps; repeat split; intros; subst;
    try congruence; try discriminate; auto.
Qed.

Lemma loop_flywheel_050 (io : Env) (s : State) :
  let x := pusherControl io (readInputs io s) in
  flywheelStartTime (loop io s) = flywheelStartTime (flywheelControl io x) /\
  flywheel (loop io s) = flywheel (flywheelControl io x) /\
  flywheelStartTime x = flywheelStartTime s /\
  flywheel x = flywheel s.
Proof.
  cbv zeta.
  pose proof (readInputs_frame_050 io s) as R.
  pose proof (pusherControl_frame_050 io (readInputs io s)) as P.
  pose proof (fireControl_frame_050
                (flywheelControl io (pusherControl io (readInputs io s)))) as Q.
  frames_of R. frames_of P. frames_of Q. unfold loop, control in *.
  conjs; congruence.
Qed.

Lemma stampedRunning_loop_050 (io : Env) (s : State) :
  stampedRunning_050 s -> stampedRunning_050 (loop io s).
Proof.
  intros I N.
  pose proof (loop_flywheel_050 io s) as L. cbv zeta in L.
  destruct L as (LS & LF & XS & XF).
  destruct (flywheelControl_stamp_050 io (pusherControl io (readInputs io s)))
    as (_ & _ & K).
  rewrite LF. apply K; [|congruence].
  intros M. rewrite XS in M. rewrite XF. apply I. exact M.
Qed.

Lemma reachable_stampedRunning_050 (s : State) :
  reachable s -> stampedRunning_050 s.
Proof.
  induction 1 as [|io s R IH].
  - intros N. cbn in N. congruence.
  - now apply stampedRunning_loop_050.
Qed.

Lemma reachable_run_050 (ios : list Env) (s : State) :
  reachable s -> reachable (run ios s).
Proof.
  revert s. induction ios as [|io ios IH]; intros s R.
  - exact R.
  - rewrite run_cons_050. apply IH. now constructor.
Qed.

Lemma loop_stamp_050 (io : Env) (s : State) :
  reachable s ->
  (flywheelStartTime (loop io s) <> flywheelStartTime s ->
   flywheelStartTime (loop io s) <> 0 ->
   flywheelStartTime s = 0 /\ flywheelStartTime (loop io s) = millis io) /\
  (flywheelStartTime s <> 0 ->
   flywheel (loop io s) = flywheelRunPulse ->
   flywheelStartTime (loop io s) = flywheelStartTime s) /\
  (flywheel (loop io s) = flywheelStopPulse ->
   flywheelStartTime (loop io s) = 0).
Proof.
  intros R.
  pose proof (loop_flywheel_050 io s) as L. cbv zeta in L.
  destruct L as (LS & LF & XS & XF).
  destruct (flywheelControl_stamp_050 io (pusherControl io (readInputs io s)))
    as (A & B & _).
  rewrite <- LS, <- LF, XS in *.
  split; [exact A|]. split; [exact B|].
  intros St.
  destruct (Z.eq_dec (flywheelStartTime (loop io s)) 0) as [E|N]; [exact E|].
  pose proof (stampedRunning_loop_050 io s
                (reachable_stampedRunning_050 s R) N) as P.
  rewrite P in St. discriminate St.
Qed.

End Flywheel050.

(** C7.  In both revisions, at every pass from every state the sketch can
    reach:
    - the spin-up timestamp takes a new non-zero value only if it was zero
      before the pass, and the new value is the current clock reading;
    - a timestamp that is set stays as it is at every pass that ends with
      the flywheel commanded Run;
    - at every pass that ends with the flywheel commanded Stop the
      timestamp ends zero. *)
Theorem C7_spin_up_stamp_once_per_episode :
  (forall (io : Env) (s : V090.State),
      V090.reachable s ->
      (V090.flywheelStartTime (V090.loop io s) <> V090.flywheelStartTime s ->
       V090.flywheelStartTime (V090.loop io s) <> 0 ->
       V090.flywheelStartTime s = 0 /\
       V090.flywheelStartTime (V090.loop io s) = millis io) /\
      (V090.flywheelStartTime s <> 0 ->
       V090.flywheelPulse (V090.loop io s) = V090.flywheelRunPulse ->
       V090.flywheelStartTime (V090.loop io s) = V090.flywheelStartTime s) /\
      (V090.flywheelPulse (V090.loop io s) = V090.flywheelStopPulse ->
       V090.flywheel (V090.loop io s) = V090.flywheelStopPulse /\
       V090.flywheelStartTime (V090.loop io s) = 0))
  /\
  (forall (io : Env) (s : V050.State),
      V050.reachable s ->
      (V050.flywheelStartTime (V050.loop io s) <> V050.flywheelStartTime s ->
       V050.flywheelStartTime (V050.loop io s) <> 0 ->
       V050.flywheelStartTime s = 0 /\
       V050.flywheelStartTime (V050.loop io s) = millis io) /\
      (V050.flywheelStartTime s <> 0 ->
       V050.flywheel (V050.loop io s) = V050.flywheelRunPulse ->
       V050.flywheelStartTime (V050.loop io s) = V050.flywheelStartTime s) /\
      (V050.flywheel (V050.loop io s) = V050.flywheelStopPulse ->
       V050.flywheelStartTime (V050.loop io s) = 0)).
Proof.
  split.
  - intros io s R. exact (loop_stamp io s R).
  - intros io s R. exact (loop_stamp_050 io s R).
Qed.

Lemma C7_witness :
  (V090.flywheelStartTime
     (V090.loop (ioOf [ejectPin; readyPin] 20) (V090.run scenarioA_ready V090.init))
   = V090.flywheelStartTime (V090.run scenarioA_ready V090.init))
  /\
  (V090.flywheel
     (V090.loop (ioOf [readyPin] 25)
                (V090.run (scenarioA_ready ++ [ioOf [readyPin] 20]) V090.init))
   = V090.flywheelStopPulse /\
   V090.flywheelStartTime
     (V090.loop (ioOf [readyPin] 25)
                (V090.run (scenarioA_ready ++ [ioOf [readyPin] 20]) V090.init))
   = 0)
  /\
  (V050.flywheelStartTime
     (V050.loop (ioOf [magazinePin; ejectPin; disclPin; discrPin; readyPin] 30)
                (V050.run ready050 V050.init))
   = V050.flywheelStartTime (V050.run ready050 V050.init)).
Proof.
  split; [|split].
  - apply (proj1 (proj2 (proj1 C7_spin_up_stamp_once_per_episode
                           (ioOf [ejectPin; readyPin] 20)
                           (V090.run scenarioA_ready V090.init)
                           (reachable_run _ _ V090.reachable_init)))).
    + vm_compute. discriminate.
    + reflexivity.
  - apply (proj2 (proj2 (proj1 C7_spin_up_stamp_once_per_episode
                           (ioOf [readyPin] 25)
                           (V090.run (scenarioA_ready ++ [ioOf [readyPin] 20])
                                     V090.init)
                           (reachable_run _ _ V090.reachable_init)))).
    reflexivity.
  - apply (proj1 (proj2 (proj2 C7_spin_up_stamp_once_per_episode
                           (ioOf [magazinePin; ejectPin; disclPin; discrPin;
                                  readyPin] 30)
                           (V050.run ready050 V050.init)
                           (reachable_run_050 _ _ V050.reachable_init)))).
    + vm_compute. discriminate.
    + reflexivity.
Defined.

(** * The pusher controller *)

Section Pusher090.

Import V090.

(** [pusherControl] at home (position signal active), interlock satisfied. *)
Lemma pusherControl_home (io : Env) (s : State) :
  ejectPinState s = true -> magazinePinState s = true ->
  positionPinState s = true ->
  pusherPulse (pusherControl io s)
  = (if nonzero (shotsRemaining s)
     then if disclPinState s && discrPinState s
             && nonzero (flywheelStartTime s)
             && (flywheelSpoolTime <=? elapsed (millis io) (flywheelStartTime s))
          then pusherRunPulse else pusherPulse s
     else pusherReturnPulse).
Proof.
  destruct s. unfold pusherControl. cbn. intros; subst. cbn.
  split_ifs; reflexivity.
Qed.

(** [pusherControl] away from home, interlock satisfied, shots queued. *)
Lemma pusherControl_stroke (io : Env) (s : State) :
  ejectPinState s = true -> magazinePinState s = true ->
  positionPinState s = false -> shotsRemaining s <> 0 ->
  pusherPulse (pusherControl io s)
  = (if negb (disclPinState s) && negb (discrPinState s)
     then pusherStopPulse
     else if nonzero (flywheelStartTime s)
             && (flywheelSpoolTime <=? elapsed (millis io) (flywheelStartTime s))
          then if (shotsRemaining s =? 1) && (1 <=? shotMode s)
               then pusherReturnPulse else pusherRunPulse
          else pusherPulse s).
Proof.
  destruct s. unfold pusherControl. cbn. intros E M P N. subst.
  apply nonzero_true in N. rewrite N. cbn.
  split_ifs; reflexivity.
Qed.

(** The pusher command a whole pass ends with is the one [pusherControl]
    computes on the inputs read at that pass. *)
Lemma loop_pusher (io : Env) (s : State) :
  pusherPulse (loop io s) = pusherPulse (pusherControl io (readInputs io s)) /\
  pusher (loop io s) = pusherPulse (pusherControl io (readInputs io s)).
Proof.
  pose proof (loop_fields io s) as L. frames_of L.
  pose proof (pusherControl_frame io (readInputs io s)) as P.
  pose proof (flywheelControl_frame io (pusherControl io (readInputs io s))) as F.
  pose proof (fireControl_frame
                (flywheelControl io (pusherControl io (readInputs io s)))) as Q.
  frames_of P. frames_of F. frames_of Q. unfold control in *.
  split; congruence.
Qed.

End Pusher090.

Section Pusher050.

Import V050.

(** v0.5.0 [pusherControl] with the position signal active and the
    interlock satisfied: the run pulse, always. *)
Lemma pusherControl_home_050 (io : Env) (s : State) :
  ejectPinState s = true -> magazinePinState s = true ->
  positionPinState s = true ->
  pusher (pusherControl io s) = pusherRunPulse.
Proof.
  destruct s. unfold pusherControl. cbn. intros; subst.
  split_ifs; try reflexivity; discriminate.
Qed.

(** v0.5.0 [pusherControl] with the position signal inactive, shots
    queued and the interlock satisfied: the brake needs one sensor clear
    and the disc delay elapsed since the last change of the position
    signal. *)
Lemma pusherControl_stroke_050 (io : Env) (s : State) :
  ejectPinState s = true -> magazinePinState s = true ->
  positionPinState s = false -> shotsRemaining s <> 0 ->
  pusher (pusherControl io s)
  = (if (negb (disclPinState s) || negb (discrPinState s))
        && (pusherDiscDelay
            <=? elapsed (millis io)
                  (if lastPositionPinState s then millis io
                   else positionPinTimer s))
     then pusherStopPulse
     else if flywheelSpoolTime <=? elapsed (millis io) (flywheelStartTime s)
          then pusherRunPulse else pusher s).
Proof.
  destruct s. unfold pusherControl. cbn. intros E M P N. subst.
  apply nonzero_true in N.
  destruct lastPositionPinState0, disclPinState0, discrPinState0;
    repeat (cbn; rewrite ?N;
            try match goal with
                | |- context [?a <=? ?b] => destruct (a <=? b) eqn:?
                end);
    reflexivity.
Qed.

End Pusher050.

Section PusherClaims090.

Import V090.

(** C9.  In v0.9.0, at every pass at which the interlock is satisfied, the
    position signal is inactive, the flywheel has spooled (timestamp set
    and spool time elapsed), exactly one shot remains and the selected mode
    is not mode 0 (the single-shot mode), the pass ends with the pusher
    commanded Return, not Run. *)
Theorem C9_last_shot_returns_early (io : Env) (s : State) :
  ejectPinState (readInputs io s) = true ->
  magazinePinState (readInputs io s) = true ->
  positionPinState (readInputs io s) = false ->
  shotsRemaining s = 1 ->
  0 <= shotMode s -> shotMode s <> 0 ->
  flywheelStartTime s <> 0 ->
  flywheelSpoolTime <= elapsed (millis io) (flywheelStartTime s) ->
  pusherPulse (loop io s) = pusherReturnPulse /\
  pusher (loop io s) = pusherReturnPulse /\
  pusherPulse (loop io s) <> pusherRunPulse.
Proof.
  intros E M P S M0 M1 F Sp.
  destruct (loop_pusher io s) as (LP & LS).
  pose proof (readInputs_frame io s) as R. frames_of R.
  pose proof (readInputs_constants io s) as K. cbv zeta in K.
  destruct K as (_ & Kl & Kr).
  assert (X : pusherPulse (pusherControl io (readInputs io s))
              = pusherReturnPulse).
  { rewrite pusherControl_stroke by congruence.
    rewrite Kl, Kr. cbn [negb andb].
    replace (flywheelStartTime (readInputs io s)) with (flywheelStartTime s)
      by congruence.
    replace (shotsRemaining (readInputs io s)) with 1 by congruence.
    replace (shotMode (readInputs io s)) with (shotMode s) by congruence.
    apply nonzero_true in F. rewrite F.
    apply Z.leb_le in Sp. rewrite Sp. cbn [andb Z.eqb Pos.eqb].
    assert (G : (1 <=? shotMode s) = true) by (apply Z.leb_le; lia).
    now rewrite G. }
  rewrite LP, LS, X. repeat split. discriminate.
Qed.

Lemma C9_witness :
  pusherPulse (loop (ioOf [ejectPin; triggerPin; readyPin] 2000)
                    (set_shotsRemaining 1 midBurst090)) = pusherReturnPulse /\
  pusher (loop (ioOf [ejectPin; triggerPin; readyPin] 2000)
               (set_shotsRemaining 1 midBurst090)) = pusherReturnPulse /\
  pusherPulse (loop (ioOf [ejectPin; triggerPin; readyPin] 2000)
                    (set_shotsRemaining 1 midBurst090)) <> pusherRunPulse.
Proof.
  apply (C9_last_shot_returns_early
           (ioOf [ejectPin; triggerPin; readyPin] 2000)
           (set_shotsRemaining 1 midBurst090));
    try reflexivity; vm_compute; discriminate.
Defined.

(** C5, as the code has it.  In v0.5.0 the brake condition is not the
    conjunction of the two sensors and is not immediate: away from home,
    with shots queued and the interlock satisfied, the pusher is braked
    with only the left sensor clear once the disc delay has passed, and is
    not braked with both sensors clear while the disc delay has not
    passed.  In v0.9.0 the command can be Stop with both sensors active:
    5 ms after the trigger press of scenario A the flywheel has not
    spooled and the Stop of the previous pass is held. *)
Lemma C5_counterexample :
  (V050.ejectPinState (V050.set_disclPinState false midBurst050)
   && V050.magazinePinState (V050.set_disclPinState false midBurst050) = true /\
   V050.positionPinState (V050.set_disclPinState false midBurst050) = false /\
   V050.shotsRemaining (V050.set_disclPinState false midBurst050) <> 0 /\
   V050.disclPinState (V050.set_disclPinState false midBurst050) = false /\
   V050.discrPinState (V050.set_disclPinState false midBurst050) = true /\
   V050.pusher (V050.pusherControl (ioOf [] 2000)
                  (V050.set_disclPinState false midBurst050))
   = V050.pusherStopPulse)
  /\
  (V050.ejectPinState
     (V050.set_discrPinState false (V050.set_disclPinState false midBurst050))
   && V050.magazinePinState
        (V050.set_discrPinState false (V050.set_disclPinState false midBurst050))
   = true /\
   V050.positionPinState
     (V050.set_discrPinState false (V050.set_disclPinState false midBurst050))
   = false /\
   V050.shotsRemaining
     (V050.set_discrPinState false (V050.set_disclPinState false midBurst050))
   <> 0 /\
   V050.disclPinState
     (V050.set_discrPinState false (V050.set_disclPinState false midBurst050))
   = false /\
   V050.discrPinState
     (V050.set_discrPinState false (V050.set_disclPinState false midBurst050))
   = false /\
   V050.pusher
     (V050.pusherControl (ioOf [] 1550)
        (V050.set_discrPinState false (V050.set_disclPinState false midBurst050)))
   = V050.pusherRunPulse)
  /\
  (ejectPinState
     (readInputs (ioOf [ejectPin; readyPin; triggerPin] 30)
                 (run (scenarioA_ready ++ scenarioA_press) init))
   && magazinePinState
        (readInputs (ioOf [ejectPin; readyPin; triggerPin] 30)
                    (run (scenarioA_ready ++ scenarioA_press) init)) = true /\
   positionPinState
     (readInputs (ioOf [ejectPin; readyPin; triggerPin] 30)
                 (run (scenarioA_ready ++ scenarioA_press) init)) = false /\
   shotsRemaining (run (scenarioA_ready ++ scenarioA_press) init) <> 0 /\
   disclPinState
     (readInputs (ioOf [ejectPin; readyPin; triggerPin] 30)
                 (run (scenarioA_ready ++ scenarioA_press) init)) = true /\
   discrPinState
     (readInputs (ioOf [ejectPin; readyPin; triggerPin] 30)
                 (run (scenarioA_ready ++ scenarioA_press) init)) = true /\
   pusherPulse
     (loop (ioOf [ejectPin; readyPin; triggerPin] 30)
           (run (scenarioA_ready ++ scenarioA_press) init))
   = pusherStopPulse).
Proof.
  vm_compute. repeat split; discriminate.
Qed.

(** C5, amended.  In v0.9.0, at every call of [pusherControl] with the
    interlock satisfied, the position signal inactive and shots queued,
    whatever the clock reads:
    - if both chamber sensors are inactive the command is Stop;
    - otherwise the command is what the spool test decides (Return or Run
      once spooled, else the previous command);
    - so a command that was not Stop becomes Stop exactly when both
      sensors are inactive.
    In v0.5.0, in the same situation, the ESC gets the brake pulse when
    at least one sensor is inactive and [pusherDiscDelay] has elapsed
    since the last change of the position signal; otherwise it gets the
    run pulse once the spool time has elapsed, else it keeps its pulse. *)
Theorem C5_brake_is_and_of_both_sensors :
  (forall (io : Env) (s : State),
  ejectPinState s = true -> magazinePinState s = true ->
  positionPinState s = false -> shotsRemaining s <> 0 ->
  (disclPinState s = false /\ discrPinState s = false ->
   pusherPulse (pusherControl io s) = pusherStopPulse /\
   pusher (pusherControl io s) = pusherStopPulse)
  /\
  (~ (disclPinState s = false /\ discrPinState s = false) ->
   pusherPulse (pusherControl io s)
   = (if nonzero (flywheelStartTime s)
         && (flywheelSpoolTime <=? elapsed (millis io) (flywheelStartTime s))
      then if (shotsRemaining s =? 1) && (1 <=? shotMode s)
           then pusherReturnPulse else pusherRunPulse
      else pusherPulse s))
  /\
  (pusherPulse s <> pusherStopPulse ->
   (pusherPulse (pusherControl io s) = pusherStopPulse
    <-> disclPinState s = false /\ discrPinState s = false)))
  /\
  (forall (io : Env) (s : V050.State),
      V050.ejectPinState s = true -> V050.magazinePinState s = true ->
      V050.positionPinState s = false -> V050.shotsRemaining s <> 0 ->
      V050.pusher (V050.pusherControl io s)
      = (if (negb (V050.disclPinState s) || negb (V050.discrPinState s))
            && (V050.pusherDiscDelay
                <=? elapsed (millis io)
                      (if V050.lastPositionPinState s then millis io
                       else V050.positionPinTimer s))
         then V050.pusherStopPulse
         else if V050.flywheelSpoolTime
                 <=? elapsed (millis io) (V050.flywheelStartTime s)
              then V050.pusherRunPulse else V050.pusher s)).
Proof.
  split; [|intros; now apply pusherControl_stroke_050].
  intros io s E M P N.
  assert (Sv : pusher (pusherControl io s) = pusherPulse (pusherControl io s)).
  { pose proof (pusherControl_frame io s) as F. frames_of F. assumption. }
  pose proof (pusherControl_stroke io s E M P N) as C.
  destruct (disclPinState s) eqn:L, (discrPinState s) eqn:R;
    cbn [negb andb] in C.
  4:{ split; [|split].
      - intros _. split; congruence.
      - intros X. exfalso. apply X. split; reflexivity.
      - intros _. split; [split; reflexivity | intros _; exact C]. }
  all: split; [intros [A B]; discriminate|].
  all: split; [intros _; exact C|].
  all: intros NS; split; [|intros [A B]; discriminate].
  all: rewrite C; split_ifs; intros St; try discriminate St; contradiction.
Qed.

Lemma C5_witness :
  pusherPulse (pusherControl (ioOf [] 2000)
                 (set_discrPinState false (set_disclPinState false midBurst090)))
  = pusherStopPulse /\
  pusher (pusherControl (ioOf [] 2000)
            (set_discrPinState false (set_disclPinState false midBurst090)))
  = pusherStopPulse.
Proof.
  refine (proj1 (proj1 C5_brake_is_and_of_both_sensors
                   (ioOf [] 2000)
                   (set_discrPinState false (set_disclPinState false midBurst090))
                   eq_refl eq_refl eq_refl _)
                (conj eq_refl eq_refl)).
  vm_compute. discriminate.
Defined.

End PusherClaims090.

(** * Waiting for the flywheel to spool *)

Section Spool090.

Import V090.

Lemma elapsed_small (now stamp : Z) :
  0 <= stamp <= now -> now < 2 ^ 32 -> elapsed now stamp = now - stamp.
Proof.
  intros A B. unfold elapsed, wrap32. apply Z.mod_small. lia.
Qed.

(** [pusherControl] leaves Run in [pusherPulse] only with the interlock
    satisfied and shots queued, and either because Run was there already
    or because the spool test passed. *)
Lemma pusherControl_run (io : Env) (s : State) :
  pusherPulse (pusherControl io s) = pusherRunPulse ->
  ejectPinState s = true /\ magazinePinState s = true /\
  shotsRemaining s <> 0 /\
  (pusherPulse s = pusherRunPulse \/
   (flywheelStartTime s <> 0 /\
    flywheelSpoolTime <= elapsed (millis io) (flywheelStartTime s))).
Proof.
  destruct s. unfold pusherControl.
  split_ifs; intros R; try discriminate R; bool_hyps; subst; conjs; auto.
Qed.

Lemma flywheelControl_stamp_values (io : Env) (s : State) :
  flywheelStartTime (flywheelControl io s) = flywheelStartTime s \/
  flywheelStartTime (flywheelControl io s) = millis io \/
  flywheelStartTime (flywheelControl io s) = 0.
Proof.
  destruct s. unfold flywheelControl. split_ifs; auto.
Qed.

Lemma spoolInv_init : spoolInv 0 init.
Proof.
  split; [cbn; lia|]. intros R. discriminate R.
Qed.

Lemma spoolInv_loop (t : Z) (io : Env) (s : State) :
  spoolInv t s -> t <= millis io < 2 ^ 32 -> spoolInv (millis io) (loop io s).
Proof.
  intros (B & I) Ck.
  destruct (loop_pusher io s) as (LP & _).
  pose proof (loop_flywheel io s) as L. cbv zeta in L.
  destruct L as (LS & _ & _ & XS & _).
  pose proof (readInputs_frame io s) as R. frames_of R.
  pose proof (pusherControl_frame io (readInputs io s)) as P. frames_of P.
  set (x := readInputs io s) in *. set (p := pusherControl io x) in *.
  unfold spoolInv. rewrite LP, LS. split.
  - destruct (flywheelControl_stamp_values io p) as [V | [V | V]];
      rewrite V; lia.
  - intros Run.
    destruct (pusherControl_run io x Run) as (E & M & N & W).
    assert (Sp : flywheelStartTime s <> 0
                 /\ flywheelStartTime s + flywheelSpoolTime <= millis io).
    { destruct W as [W | [W1 W2]].
      - destruct I as [I1 I2]; [congruence|]. split; [exact I1|lia].
      - replace (flywheelStartTime x) with (flywheelStartTime s) in *
          by congruence.
        rewrite elapsed_small in W2 by lia. split; [exact W1|lia]. }
    destruct (flywheelControl_demand io p) as (_ & _ & _ & D);
      try congruence.
    { apply orb_true_iff. left. apply nonzero_true. congruence. }
    rewrite D. rewrite XS.
    destruct Sp as [S0 S1]. apply Z.eqb_neq in S0. rewrite S0.
    apply Z.eqb_neq in S0. split; [exact S0|exact S1].
Qed.

(** The pusher command is held at a pass at home that waits for the
    spool time. *)
Lemma pusherControl_waits (io : Env) (s : State) :
  ejectPinState s = true -> magazinePinState s = true ->
  positionPinState s = true -> shotsRemaining s <> 0 ->
  flywheelStartTime s <> 0 ->
  elapsed (millis io) (flywheelStartTime s) < flywheelSpoolTime ->
  pusherPulse (pusherControl io s) = pusherPulse s /\
  pusher (pusherControl io s) = pusherPulse s.
Proof.
  intros E M P N F W.
  assert (Sv : pusher (pusherControl io s) = pusherPulse (pusherControl io s)).
  { pose proof (pusherControl_frame io s) as Fr. frames_of Fr. assumption. }
  rewrite Sv, pusherControl_home by assumption.
  apply nonzero_true in N. rewrite N.
  apply Z.leb_gt in W. rewrite W, andb_false_r. split; reflexivity.
Qed.

Lemma loop_waits (io : Env) (s : State) :
  ejectPinState (readInputs io s) = true ->
  magazinePinState (readInputs io s) = true ->
  positionPinState (readInputs io s) = true ->
  shotsRemaining s <> 0 ->
  flywheelStartTime s <> 0 ->
  elapsed (millis io) (flywheelStartTime s) < flywheelSpoolTime ->
  pusherPulse (loop io s) = pusherPulse s /\
  pusher (loop io s) = pusherPulse s.
Proof.
  intros E M P N F W.
  destruct (loop_pusher io s) as (LP & LS).
  pose proof (readInputs_frame io s) as R. frames_of R.
  destruct (pusherControl_waits io (readInputs io s)) as (A & _);
    try congruence.
  rewrite LP, LS, A. split; congruence.
Qed.

(** The equations of the true-time run. *)
Lemma spinUp090_cons (p : Pass) (ps : list Pass) (s : State) (g : Z) :
  spinUp090 (p :: ps) s g = spinUp090 ps (loop (envAt p) s) (stampedAt090 p s g).
Proof. reflexivity. Qed.

(** One pass keeps [trueTimeInv]. *)
Lemma trueTimeInv_loop (t : Z) (p : Pass) (s : State) (g : Z) :
  trueTimeInv t s g -> t <= at_time p ->
  trueTimeInv (at_time p) (loop (envAt p) s) (stampedAt090 p s g).
Proof.
  intros (IA & IB) Ck.
  destruct (loop_pusher (envAt p) s) as (LP & _).
  pose proof (loop_flywheel (envAt p) s) as L. cbv zeta in L.
  destruct L as (LS & _ & _ & XS & _).
  pose proof (readInputs_frame (envAt p) s) as R. frames_of R.
  pose proof (pusherControl_frame (envAt p) (readInputs (envAt p) s)) as P.
  frames_of P.
  set (x := readInputs (envAt p) s) in *.
  set (pc := pusherControl (envAt p) x) in *.
  destruct (flywheelControl_stamp (envAt p) pc) as (St & _ & _).
  pose proof (flywheelControl_stamp_values (envAt p) pc) as Vals.
  rewrite XS in St, Vals.
  unfold trueTimeInv, stampedAt090. rewrite LP, LS.
  destruct (Z.eq_dec (flywheelStartTime s) 0) as [Z0 | NZ].
  - (* no timestamp before the pass *)
    rewrite Z0 in *. cbn [Z.eqb andb]. split.
    + intros N. apply Z.eqb_neq in N. rewrite N. cbn [negb].
      apply Z.eqb_neq in N.
      destruct Vals as [V | [V | V]]; try contradiction.
      split; [exact V | lia].
    + intros Run. exfalso.
      destruct (pusherControl_run (envAt p) x Run) as (_ & _ & _ & W).
      destruct W as [W | [W _]].
      * destruct IB as [IB _]; [congruence | contradiction].
      * apply W. congruence.
  - (* a timestamp before the pass: the true spin-up time stays *)
    assert (G : (flywheelStartTime s =? 0) = false) by (now apply Z.eqb_neq).
    rewrite G. cbn [andb].
    destruct (IA NZ) as (IA1 & IA2). split.
    + intros N.
      destruct (Z.eq_dec (flywheelStartTime (flywheelControl (envAt p) pc))
                         (flywheelStartTime s)) as [E | D].
      * rewrite E. split; [exact IA1 | lia].
      * destruct (St D N) as [Z0 _]. contradiction.
    + intros Run.
      destruct (pusherControl_run (envAt p) x Run) as (E & M & N & W).
      destruct (flywheelControl_demand (envAt p) pc) as (_ & _ & _ & D);
        try congruence.
      { apply orb_true_iff. left. apply nonzero_true. congruence. }
      rewrite D, XS, G. split; [exact NZ|].
      destruct W as [W | [_ W]].
      * destruct IB as [_ IB]; [congruence | lia].
      * replace (flywheelStartTime x) with (flywheelStartTime s) in W
          by congruence.
        rewrite IA1 in W. cbn [millis envAt] in W.
        pose proof (elapsed_le (at_time p) g). lia.
Qed.

(** Over passes in true time, with any number of clock rollovers: at a
    pass less than the spool time after the true spin-up, the command of
    the previous pass is not Run and the spool test of the sketch fails. *)
Lemma waiting_true_time (ps : list Pass) (p : Pass) (t : Z) (s : State) (g : Z) :
  trueTimeInv t s g ->
  timesAscend t (ps ++ [p]) ->
  flywheelStartTime (run (map envAt ps) s) <> 0 ->
  at_time p - spinUp090 ps s g < flywheelSpoolTime ->
  flywheelStartTime (run (map envAt ps) s) = wrap32 (spinUp090 ps s g) /\
  pusherPulse (run (map envAt ps) s) <> pusherRunPulse /\
  elapsed (millis (envAt p)) (flywheelStartTime (run (map envAt ps) s))
  < flywheelSpoolTime.
Proof.
  revert t s g. induction ps as [|p0 ps IH]; intros t s g I C F W.
  - destruct C as [C _]. destruct I as (IA & IB).
    change (run (map envAt []) s) with s in *.
    change (spinUp090 [] s g) with g in *.
    destruct (IA F) as (A1 & A2).
    split; [exact A1|]. split.
    + intros R. destruct (IB R) as (_ & Sp). lia.
    + rewrite A1. cbn [millis envAt]. rewrite elapsed_exact; [exact W|].
      unfold flywheelSpoolTime in W. lia.
  - destruct C as [C0 C].
    change (map envAt (p0 :: ps)) with (envAt p0 :: map envAt ps) in *.
    rewrite run_cons, spinUp090_cons in *.
    apply (IH (at_time p0)); auto.
    now apply trueTimeInv_loop with (t := t).
Qed.

Lemma trueTimeInv_init : trueTimeInv 0 init 0.
Proof.
  split; intros N; [exfalso; apply N; reflexivity | discriminate N].
Qed.

End Spool090.

(** C4, as the code has it.  v0.5.0 drives the pusher Run whenever the
    position signal is active and the interlock satisfied, spooled or not.
    From power-up the flywheel spins up at 20 ms and the trigger is
    pressed; at the pass at 60 ms the position signal is debounced active
    with a shot queued, both chamber sensors active and 40 ms elapsed
    since spin-up, and the brake pulse left by the previous pass becomes
    the run pulse. *)
Lemma C4_counterexample :
  V050.ejectPinState
    (V050.readInputs homePass050 (V050.run homeBeforeSpool050 V050.init))
  && V050.magazinePinState
       (V050.readInputs homePass050 (V050.run homeBeforeSpool050 V050.init))
  = true /\
  V050.positionPinState
    (V050.readInputs homePass050 (V050.run homeBeforeSpool050 V050.init))
  = true /\
  V050.shotsRemaining (V050.run homeBeforeSpool050 V050.init) <> 0 /\
  V050.disclPinState
    (V050.readInputs homePass050 (V050.run homeBeforeSpool050 V050.init))
  && V050.discrPinState
       (V050.readInputs homePass050 (V050.run homeBeforeSpool050 V050.init))
  = true /\
  V050.flywheelStartTime (V050.run homeBeforeSpool050 V050.init) = 20 /\
  elapsed (millis homePass050)
          (V050.flywheelStartTime (V050.run homeBeforeSpool050 V050.init))
  = 40 /\
  40 < V050.flywheelSpoolTime /\
  V050.pusher (V050.run homeBeforeSpool050 V050.init) = V050.pusherStopPulse /\
  V050.pusher (V050.loop homePass050 (V050.run homeBeforeSpool050 V050.init))
  = V050.pusherRunPulse.
Proof.
  vm_compute. repeat split; discriminate.
Qed.

(** C4, amended.  In v0.9.0, at every pass at which the interlock is
    satisfied, the position signal is active, shots are queued, the
    spin-up timestamp is set and less than the spool time has elapsed
    since spin-up, the pusher command (and the pulse written to the ESC)
    is the command of the previous pass, and it is not Run.
    - For any state, with the elapsed time as the sketch computes it, the
      command is held (first for [pusherControl], then for a whole pass).
    - From power-up, with passes at any true times and any number of clock
      rollovers, and the elapsed time taken as the true time since the
      pass that wrote the timestamp ([spinUp090]): the stored timestamp is
      that time modulo 2^32, the command is held, and it is not Run.
    In v0.5.0 [pusherControl] writes the run pulse at every call with the
    position signal active and the interlock satisfied. *)
Theorem C4_pusher_waits_for_spool :
  (forall (io : Env) (s : V090.State),
      V090.ejectPinState s = true -> V090.magazinePinState s = true ->
      V090.positionPinState s = true -> V090.shotsRemaining s <> 0 ->
      V090.flywheelStartTime s <> 0 ->
      elapsed (millis io) (V090.flywheelStartTime s) < V090.flywheelSpoolTime ->
      V090.pusherPulse (V090.pusherControl io s) = V090.pusherPulse s /\
      V090.pusher (V090.pusherControl io s) = V090.pusherPulse s)
  /\
  (forall (io : Env) (s : V090.State),
      V090.ejectPinState (V090.readInputs io s) = true ->
      V090.magazinePinState (V090.readInputs io s) = true ->
      V090.positionPinState (V090.readInputs io s) = true ->
      V090.shotsRemaining s <> 0 ->
      V090.flywheelStartTime s <> 0 ->
      elapsed (millis io) (V090.flywheelStartTime s) < V090.flywheelSpoolTime ->
      V090.pusherPulse (V090.loop io s) = V090.pusherPulse s /\
      V090.pusher (V090.loop io s) = V090.pusherPulse s)
  /\
  (forall (ps : list Pass) (p : Pass),
      timesAscend 0 (ps ++ [p]) ->
      V090.ejectPinState
        (V090.readInputs (envAt p) (V090.run (map envAt ps) V090.init)) = true ->
      V090.magazinePinState
        (V090.readInputs (envAt p) (V090.run (map envAt ps) V090.init)) = true ->
      V090.positionPinState
        (V090.readInputs (envAt p) (V090.run (map envAt ps) V090.init)) = true ->
      V090.shotsRemaining (V090.run (map envAt ps) V090.init) <> 0 ->
      V090.flywheelStartTime (V090.run (map envAt ps) V090.init) <> 0 ->
      at_time p - spinUp090 ps V090.init 0 < V090.flywheelSpoolTime ->
      V090.flywheelStartTime (V090.run (map envAt ps) V090.init)
      = wrap32 (spinUp090 ps V090.init 0) /\
      V090.pusherPulse (V090.loop (envAt p) (V090.run (map envAt ps) V090.init))
      = V090.pusherPulse (V090.run (map envAt ps) V090.init) /\
      V090.pusher (V090.loop (envAt p) (V090.run (map envAt ps) V090.init))
      = V090.pusherPulse (V090.run (map envAt ps) V090.init) /\
      V090.pusherPulse (V090.loop (envAt p) (V090.run (map envAt ps) V090.init))
      <> V090.pusherRunPulse /\
      V090.pusher (V090.loop (envAt p) (V090.run (map envAt ps) V090.init))
      <> V090.pusherRunPulse)
  /\
  (forall (io : Env) (s : V050.State),
      V050.ejectPinState s = true -> V050.magazinePinState s = true ->
      V050.positionPinState s = true ->
      V050.pusher (V050.pusherControl io s) = V050.pusherRunPulse).
Proof.
  split; [|split; [|split]].
  - intros. now apply pusherControl_waits.
  - intros. now apply loop_waits.
  - intros ps p C E M P N F W.
    destruct (waiting_true_time ps p 0 V090.init 0 trueTimeInv_init C F W)
      as (G & NR & El).
    destruct (loop_waits (envAt p) (V090.run (map envAt ps) V090.init)
                E M P N F El) as (A & B).
    rewrite A, B. conjs; try assumption; reflexivity.
  - intros. now apply pusherControl_home_050.
Qed.

Lemma C4_witness :
  V090.flywheelStartTime (V090.run (map envAt scenarioAcrossRollover) V090.init)
  = wrap32 (spinUp090 scenarioAcrossRollover V090.init 0) /\
  V090.pusherPulse
    (V090.loop (envAt homePassAcrossRollover)
               (V090.run (map envAt scenarioAcrossRollover) V090.init))
  = V090.pusherPulse (V090.run (map envAt scenarioAcrossRollover) V090.init) /\
  V090.pusher
    (V090.loop (envAt homePassAcrossRollover)
               (V090.run (map envAt scenarioAcrossRollover) V090.init))
  = V090.pusherPulse (V090.run (map envAt scenarioAcrossRollover) V090.init) /\
  V090.pusherPulse
    (V090.loop (envAt homePassAcrossRollover)
               (V090.run (map envAt scenarioAcrossRollover) V090.init))
  <> V090.pusherRunPulse /\
  V090.pusher
    (V090.loop (envAt homePassAcrossRollover)
               (V090.run (map envAt scenarioAcrossRollover) V090.init))
  <> V090.pusherRunPulse.
Proof.
  apply (proj1 (proj2 (proj2 C4_pusher_waits_for_spool))
           scenarioAcrossRollover homePassAcrossRollover);
    try reflexivity; try (vm_compute; discriminate).
  vm_compute. repeat split; discriminate.
Defined.

(** * Elapsed-time tests and clock rollover (v0.9.0) *)

Section Rollover090.

Import V090.

(** [flywheelControl] with the interlock satisfied and no demand: only the
    run timer decides. *)
Lemma flywheelControl_idle (io : Env) (s : State) :
  ejectPinState s = true -> magazinePinState s = true ->
  shotsRemaining s = 0 -> readyPinState s = false ->
  flywheelPulse (flywheelControl io s)
  = (if flywheelRunTime <=? elapsed (millis io) (flywheelTimer s)
     then flywheelStopPulse else flywheelPulse s) /\
  flywheelStartTime (flywheelControl io s)
  = (if flywheelRunTime <=? elapsed (millis io) (flywheelTimer s)
     then 0 else flywheelStartTime s).
Proof.
  destruct s. unfold flywheelControl. cbn. intros; subst.
  change (nonzero 0) with false. cbn. rewrite !orb_false_r.
  split_ifs; split; reflexivity.
Qed.

(** C10.  Every elapsed-time test of v0.9.0 is [elapsed], the 32-bit
    unsigned difference of the clock reading and the stored timestamp.
    For a timestamp taken at time [T0] and a clock read at time [T1] (times
    since power-up, not reduced), [elapsed] is the true interval modulo
    2^32; whenever that interval is below 2^32, however often the clock
    has rolled over, the test of the debouncer, of the flywheel run timer
    and of the two spool gates of the pusher decides exactly as the true
    interval [T1 - T0] does. *)
Theorem C10_elapsed_tests_survive_rollover :
  (forall T0 T1 : Z,
      elapsed (wrap32 T1) (wrap32 T0) = (T1 - T0) mod 2 ^ 32)
  /\
  (forall T0 T1 : Z,
      0 <= T1 - T0 < 2 ^ 32 ->
      elapsed (wrap32 T1) (wrap32 T0) = T1 - T0 /\
      (forall (io : Env) (pin : Z) (d : Debounce),
          millis io = wrap32 T1 -> timer d pin = wrap32 T0 ->
          negb (digitalRead io pin) = lastState d pin ->
          fst (debounceInput io pin d)
          = (if debounceDelay <=? T1 - T0
             then negb (digitalRead io pin) else currentState d pin)) /\
      (forall (io : Env) (s : State),
          millis io = wrap32 T1 -> flywheelTimer s = wrap32 T0 ->
          ejectPinState s = true -> magazinePinState s = true ->
          shotsRemaining s = 0 -> readyPinState s = false ->
          flywheelPulse (flywheelControl io s)
          = (if flywheelRunTime <=? T1 - T0
             then flywheelStopPulse else flywheelPulse s) /\
          flywheelStartTime (flywheelControl io s)
          = (if flywheelRunTime <=? T1 - T0
             then 0 else flywheelStartTime s)) /\
      (forall (io : Env) (s : State),
          millis io = wrap32 T1 -> flywheelStartTime s = wrap32 T0 ->
          flywheelStartTime s <> 0 ->
          ejectPinState s = true -> magazinePinState s = true ->
          positionPinState s = true -> shotsRemaining s <> 0 ->
          disclPinState s = true -> discrPinState s = true ->
          pusherPulse (pusherControl io s)
          = (if flywheelSpoolTime <=? T1 - T0
             then pusherRunPulse else pusherPulse s)) /\
      (forall (io : Env) (s : State),
          millis io = wrap32 T1 -> flywheelStartTime s = wrap32 T0 ->
          flywheelStartTime s <> 0 ->
          ejectPinState s = true -> magazinePinState s = true ->
          positionPinState s = false -> shotsRemaining s <> 0 ->
          disclPinState s = true ->
          pusherPulse (pusherControl io s)
          = (if flywheelSpoolTime <=? T1 - T0
             then if (shotsRemaining s =? 1) && (1 <=? shotMode s)
                  then pusherReturnPulse else pusherRunPulse
             else pusherPulse s))).
Proof.
  split; [intros; apply elapsed_wrap|].
  intros T0 T1 Rg.
  pose proof (elapsed_exact T1 T0 Rg) as X.
  split; [exact X|]. split; [|split; [|split]].
  - intros io pin d Mi Ti Sa. unfold debounceInput.
    destruct (debounce_step_same debounceDelay io pin d Sa) as (_ & _ & C & F).
    rewrite F, C, Mi, Ti, X. reflexivity.
  - intros io s Mi Ti E M S R.
    destruct (flywheelControl_idle io s E M S R) as (A & B).
    rewrite A, B, Mi, Ti, X. split; reflexivity.
  - intros io s Mi Ti F E M P N L R.
    rewrite pusherControl_home by assumption.
    apply nonzero_true in N. rewrite N, L, R.
    apply nonzero_true in F. rewrite F. cbn [andb].
    rewrite Mi, Ti, X. reflexivity.
  - intros io s Mi Ti F E M P N L.
    rewrite pusherControl_stroke by assumption.
    rewrite L. cbn [negb andb].
    apply nonzero_true in F. rewrite F. cbn [andb].
    rewrite Mi, Ti, X. reflexivity.
Qed.

Lemma C10_witness :
  elapsed (wrap32 (2 ^ 32 + 200)) (wrap32 (2 ^ 32 - 100))
  = 2 ^ 32 + 200 - (2 ^ 32 - 100)
  /\
  pusherPulse (pusherControl (ioOf [] (wrap32 (2 ^ 32 + 200)))
                 spoolingAcrossRollover090)
  = (if flywheelSpoolTime <=? 2 ^ 32 + 200 - (2 ^ 32 - 100)
     then pusherRunPulse else pusherPulse spoolingAcrossRollover090).
Proof.
  assert (Rg : 0 <= 2 ^ 32 + 200 - (2 ^ 32 - 100) < 2 ^ 32)
    by (split; [discriminate | reflexivity]).
  destruct (proj2 C10_elapsed_tests_survive_rollover
              (2 ^ 32 - 100) (2 ^ 32 + 200) Rg) as (A & _ & _ & B & _).
  split; [exact A|].
  apply B; try reflexivity; vm_compute; discriminate.
Defined.

End Rollover090.

(** * Further properties of the two sketches *)

(** ** The interlock in v0.5.0 *)

Section Interlock050.

Import V050.

Lemma pusherControl_interlock_open_050 (io : Env) (s : State) :
  ejectPinState s && magazinePinState s = false ->
  pusher (pusherControl io s) = pusherStopPulse.
Proof.
  intros H. destruct s. cbn in H. unfold pusherControl.
  destruct ejectPinState0, magazinePinState0; try discriminate H;
    split_ifs; rewrite ?andb_false_r, ?orb_true_r in *;
    try reflexivity; discriminate.
Qed.

Lemma flywheelControl_interlock_open_050 (io : Env) (s : State) :
  ejectPinState s && magazinePinState s = false ->
  flywheel (flywheelControl io s) = flywheelStopPulse /\
  flywheelStartTime (flywheelControl io s) = 0.
Proof.
  intros H. destruct s. cbn in H. unfold flywheelControl.
  destruct ejectPinState0, magazinePinState0; try discriminate H;
    split_ifs; rewrite ?andb_false_r, ?orb_true_r in *;
    try (split; reflexivity); discriminate.
Qed.

Lemma fireControl_interlock_open_050 (s : State) :
  ejectPinState s && magazinePinState s = false ->
  shotsRemaining (fireControl s) = 0.
Proof.
  intros H. destruct s. cbn in H. unfold fireControl.
  destruct ejectPinState0, magazinePinState0; try discriminate H;
    split_ifs; rewrite ?andb_false_r, ?orb_true_r in *;
    try reflexivity; discriminate.
Qed.

Lemma control_interlock_open_050 (io : Env) (s : State) :
  ejectPinState s && magazinePinState s = false ->
  pusher (control io s) = pusherStopPulse /\
  flywheel (control io s) = flywheelStopPulse /\
  flywheelStartTime (control io s) = 0 /\
  shotsRemaining (control io s) = 0.
Proof.
  intros Open. unfold control.
  pose proof (pusherControl_frame_050 io s) as P.
  pose proof (flywheelControl_frame_050 io (pusherControl io s)) as F.
  pose proof (fireControl_frame_050 (flywheelControl io (pusherControl io s)))
    as Q.
  frames_of P. frames_of F. frames_of Q.
  assert (Ip : ejectPinState (pusherControl io s)
               && magazinePinState (pusherControl io s) = false)
    by congruence.
  assert (If : ejectPinState (flywheelControl io (pusherControl io s))
               && magazinePinState (flywheelControl io (pusherControl io s))
               = false) by congruence.
  pose proof (pusherControl_interlock_open_050 io s Open) as Pp.
  destruct (flywheelControl_interlock_open_050 io _ Ip) as (Fp & Fs).
  pose proof (fireControl_interlock_open_050 _ If) as Z0.
  conjs; congruence.
Qed.

(** X1.  v0.5.0: at every pass at which the debounced eject switch is open
    or the debounced magazine switch reports no magazine, the pass ends
    with the brake pulse at the pusher ESC, the stop pulse at the flywheel
    ESC, the spin-up timestamp cleared and the remaining-shot count zero,
    whatever the state before. *)
Theorem X1_v050_interlock_open_stops_everything (io : Env) (s : State) :
  ejectPinState (loop io s) && magazinePinState (loop io s) = false ->
  pusher (loop io s) = pusherStopPulse /\
  flywheel (loop io s) = flywheelStopPulse /\
  flywheelStartTime (loop io s) = 0 /\
  shotsRemaining (loop io s) = 0.
Proof.
  unfold loop. intros Open. apply control_interlock_open_050.
  unfold control in Open.
  pose proof (pusherControl_frame_050 io (readInputs io s)) as P.
  pose proof (flywheelControl_frame_050 io (pusherControl io (readInputs io s)))
    as F.
  pose proof (fireControl_frame_050
                (flywheelControl io (pusherControl io (readInputs io s)))) as Q.
  frames_of P. frames_of F. frames_of Q. congruence.
Qed.

End Interlock050.

(** ** The queue is live only while the trigger is held *)

Section QueueLive.

Lemma fireControl_live_090 (s : V090.State) :
  V090.shotsRemaining (V090.fireControl s) <> 0 ->
  V090.triggerPinState s = true /\ V090.ejectPinState s = true /\
  V090.magazinePinState s = true.
Proof.
  destruct s. unfold V090.fireControl.
  destruct triggerPinState, ejectPinState, magazinePinState;
    split_ifs; intros N; conjs; try reflexivity;
    try (exfalso; apply N; reflexivity); discriminate.
Qed.

Lemma fireControl_live_050 (s : V050.State) :
  V050.shotsRemaining (V050.fireControl s) <> 0 ->
  V050.triggerPinState s = true /\ V050.ejectPinState s = true /\
  V050.magazinePinState s = true.
Proof.
  destruct s. unfold V050.fireControl.
  destruct triggerPinState, ejectPinState, magazinePinState;
    split_ifs; intros N; conjs; try reflexivity;
    try (exfalso; apply N; reflexivity); discriminate.
Qed.

(** X2.  A pass can end with shots queued only while the trigger is held
    and the interlock switches the revision reads are closed.
    - v0.9.0: only if, at that pass, the debounced trigger is active and
      the debounced eject switch is closed.  The magazine switch is not
      read: the count a pass ends with is the same whatever pins 4, 6 and
      7 read, so removing the magazine does not empty the queue.
    - v0.5.0: only if, at that pass, the debounced trigger is active, the
      debounced eject switch is closed and the debounced magazine switch
      reports a magazine. *)
Theorem X2_queue_live_only_with_trigger_and_interlock :
  (forall (io : Env) (s : V090.State),
      V090.shotsRemaining (V090.loop io s) <> 0 ->
      V090.triggerPinState (V090.loop io s) = true /\
      V090.ejectPinState (V090.loop io s) = true)
  /\
  (forall (io io' : Env) (s : V090.State),
      digitalRead io' ejectPin = digitalRead io ejectPin ->
      digitalRead io' positionPin = digitalRead io positionPin ->
      digitalRead io' triggerPin = digitalRead io triggerPin ->
      digitalRead io' readyPin = digitalRead io readyPin ->
      millis io' = millis io ->
      V090.shotsRemaining (V090.loop io' s)
      = V090.shotsRemaining (V090.loop io s))
  /\
  (forall (io : Env) (s : V050.State),
      V050.shotsRemaining (V050.loop io s) <> 0 ->
      V050.triggerPinState (V050.loop io s) = true /\
      V050.ejectPinState (V050.loop io s) = true /\
      V050.magazinePinState (V050.loop io s) = true).
Proof.
  split; [|split].
  - intros io s N.
    pose proof (loop_fields io s) as L. frames_of L.
    unfold V090.control in *.
    pose proof (fireControl_frame
                  (V090.flywheelControl io
                     (V090.pusherControl io (V090.readInputs io s)))) as Q.
    frames_of Q.
    destruct (fireControl_live_090
                (V090.flywheelControl io
                   (V090.pusherControl io (V090.readInputs io s))))
      as (A & B & C); [congruence|].
    conjs; congruence.
  - intros io io' s E P T R M. unfold V090.loop.
    rewrite (readInputs_env io io' s E P T R M).
    now rewrite (control_env io io' _ M).
  - intros io s N. unfold V050.loop, V050.control in *.
    pose proof (fireControl_frame_050
                  (V050.flywheelControl io
                     (V050.pusherControl io (V050.readInputs io s)))) as Q.
    frames_of Q.
    destruct (fireControl_live_050 _ N) as (A & B & C).
    conjs; congruence.
Qed.

End QueueLive.

(** ** Ranges kept by every reachable state *)

Section Ranges.

Lemma wrap16_small (n : Z) : 0 <= n < 2 ^ 16 -> wrap16 n = n.
Proof. intros H. unfold wrap16. now apply Z.mod_small. Qed.

Lemma fireControl_range_090 (s : V090.State) :
  V090.shotMode s = 1 -> 0 <= V090.shotsRemaining s <= 3 ->
  0 <= V090.shotsRemaining (V090.fireControl s) <= 3.
Proof.
  destruct s. unfold V090.fireControl. cbn. intros M R. subst.
  change (shotCount 1) with 3.
  split_ifs; bool_hyps; rewrite ?wrap16_small by lia; lia.
Qed.

Lemma fireControl_range_050 (s : V050.State) :
  V050.shotMode s = 0 -> 0 <= V050.shotsRemaining s <= 1 ->
  0 <= V050.shotsRemaining (V050.fireControl s) <= 1.
Proof.
  destruct s. unfold V050.fireControl. cbn. intros M R. subst.
  change (shotCount 0) with 1.
  split_ifs; bool_hyps; rewrite ?wrap16_small by lia; lia.
Qed.

Lemma loop_range_090 (io : Env) (s : V090.State) :
  V090.shotMode s = 1 /\ 0 <= V090.shotsRemaining s <= 3 ->
  V090.shotMode (V090.loop io s) = 1 /\
  0 <= V090.shotsRemaining (V090.loop io s) <= 3.
Proof.
  intros (M & R).
  pose proof (loop_fields io s) as L. frames_of L.
  pose proof (control_pins io (V090.readInputs io s)) as C. frames_of C.
  pose proof (readInputs_frame io s) as RF. frames_of RF.
  pose proof (before_fire io s) as B. frames_of B.
  split; [congruence|].
  replace (V090.shotsRemaining (V090.loop io s))
    with (V090.shotsRemaining
            (V090.fireControl
               (V090.flywheelControl io
                  (V090.pusherControl io (V090.readInputs io s)))))
    by (unfold V090.control in *; congruence).
  apply fireControl_range_090; [congruence|].
  replace (V090.shotsRemaining
             (V090.flywheelControl io
                (V090.pusherControl io (V090.readInputs io s))))
    with (V090.shotsRemaining s) by congruence.
  exact R.
Qed.

Lemma loop_range_050 (io : Env) (s : V050.State) :
  V050.shotMode s = 0 /\ 0 <= V050.shotsRemaining s <= 1 ->
  V050.shotMode (V050.loop io s) = 0 /\
  0 <= V050.shotsRemaining (V050.loop io s) <= 1.
Proof.
  intros (M & R). unfold V050.loop, V050.control.
  pose proof (before_fire_050 io s) as B. frames_of B.
  pose proof (fireControl_frame_050
                (V050.flywheelControl io
                   (V050.pusherControl io (V050.readInputs io s)))) as Q.
  frames_of Q.
  split; [congruence|].
  apply fireControl_range_050; [congruence|].
  replace (V050.shotsRemaining
             (V050.flywheelControl io
                (V050.pusherControl io (V050.readInputs io s))))
    with (V050.shotsRemaining s) by congruence.
  exact R.
Qed.

(** X3.  Neither sketch ever assigns [shotMode].  In every state v0.9.0
    can reach the mode is 1 and the remaining-shot count is between 0 and
    3; in every state v0.5.0 can reach the mode is 0 and the count is 0 or
    1.  So [shotsRemaining--] never wraps below zero and the full-auto
    entry of [shotCount] is never loaded. *)
Theorem X3_shot_count_stays_in_range :
  (forall s : V090.State,
      V090.reachable s ->
      V090.shotMode s = 1 /\ 0 <= V090.shotsRemaining s <= 3)
  /\
  (forall s : V050.State,
      V050.reachable s ->
      V050.shotMode s = 0 /\ 0 <= V050.shotsRemaining s <= 1).
Proof.
  split.
  - induction 1 as [|io s R IH].
    + split; [reflexivity|]. cbn. lia.
    + now apply loop_range_090.
  - induction 1 as [|io s R IH].
    + split; [reflexivity|]. cbn. lia.
    + now apply loop_range_050.
Qed.

End Ranges.

Section Pulses.

(** The pulses the sketch has a name for. *)
Lemma pusherControl_pulses_090 (io : Env) (s : V090.State) :
  (V090.pusherPulse s = V090.pusherRunPulse \/
   V090.pusherPulse s = V090.pusherReturnPulse \/
   V090.pusherPulse s = V090.pusherStopPulse) \/ V090.shotsRemaining s = 0 ->
  V090.pusherPulse (V090.pusherControl io s) = V090.pusherRunPulse \/
  V090.pusherPulse (V090.pusherControl io s) = V090.pusherReturnPulse \/
  V090.pusherPulse (V090.pusherControl io s) = V090.pusherStopPulse.
Proof.
  destruct s. unfold V090.pusherControl.
  split_ifs; intros K; bool_hyps; auto;
    destruct K as [K | K]; auto; contradiction.
Qed.

Lemma flywheelControl_pulses_090 (io : Env) (s : V090.State) :
  V090.flywheelPulse s = V090.flywheelRunPulse \/
  V090.flywheelPulse s = V090.flywheelStopPulse ->
  V090.flywheelPulse (V090.flywheelControl io s) = V090.flywheelRunPulse \/
  V090.flywheelPulse (V090.flywheelControl io s) = V090.flywheelStopPulse.
Proof.
  destruct s. unfold V090.flywheelControl. split_ifs; auto.
Qed.

Lemma loop_pulses_090 (io : Env) (s : V090.State) :
  ((V090.pusherPulse s = V090.pusherRunPulse \/
    V090.pusherPulse s = V090.pusherReturnPulse \/
    V090.pusherPulse s = V090.pusherStopPulse) \/ V090.shotsRemaining s = 0) ->
  (V090.flywheelPulse s = V090.flywheelRunPulse \/
   V090.flywheelPulse s = V090.flywheelStopPulse) ->
  (V090.pusherPulse (V090.loop io s) = V090.pusherRunPulse \/
   V090.pusherPulse (V090.loop io s) = V090.pusherReturnPulse \/
   V090.pusherPulse (V090.loop io s) = V090.pusherStopPulse) /\
  V090.pusher (V090.loop io s) = V090.pusherPulse (V090.loop io s) /\
  (V090.flywheelPulse (V090.loop io s) = V090.flywheelRunPulse \/
   V090.flywheelPulse (V090.loop io s) = V090.flywheelStopPulse) /\
  V090.flywheel (V090.loop io s) = V090.flywheelPulse (V090.loop io s).
Proof.
  intros KP KF.
  destruct (loop_pusher io s) as (LP & LS).
  pose proof (loop_flywheel io s) as L. cbv zeta in L.
  destruct L as (_ & LF & LV & _ & XP).
  pose proof (readInputs_frame io s) as R. frames_of R.
  rewrite LP, LS, LF, LV. conjs; try reflexivity.
  - apply pusherControl_pulses_090.
    replace (V090.pusherPulse (V090.readInputs io s)) with (V090.pusherPulse s)
      by congruence.
    replace (V090.shotsRemaining (V090.readInputs io s))
      with (V090.shotsRemaining s) by congruence.
    exact KP.
  - apply flywheelControl_pulses_090. rewrite XP. exact KF.
Qed.

(** X4.  v0.9.0: from power-up, every pass ends with one of the three
    pusher pulses of the sketch (run, return, brake) and one of its two
    flywheel pulses (run, stop) as the commands, and with exactly these
    commands written to the two ESCs; the neutral pulse of [setup] is not
    sent to the pusher again. *)
Theorem X4_v090_pulses_are_the_configured_ones (io : Env) (s : V090.State) :
  V090.reachable s ->
  (V090.pusherPulse (V090.loop io s) = V090.pusherRunPulse \/
   V090.pusherPulse (V090.loop io s) = V090.pusherReturnPulse \/
   V090.pusherPulse (V090.loop io s) = V090.pusherStopPulse) /\
  V090.pusher (V090.loop io s) = V090.pusherPulse (V090.loop io s) /\
  (V090.flywheelPulse (V090.loop io s) = V090.flywheelRunPulse \/
   V090.flywheelPulse (V090.loop io s) = V090.flywheelStopPulse) /\
  V090.flywheel (V090.loop io s) = V090.flywheelPulse (V090.loop io s).
Proof.
  intros R.
  assert (K : ((V090.pusherPulse s = V090.pusherRunPulse \/
                V090.pusherPulse s = V090.pusherReturnPulse \/
                V090.pusherPulse s = V090.pusherStopPulse)
               \/ V090.shotsRemaining s = 0) /\
              (V090.flywheelPulse s = V090.flywheelRunPulse \/
               V090.flywheelPulse s = V090.flywheelStopPulse)).
  { induction R as [|io0 s0 R0 IH].
    - split; [right; reflexivity | right; reflexivity].
    - destruct IH as (KP & KF).
      destruct (loop_pulses_090 io0 s0 KP KF) as (A & _ & B & _).
      split; [left; exact A | exact B]. }
  destruct K as (KP & KF). now apply loop_pulses_090.
Qed.

End Pulses.

(** ** The debouncer reports a sample that stays *)

Section DebounceSettles.

Variable delay : Z.
Hypothesis delay_pos : 0 < delay.
Variable pin : Z.

Lemma pollAll_cons (x : Poll) (ps : list Poll) (d : Debounce) :
  pollAll delay pin (x :: ps) d
  = pollAll delay pin ps (snd (debounceInputWith delay (envOf x) pin d)).
Proof. reflexivity. Qed.

Lemma pollAll_app (ps qs : list Poll) (d : Debounce) :
  pollAll delay pin (ps ++ qs) d = pollAll delay pin qs (pollAll delay pin ps d).
Proof.
  revert d. induction ps as [|x ps IH]; intros d; [reflexivity|].
  rewrite <- app_comm_cons, !pollAll_cons. apply IH.
Qed.

Lemma wrap32_small (t : Z) : 0 <= t < 2 ^ 32 -> wrap32 t = t.
Proof. intros H. unfold wrap32. now apply Z.mod_small. Qed.

(** The stored time of the last change of sample is never in the future. *)
Lemma timer_bound_step (x : Poll) (t : Z) (d : Debounce) :
  0 <= timer d pin <= t -> t <= at_ms x < 2 ^ 32 ->
  0 <= timer (snd (debounceInputWith delay (envOf x) pin d)) pin <= at_ms x.
Proof.
  intros B A.
  destruct (bool_dec (negb (digitalRead (envOf x) pin)) (lastState d pin))
    as [E | E].
  - destruct (debounce_step_same delay (envOf x) pin d E) as (T & _).
    rewrite T. lia.
  - destruct (debounce_step_edge delay delay_pos (envOf x) pin d E) as (T & _).
    rewrite T. cbn [millis envOf]. rewrite wrap32_small by lia. lia.
Qed.

Lemma timer_bound_polls (pre rest : list Poll) (t : Z) (d : Debounce) :
  0 <= timer d pin <= t -> pollsAscend t (pre ++ rest) ->
  exists t', 0 <= timer (pollAll delay pin pre d) pin <= t'
             /\ pollsAscend t' rest.
Proof.
  revert t d. induction pre as [|x pre IH]; intros t d B A.
  - exists t. split; [exact B | exact A].
  - destruct A as [A0 A]. rewrite pollAll_cons.
    apply (IH (at_ms x)); [|exact A].
    now apply timer_bound_step with (t := t).
Qed.

Lemma stable_polls (v : bool) (post : list Poll) (d : Debounce) :
  lastState d pin = v -> Forall (fun x => live x = v) post ->
  lastState (pollAll delay pin post d) pin = v /\
  timer (pollAll delay pin post d) pin = timer d pin.
Proof.
  revert d. induction post as [|x post IH]; intros d L F.
  - split; [exact L | reflexivity].
  - apply Forall_cons_iff in F. destruct F as [Fx Fr]. rewrite pollAll_cons.
    assert (E : negb (digitalRead (envOf x) pin) = lastState d pin)
      by (rewrite L; exact Fx).
    destruct (debounce_step_same delay (envOf x) pin d E) as (T & L' & _).
    destruct (IH (snd (debounceInputWith delay (envOf x) pin d)))
      as (A & B); [congruence | exact Fr |].
    split; [exact A | congruence].
Qed.

Lemma pollsAscend_last (post : list Poll) (p : Poll) (t : Z) :
  pollsAscend t (post ++ [p]) -> t <= at_ms p < 2 ^ 32.
Proof.
  revert t. induction post as [|x post IH]; intros t A.
  - destruct A as [A _]. exact A.
  - destruct A as [A0 A]. specialize (IH _ A). lia.
Qed.

Lemma debounce_settles (pre post : list Poll) (q p : Poll) :
  pollsAscend 0 (pre ++ q :: post ++ [p]) ->
  Forall (fun x => live x = live q) post -> live p = live q ->
  delay <= at_ms p - at_ms q ->
  fst (debounceInputWith delay (envOf p) pin
         (pollAll delay pin (pre ++ q :: post) Debounce0)) = live q.
Proof.
  intros A F P D.
  destruct (timer_bound_polls pre (q :: post ++ [p]) 0 Debounce0)
    as (t' & B & A'); [cbn; lia | exact A |].
  destruct A' as [Aq A'].
  pose proof (pollsAscend_last post p _ A') as Ap.
  rewrite pollAll_app, pollAll_cons.
  set (d1 := pollAll delay pin pre Debounce0) in *.
  set (d2 := snd (debounceInputWith delay (envOf q) pin d1)).
  assert (B2 : 0 <= timer d2 pin <= at_ms q)
    by (now apply timer_bound_step with (t := t')).
  assert (L2 : lastState d2 pin = live q)
    by (apply debounce_last_sample; exact delay_pos).
  destruct (stable_polls (live q) post d2 L2 F) as (L3 & T3).
  set (d3 := pollAll delay pin post d2) in *.
  assert (E : negb (digitalRead (envOf p) pin) = lastState d3 pin)
    by (rewrite L3; exact P).
  destruct (debounce_step_same delay (envOf p) pin d3 E) as (_ & _ & C & R).
  rewrite R, C, T3. cbn [millis envOf digitalRead].
  rewrite wrap32_small by lia. rewrite elapsed_small by lia.
  assert (G : (delay <=? at_ms p - timer d2 pin) = true)
    by (apply Z.leb_le; lia).
  rewrite G. exact P.
Qed.

End DebounceSettles.

(** X5.  In both revisions and for every channel, before the clock first
    rolls over: once the sample of a channel has been the same at every
    poll from some poll [q] on, every poll taken [debounceDelay]
    milliseconds or more after [q] returns that sample, whatever was
    polled before [q]. *)
Theorem X5_debounce_reports_a_stable_sample
    (delay pin : Z) (pre post : list Poll) (q p : Poll) :
  delay = V090.debounceDelay \/ delay = V050.debounceDelay ->
  pollsAscend 0 (pre ++ q :: post ++ [p]) ->
  Forall (fun x => live x = live q) post -> live p = live q ->
  delay <= at_ms p - at_ms q ->
  fst (debounceInputWith delay (envOf p) pin
         (pollAll delay pin (pre ++ q :: post) Debounce0)) = live q.
Proof.
  intros D. apply debounce_settles. destruct D; subst; reflexivity.
Qed.

(** ** The flywheel keeps running for the minimum run time *)

Section MinRun090.

Import V090.

Lemma loop_flywheelTimer (io : Env) (s : State) :
  let x := pusherControl io (readInputs io s) in
  flywheelTimer (loop io s) = flywheelTimer (flywheelControl io x) /\
  flywheelTimer x = flywheelTimer s /\
  shotsRemaining x = shotsRemaining s /\
  ejectPinState x = ejectPinState (readInputs io s) /\
  magazinePinState x = magazinePinState (readInputs io s) /\
  readyPinState x = readyPinState (readInputs io s).
Proof.
  cbv zeta.
  pose proof (loop_fields io s) as L. frames_of L.
  pose proof (readInputs_frame io s) as R.
  pose proof (pusherControl_frame io (readInputs io s)) as P.
  pose proof (fireControl_frame
                (flywheelControl io (pusherControl io (readInputs io s)))) as Q.
  frames_of R. frames_of P. frames_of Q. unfold control in *.
  conjs; congruence.
Qed.

Lemma flywheelControl_idle_timer (io : Env) (s : State) :
  ejectPinState s = true -> magazinePinState s = true ->
  shotsRemaining s = 0 -> readyPinState s = false ->
  flywheelTimer (flywheelControl io s) = flywheelTimer s.
Proof.
  destruct s. unfold flywheelControl. cbn. intros; subst.
  change (nonzero 0) with false. split_ifs; reflexivity.
Qed.

(** One pass with demand for the flywheel and the interlock satisfied. *)
Lemma loop_demand (io : Env) (s : State) :
  ejectPinState (readInputs io s) = true ->
  nonzero (shotsRemaining s) || readyPinState (readInputs io s) = true ->
  flywheelPulse (loop io s) = flywheelRunPulse /\
  flywheelTimer (loop io s) = millis io.
Proof.
  intros E D.
  pose proof (loop_flywheel io s) as L. cbv zeta in L.
  destruct L as (_ & LP & _).
  pose proof (loop_flywheelTimer io s) as T. cbv zeta in T.
  destruct T as (LT & _ & XS & XE & XM & XR).
  pose proof (readInputs_constants io s) as K. cbv zeta in K.
  destruct K as (Km & _ & _).
  destruct (flywheelControl_demand io (pusherControl io (readInputs io s)))
    as (A & _ & B & _); try congruence.
  split; congruence.
Qed.

(** One pass without demand, the interlock satisfied. *)
Lemma loop_idle (io : Env) (s : State) :
  ejectPinState (readInputs io s) = true ->
  shotsRemaining s = 0 -> readyPinState (readInputs io s) = false ->
  flywheelPulse (loop io s)
  = (if flywheelRunTime <=? elapsed (millis io) (flywheelTimer s)
     then flywheelStopPulse else flywheelPulse s) /\
  flywheelStartTime (loop io s)
  = (if flywheelRunTime <=? elapsed (millis io) (flywheelTimer s)
     then 0 else flywheelStartTime s) /\
  flywheelTimer (loop io s) = flywheelTimer s.
Proof.
  intros E S R.
  pose proof (loop_flywheel io s) as L. cbv zeta in L.
  destruct L as (LS & LP & _ & XS & XP).
  pose proof (loop_flywheelTimer io s) as T. cbv zeta in T.
  destruct T as (LT & XT & XQ & XE & XM & XR).
  pose proof (readInputs_constants io s) as K. cbv zeta in K.
  destruct K as (Km & _ & _).
  set (x := pusherControl io (readInputs io s)) in *.
  destruct (flywheelControl_idle io x) as (A & B); try congruence.
  assert (C : flywheelTimer (flywheelControl io x) = flywheelTimer x)
    by (apply flywheelControl_idle_timer; congruence).
  rewrite LS, LP, LT, A, B, C, XT, XS, XP. conjs; reflexivity.
Qed.

(** X6.  v0.9.0 minimum run time: after a pass with demand for the
    flywheel (shots queued or ready asserted) and the interlock satisfied,
    a following pass without demand and with the interlock still satisfied
    leaves the flywheel commanded Run and its spin-up timestamp untouched
    while less than [flywheelRunTime] has elapsed between the two passes,
    and commands Stop and clears the timestamp otherwise. *)
Theorem X6_v090_flywheel_minimum_run_time (io1 io2 : Env) (s : State) :
  ejectPinState (readInputs io1 s) = true ->
  nonzero (shotsRemaining s) || readyPinState (readInputs io1 s) = true ->
  ejectPinState (readInputs io2 (loop io1 s)) = true ->
  shotsRemaining (loop io1 s) = 0 ->
  readyPinState (readInputs io2 (loop io1 s)) = false ->
  flywheelPulse (loop io2 (loop io1 s))
  = (if flywheelRunTime <=? elapsed (millis io2) (millis io1)
     then flywheelStopPulse else flywheelRunPulse) /\
  flywheelStartTime (loop io2 (loop io1 s))
  = (if flywheelRunTime <=? elapsed (millis io2) (millis io1)
     then 0 else flywheelStartTime (loop io1 s)).
Proof.
  intros E1 D1 E2 S2 R2.
  destruct (loop_demand io1 s E1 D1) as (P1 & T1).
  destruct (loop_idle io2 (loop io1 s) E2 S2 R2) as (A & B & _).
  rewrite A, B, T1, P1. split; reflexivity.
Qed.

End MinRun090.

(** ** The pusher runs only behind a spooled flywheel (v0.9.0) *)

Section RunSafety090.

Import V090.

Lemma lastClock_bound (t : Z) (ios : list Env) :
  clockAscends t ios -> t <= lastClock t ios.
Proof.
  revert t. induction ios as [|io ios IH]; intros t C; cbn [lastClock].
  - lia.
  - destruct C as [C0 C]. specialize (IH _ C). lia.
Qed.

Lemma spoolInv_run (ios : list Env) (t : Z) (s : State) :
  spoolInv t s -> clockAscends t ios ->
  spoolInv (lastClock t ios) (run ios s).
Proof.
  revert t s. induction ios as [|io ios IH]; intros t s I C.
  - exact I.
  - destruct C as [C0 C]. rewrite run_cons. cbn [lastClock].
    apply IH; [|exact C]. now apply spoolInv_loop with (t := t).
Qed.

(** X7.  v0.9.0 switches the pusher to Run only behind a spooled
    flywheel.  At any pass that ends with the pusher commanded Run, the
    interlock is satisfied, shots were queued before the pass, and either
    Run was already the command or the spin-up timestamp was set before
    the pass and the spool time has elapsed since it.  From power-up, as
    long as the clock has not rolled over, a pusher commanded Run always
    goes with a flywheel commanded Run whose spin-up lies at least
    [flywheelSpoolTime] before the last pass. *)
Theorem X7_v090_pusher_runs_only_behind_spooled_flywheel :
  (forall (io : Env) (s : State),
      pusherPulse (loop io s) = pusherRunPulse ->
      ejectPinState (loop io s) = true /\
      shotsRemaining s <> 0 /\
      (pusherPulse s = pusherRunPulse \/
       (flywheelStartTime s <> 0 /\
        flywheelSpoolTime <= elapsed (millis io) (flywheelStartTime s))))
  /\
  (forall ios : list Env,
      clockAscends 0 ios ->
      pusherPulse (run ios init) = pusherRunPulse ->
      flywheelPulse (run ios init) = flywheelRunPulse /\
      flywheelStartTime (run ios init) <> 0 /\
      flywheelStartTime (run ios init) + flywheelSpoolTime
      <= lastClock 0 ios).
Proof.
  split.
  - intros io s R.
    destruct (loop_pusher io s) as (LP & _).
    pose proof (loop_fields io s) as L. frames_of L.
    pose proof (control_pins io (readInputs io s)) as C. frames_of C.
    pose proof (readInputs_frame io s) as RF. frames_of RF.
    rewrite LP in R.
    destruct (pusherControl_run io (readInputs io s) R) as (E & M & N & W).
    conjs; congruence.
  - intros ios C R.
    destruct (spoolInv_run ios 0 init spoolInv_init C) as (_ & I).
    destruct (I R) as (N & Sp).
    destruct (reachable_stampedRunning (run ios init)
                (reachable_run ios init reachable_init) N) as (P & _).
    conjs; assumption.
Qed.

End RunSafety090.

(** ** The spool gate of v0.5.0 measures from time zero *)

Section Gate050.

Import V050.

Lemma loop_pusher_050 (io : Env) (s : State) :
  pusher (loop io s) = pusher (pusherControl io (readInputs io s)).
Proof.
  unfold loop, control.
  pose proof (flywheelControl_frame_050 io (pusherControl io (readInputs io s)))
    as F.
  pose proof (fireControl_frame_050
                (flywheelControl io (pusherControl io (readInputs io s)))) as Q.
  frames_of F. frames_of Q. congruence.
Qed.

(** X8.  v0.5.0 tests the spool time without testing that the spin-up
    timestamp is set.  At a pass with the interlock satisfied, the position
    signal inactive, both chamber sensors active, shots queued and the
    flywheel never started (timestamp zero), the pusher ESC gets the run
    pulse as soon as the clock itself reads [flywheelSpoolTime] or more. *)
Theorem X8_v050_pusher_runs_with_flywheel_not_started (io : Env) (s : State) :
  ejectPinState (readInputs io s) = true ->
  magazinePinState (readInputs io s) = true ->
  positionPinState (readInputs io s) = false ->
  disclPinState (readInputs io s) = true ->
  discrPinState (readInputs io s) = true ->
  shotsRemaining s <> 0 ->
  flywheelStartTime s = 0 ->
  flywheelSpoolTime <= millis io < 2 ^ 32 ->
  pusher (loop io s) = pusherRunPulse.
Proof.
  intros E M P L R N F T.
  pose proof (readInputs_frame_050 io s) as RF. frames_of RF.
  rewrite loop_pusher_050.
  rewrite pusherControl_stroke_050 by congruence.
  rewrite L, R. cbn [negb orb andb].
  replace (flywheelStartTime (readInputs io s)) with 0 by congruence.
  assert (T0 : 0 <= millis io) by (unfold flywheelSpoolTime in T; lia).
  rewrite elapsed_small by lia. rewrite Z.sub_0_r.
  assert (G : (flywheelSpoolTime <=? millis io) = true)
    by (apply Z.leb_le; lia).
  now rewrite G.
Qed.

End Gate050.

(** ** An empty queue stops the pusher at the next pass (v0.9.0) *)

Section Abort090.

Import V090.

Lemma pusherControl_empty (io : Env) (s : State) :
  shotsRemaining s = 0 ->
  pusherPulse (pusherControl io s)
  = (if ejectPinState s && magazinePinState s
     then if positionPinState s then pusherReturnPulse else pusherStopPulse
     else pusherStopPulse).
Proof.
  destruct s. unfold pusherControl. cbn. intros; subst.
  change (nonzero 0) with false. split_ifs; reflexivity.
Qed.

Lemma loop_empty (io : Env) (s : State) :
  shotsRemaining s = 0 ->
  pusherPulse (loop io s)
  = (if ejectPinState (loop io s)
     then if positionPinState (loop io s)
          then pusherReturnPulse else pusherStopPulse
     else pusherStopPulse).
Proof.
  intros S.
  destruct (loop_pusher io s) as (LP & _).
  pose proof (loop_fields io s) as L. frames_of L.
  pose proof (control_pins io (readInputs io s)) as C. frames_of C.
  pose proof (readInputs_frame io s) as RF. frames_of RF.
  pose proof (readInputs_constants io s) as K. cbv zeta in K.
  destruct K as (Km & _ & _).
  rewrite LP, pusherControl_empty by congruence.
  rewrite Km, andb_true_r.
  replace (ejectPinState (loop io s)) with (ejectPinState (readInputs io s))
    by congruence.
  replace (positionPinState (loop io s))
    with (positionPinState (readInputs io s)) by congruence.
  reflexivity.
Qed.

(** X9.  v0.9.0: a pass that starts with the queue empty ends with the
    pusher commanded Return if the interlock is satisfied and the position
    signal active, and Stop otherwise, never Run.  So after a pass at which
    the debounced trigger is released or the eject switch open, the queue
    is empty and the next pass, whatever its inputs, does not command
    Run. *)
Theorem X9_v090_empty_queue_stops_the_pusher :
  (forall (io : Env) (s : State),
      shotsRemaining s = 0 ->
      pusherPulse (loop io s)
      = (if ejectPinState (loop io s)
         then if positionPinState (loop io s)
              then pusherReturnPulse else pusherStopPulse
         else pusherStopPulse) /\
      pusherPulse (loop io s) <> pusherRunPulse)
  /\
  (forall (io1 io2 : Env) (s : State),
      triggerPinState (loop io1 s) = false \/
      ejectPinState (loop io1 s) = false ->
      shotsRemaining (loop io1 s) = 0 /\
      pusherPulse (loop io2 (loop io1 s)) <> pusherRunPulse).
Proof.
  assert (A : forall io s, shotsRemaining s = 0 ->
                           pusherPulse (loop io s) <> pusherRunPulse).
  { intros io s S. rewrite (loop_empty io s S).
    destruct (ejectPinState (loop io s)), (positionPinState (loop io s));
      discriminate. }
  split.
  - intros io s S. split; [now apply loop_empty | now apply A].
  - intros io1 io2 s Off.
    assert (Z0 : shotsRemaining (loop io1 s) = 0).
    { destruct (Z.eq_dec (shotsRemaining (loop io1 s)) 0) as [E | N];
        [exact E | exfalso].
      pose proof (loop_fields io1 s) as L. frames_of L.
      unfold control in *.
      pose proof (fireControl_frame
                    (flywheelControl io1
                       (pusherControl io1 (readInputs io1 s)))) as Q.
      frames_of Q.
      destruct (fireControl_live_090
                  (flywheelControl io1 (pusherControl io1 (readInputs io1 s))))
        as (T & E & _); [congruence|].
      destruct Off as [Off | Off]; congruence. }
    split; [exact Z0 | now apply A].
Qed.

End Abort090.

(** ** What a pass's pusher command depends on (v0.9.0) *)

Section Lag090.

Import V090.

Lemma pusherControl_inputs (io io' : Env) (s s' : State) :
  millis io' = millis io ->
  ejectPinState s' = ejectPinState s ->
  magazinePinState s' = magazinePinState s ->
  positionPinState s' = positionPinState s ->
  disclPinState s' = disclPinState s ->
  discrPinState s' = discrPinState s ->
  shotsRemaining s' = shotsRemaining s ->
  shotMode s' = shotMode s ->
  flywheelStartTime s' = flywheelStartTime s ->
  pusherPulse s' = pusherPulse s ->
  pusherPulse (pusherControl io' s') = pusherPulse (pusherControl io s).
Proof.
  destruct s, s'. unfold pusherControl. cbn. intros; subst.
  match goal with H : millis _ = millis _ |- _ => rewrite H end.
  split_ifs; reflexivity.
Qed.

Lemma readInputs_eject_position (io io' : Env) (s : State) :
  digitalRead io' ejectPin = digitalRead io ejectPin ->
  digitalRead io' positionPin = digitalRead io positionPin ->
  millis io' = millis io ->
  ejectPinState (readInputs io' s) = ejectPinState (readInputs io s) /\
  positionPinState (readInputs io' s) = positionPinState (readInputs io s).
Proof.
  intros E P M. unfold readInputs, debounceInput. cbn.
  rewrite (debounceInputWith_env _ io io' ejectPin _ E M).
  rewrite (debounceInputWith_env _ io io' positionPin _ P M).
  split; reflexivity.
Qed.

(** X10.  v0.9.0 runs the pusher controller before the fire queue and the
    flywheel controller: the pusher command a pass ends with is decided by
    the eject and position switches and the clock of that pass and by the
    count, mode, spin-up timestamp and command left by the previous pass.
    The levels of the trigger and ready switches at that pass do not
    reach it. *)
Theorem X10_v090_pusher_command_ignores_trigger_of_same_pass
    (io io' : Env) (s : State) :
  digitalRead io' ejectPin = digitalRead io ejectPin ->
  digitalRead io' positionPin = digitalRead io positionPin ->
  millis io' = millis io ->
  pusherPulse (loop io' s) = pusherPulse (loop io s) /\
  pusher (loop io' s) = pusher (loop io s).
Proof.
  intros E P M.
  destruct (loop_pusher io s) as (LP & LS).
  destruct (loop_pusher io' s) as (LP' & LS').
  destruct (readInputs_eject_position io io' s E P M) as (RE & RP).
  pose proof (readInputs_frame io s) as R. frames_of R.
  pose proof (readInputs_frame io' s) as R'. frames_of R'.
  pose proof (readInputs_constants io s) as K. cbv zeta in K.
  destruct K as (Km & Kl & Kr).
  pose proof (readInputs_constants io' s) as K'. cbv zeta in K'.
  destruct K' as (Km' & Kl' & Kr').
  assert (X : pusherPulse (pusherControl io' (readInputs io' s))
              = pusherPulse (pusherControl io (readInputs io s)))
    by (apply pusherControl_inputs; congruence).
  split; congruence.
Qed.

End Lag090.

(** ** The count moves only when a debounced input moves *)

Section EdgesOnce.

Lemma fireControl_steady_090 (s : V090.State) :
  V090.lastTriggerPinState s = V090.triggerPinState s ->
  V090.lastpositionPinState s = V090.positionPinState s ->
  (V090.shotsRemaining s <> 0 ->
   V090.triggerPinState s = true /\ V090.ejectPinState s = true /\
   V090.magazinePinState s = true) ->
  V090.shotsRemaining (V090.fireControl s) = V090.shotsRemaining s.
Proof.
  destruct s. unfold V090.fireControl. cbn. intros T P K. subst.
  destruct triggerPinState, positionPinState;
    split_ifs; bool_hyps; subst; try reflexivity; try discriminate;
    destruct (Z.eq_dec shotsRemaining 0) as [E | N]; auto;
    destruct (K N) as (? & ? & ?); subst; discriminate.
Qed.

Lemma fireControl_steady_050 (s : V050.State) :
  V050.lastTriggerPinState s = V050.triggerPinState s ->
  V050.lastDiscState s = V050.disclPinState s && V050.discrPinState s ->
  (V050.shotsRemaining s <> 0 ->
   V050.triggerPinState s = true /\ V050.ejectPinState s = true /\
   V050.magazinePinState s = true) ->
  V050.shotsRemaining (V050.fireControl s) = V050.shotsRemaining s.
Proof.
  destruct s. unfold V050.fireControl. cbn. intros T P K. subst.
  destruct triggerPinState, disclPinState, discrPinState;
    split_ifs; bool_hyps; subst; try reflexivity; try discriminate;
    destruct (Z.eq_dec shotsRemaining 0) as [E | N]; auto;
    destruct (K N) as (? & ? & ?); subst; discriminate.
Qed.

Lemma loop_pins_050 (io : Env) (s : V050.State) :
  let x := V050.flywheelControl io
             (V050.pusherControl io (V050.readInputs io s)) in
  V050.shotsRemaining (V050.loop io s)
  = V050.shotsRemaining (V050.fireControl x) /\
  V050.triggerPinState (V050.loop io s)
  = V050.triggerPinState (V050.readInputs io s) /\
  V050.ejectPinState (V050.loop io s)
  = V050.ejectPinState (V050.readInputs io s) /\
  V050.magazinePinState (V050.loop io s)
  = V050.magazinePinState (V050.readInputs io s) /\
  V050.disclPinState (V050.loop io s)
  = V050.disclPinState (V050.readInputs io s) /\
  V050.discrPinState (V050.loop io s)
  = V050.discrPinState (V050.readInputs io s).
Proof.
  cbv zeta. unfold V050.loop, V050.control.
  pose proof (before_fire_050 io s) as B. frames_of B.
  pose proof (fireControl_frame_050
                (V050.flywheelControl io
                   (V050.pusherControl io (V050.readInputs io s)))) as Q.
  frames_of Q.
  conjs; congruence.
Qed.

(** X11.  In both revisions the count changes only at a pass where a
    debounced input differs from the previous pass: if a pass ends with
    the same trigger, eject, magazine and position states (v0.5.0: and the
    same chamber states) as the pass before it, it ends with the same
    remaining-shot count.  A trigger press or a completed stroke is
    counted at one pass only. *)
Theorem X11_count_changes_only_with_an_input :
  (forall (io1 io2 : Env) (s : V090.State),
      V090.triggerPinState (V090.loop io2 (V090.loop io1 s))
      = V090.triggerPinState (V090.loop io1 s) ->
      V090.ejectPinState (V090.loop io2 (V090.loop io1 s))
      = V090.ejectPinState (V090.loop io1 s) ->
      V090.positionPinState (V090.loop io2 (V090.loop io1 s))
      = V090.positionPinState (V090.loop io1 s) ->
      V090.shotsRemaining (V090.loop io2 (V090.loop io1 s))
      = V090.shotsRemaining (V090.loop io1 s))
  /\
  (forall (io1 io2 : Env) (s : V050.State),
      V050.triggerPinState (V050.loop io2 (V050.loop io1 s))
      = V050.triggerPinState (V050.loop io1 s) ->
      V050.ejectPinState (V050.loop io2 (V050.loop io1 s))
      = V050.ejectPinState (V050.loop io1 s) ->
      V050.magazinePinState (V050.loop io2 (V050.loop io1 s))
      = V050.magazinePinState (V050.loop io1 s) ->
      V050.disclPinState (V050.loop io2 (V050.loop io1 s))
      = V050.disclPinState (V050.loop io1 s) ->
      V050.discrPinState (V050.loop io2 (V050.loop io1 s))
      = V050.discrPinState (V050.loop io1 s) ->
      V050.shotsRemaining (V050.loop io2 (V050.loop io1 s))
      = V050.shotsRemaining (V050.loop io1 s)).
Proof.
  split.
  - intros io1 io2 s T E P.
    set (s1 := V090.loop io1 s) in *.
    (* the first pass *)
    assert (Live : V090.shotsRemaining s1 <> 0 ->
                   V090.triggerPinState s1 = true /\
                   V090.ejectPinState s1 = true /\
                   V090.magazinePinState s1 = true).
    { subst s1. intros N.
      pose proof (loop_fields io1 s) as L. frames_of L.
      unfold V090.control in *.
      pose proof (fireControl_frame
                    (V090.flywheelControl io1
                       (V090.pusherControl io1 (V090.readInputs io1 s)))) as Q.
      frames_of Q.
      destruct (fireControl_live_090
                  (V090.flywheelControl io1
                     (V090.pusherControl io1 (V090.readInputs io1 s))))
        as (A & B & C); [congruence|].
      conjs; congruence. }
    assert (Last : V090.lastTriggerPinState s1 = V090.triggerPinState s1 /\
                   V090.lastpositionPinState s1 = V090.positionPinState s1).
    { subst s1.
      destruct (loop_fire io1 s) as (_ & LT & LPo).
      pose proof (loop_fields io1 s) as L. frames_of L.
      pose proof (control_pins io1 (V090.readInputs io1 s)) as C. frames_of C.
      split; congruence. }
    destruct Last as (LT & LPo).
    (* the second pass *)
    destruct (loop_fire io2 s1) as (LS2 & _ & _).
    pose proof (before_fire io2 s1) as B. frames_of B.
    pose proof (loop_fields io2 s1) as L2. frames_of L2.
    pose proof (control_pins io2 (V090.readInputs io2 s1)) as C2. frames_of C2.
    pose proof (readInputs_constants io2 s1) as K. cbv zeta in K.
    destruct K as (Km & _ & _).
    set (x := V090.flywheelControl io2
                (V090.pusherControl io2 (V090.readInputs io2 s1))) in *.
    rewrite LS2.
    replace (V090.shotsRemaining s1) with (V090.shotsRemaining x)
      by congruence.
    apply fireControl_steady_090; try congruence.
    intros N.
    destruct Live as (A & Bb & Cc); [congruence|].
    conjs; congruence.
  - intros io1 io2 s T E M Dl Dr.
    set (s1 := V050.loop io1 s) in *.
    assert (First : (V050.shotsRemaining s1 <> 0 ->
                     V050.triggerPinState s1 = true /\
                     V050.ejectPinState s1 = true /\
                     V050.magazinePinState s1 = true) /\
                    V050.lastTriggerPinState s1 = V050.triggerPinState s1 /\
                    V050.lastDiscState s1
                    = V050.disclPinState s1 && V050.discrPinState s1).
    { subst s1. unfold V050.loop, V050.control.
      pose proof (fireControl_frame_050
                    (V050.flywheelControl io1
                       (V050.pusherControl io1 (V050.readInputs io1 s)))) as Q.
      frames_of Q.
      split; [|split; congruence].
      intros N. destruct (fireControl_live_050 _ N) as (A & B & C).
      conjs; congruence. }
    destruct First as (Live & LT & LD).
    pose proof (loop_pins_050 io2 s1) as L2. frames_of L2.
    pose proof (before_fire_050 io2 s1) as B. frames_of B.
    set (x := V050.flywheelControl io2
                (V050.pusherControl io2 (V050.readInputs io2 s1))) in *.
    replace (V050.shotsRemaining (V050.loop io2 s1))
      with (V050.shotsRemaining (V050.fireControl x)) by congruence.
    replace (V050.shotsRemaining s1) with (V050.shotsRemaining x)
      by congruence.
    apply fireControl_steady_050; try congruence.
    intros N.
    destruct Live as (A & Bb & Cc); [congruence|].
    conjs; congruence.
Qed.

End EdgesOnce.

(** ** Calling a controller twice at one clock reading *)

Section Twice090.

Import V090.

(** X12.  v0.9.0: the pusher and flywheel controllers are idempotent at a
    fixed clock reading: a second call on the state left by the first
    changes nothing. *)
Theorem X12_v090_controllers_idempotent (io : Env) (s : State) :
  pusherControl io (pusherControl io s) = pusherControl io s /\
  flywheelControl io (flywheelControl io s) = flywheelControl io s.
Proof.
  split.
  - destruct s. unfold pusherControl.
    split_ifs; try reflexivity; bool_hyps; subst;
      try discriminate; try lia; try congruence.
  - destruct s. unfold flywheelControl. cbn.
    destruct ejectPinState0, magazinePinState0; cbn;
      rewrite ?andb_false_r, ?andb_true_r, ?orb_true_r, ?orb_false_r; cbn;
      rewrite ?andb_false_r, ?andb_true_r, ?orb_true_r, ?orb_false_r; cbn;
      try reflexivity.
    destruct (nonzero shotsRemaining0 || readyPinState0) eqn:D.
    + destruct (flywheelStartTime0 =? 0) eqn:S0;
        repeat (cbn; rewrite ?D, ?S0, ?elapsed_self, ?orb_false_r);
        try reflexivity.
      destruct (millis io =? 0); reflexivity.
    + destruct (flywheelRunTime <=? elapsed (millis io) flywheelTimer0) eqn:E;
        repeat (cbn; rewrite ?D, ?E, ?orb_false_r); reflexivity.
Qed.

End Twice090.

(** ** Instances *)

Lemma X1_witness :
  V050.pusher
    (V050.loop (ioOf [magazinePin; disclPin; discrPin; triggerPin; readyPin] 2010)
       (V050.loop (ioOf [magazinePin; disclPin; discrPin; triggerPin; readyPin]
                        2000) midBurst050))
  = V050.pusherStopPulse /\
  V050.flywheel
    (V050.loop (ioOf [magazinePin; disclPin; discrPin; triggerPin; readyPin] 2010)
       (V050.loop (ioOf [magazinePin; disclPin; discrPin; triggerPin; readyPin]
                        2000) midBurst050))
  = V050.flywheelStopPulse /\
  V050.flywheelStartTime
    (V050.loop (ioOf [magazinePin; disclPin; discrPin; triggerPin; readyPin] 2010)
       (V050.loop (ioOf [magazinePin; disclPin; discrPin; triggerPin; readyPin]
                        2000) midBurst050))
  = 0 /\
  V050.shotsRemaining
    (V050.loop (ioOf [magazinePin; disclPin; discrPin; triggerPin; readyPin] 2010)
       (V050.loop (ioOf [magazinePin; disclPin; discrPin; triggerPin; readyPin]
                        2000) midBurst050))
  = 0.
Proof.
  apply X1_v050_interlock_open_stops_everything. reflexivity.
Defined.

Lemma X2_witness :
  (V090.triggerPinState
     (V090.loop (ioOf [ejectPin; readyPin; triggerPin] 25)
        (V090.run (scenarioA_ready ++ [ioOf [ejectPin; readyPin; triggerPin] 20])
                  V090.init)) = true /\
   V090.ejectPinState
     (V090.loop (ioOf [ejectPin; readyPin; triggerPin] 25)
        (V090.run (scenarioA_ready ++ [ioOf [ejectPin; readyPin; triggerPin] 20])
                  V090.init)) = true)
  /\
  (V090.shotsRemaining
     (V090.loop (ioOf [ejectPin; triggerPin; readyPin] 2000) midBurst090)
   = V090.shotsRemaining
       (V090.loop (ioOf [magazinePin; ejectPin; triggerPin; readyPin] 2000)
                  midBurst090))
  /\
  (V050.triggerPinState
     (V050.loop homePass050 (V050.run homeBeforeSpool050 V050.init)) = true /\
   V050.ejectPinState
     (V050.loop homePass050 (V050.run homeBeforeSpool050 V050.init)) = true /\
   V050.magazinePinState
     (V050.loop homePass050 (V050.run homeBeforeSpool050 V050.init)) = true).
Proof.
  split; [|split].
  - apply (proj1 X2_queue_live_only_with_trigger_and_interlock).
    vm_compute. discriminate.
  - apply (proj1 (proj2 X2_queue_live_only_with_trigger_and_interlock));
      reflexivity.
  - apply (proj2 (proj2 X2_queue_live_only_with_trigger_and_interlock)).
    vm_compute. discriminate.
Defined.

Lemma X3_witness :
  (V090.shotMode (V090.run (scenarioA_ready ++ scenarioA_press) V090.init) = 1 /\
   0 <= V090.shotsRemaining
          (V090.run (scenarioA_ready ++ scenarioA_press) V090.init) <= 3)
  /\
  (V050.shotMode (V050.run pressNoReady050 V050.init) = 0 /\
   0 <= V050.shotsRemaining (V050.run pressNoReady050 V050.init) <= 1).
Proof.
  split.
  - apply (proj1 X3_shot_count_stays_in_range).
    apply reachable_run. constructor.
  - apply (proj2 X3_shot_count_stays_in_range).
    apply reachable_run_050. constructor.
Defined.

Lemma X4_witness :
  (V090.pusherPulse (V090.loop (ioOf [] 0) V090.init) = V090.pusherRunPulse \/
   V090.pusherPulse (V090.loop (ioOf [] 0) V090.init) = V090.pusherReturnPulse \/
   V090.pusherPulse (V090.loop (ioOf [] 0) V090.init) = V090.pusherStopPulse) /\
  V090.pusher (V090.loop (ioOf [] 0) V090.init)
  = V090.pusherPulse (V090.loop (ioOf [] 0) V090.init) /\
  (V090.flywheelPulse (V090.loop (ioOf [] 0) V090.init) = V090.flywheelRunPulse \/
   V090.flywheelPulse (V090.loop (ioOf [] 0) V090.init)
   = V090.flywheelStopPulse) /\
  V090.flywheel (V090.loop (ioOf [] 0) V090.init)
  = V090.flywheelPulse (V090.loop (ioOf [] 0) V090.init).
Proof.
  apply X4_v090_pulses_are_the_configured_ones. constructor.
Defined.

Lemma X5_witness :
  fst (debounceInputWith 5 (envOf pressCommit) triggerPin
         (pollAll 5 triggerPin
            ([mkPoll 0 true] ++ mkPoll 10 false :: [mkPoll 12 false])
            Debounce0))
  = live (mkPoll 10 false).
Proof.
  apply (X5_debounce_reports_a_stable_sample
           5 triggerPin [mkPoll 0 true] [mkPoll 12 false]
           (mkPoll 10 false) pressCommit (or_introl eq_refl)).
  - cbn. lia.
  - repeat constructor.
  - reflexivity.
  - cbn. lia.
Defined.

Lemma X6_witness :
  V090.flywheelPulse
    (V090.loop (ioOf [ejectPin] 105)
       (V090.loop (ioOf [ejectPin] 100) (V090.run scenarioA_ready V090.init)))
  = (if V090.flywheelRunTime
        <=? elapsed (millis (ioOf [ejectPin] 105)) (millis (ioOf [ejectPin] 100))
     then V090.flywheelStopPulse else V090.flywheelRunPulse) /\
  V090.flywheelStartTime
    (V090.loop (ioOf [ejectPin] 105)
       (V090.loop (ioOf [ejectPin] 100) (V090.run scenarioA_ready V090.init)))
  = (if V090.flywheelRunTime
        <=? elapsed (millis (ioOf [ejectPin] 105)) (millis (ioOf [ejectPin] 100))
     then 0
     else V090.flywheelStartTime
            (V090.loop (ioOf [ejectPin] 100)
                       (V090.run scenarioA_ready V090.init))).
Proof.
  apply X6_v090_flywheel_minimum_run_time; reflexivity.
Defined.

Lemma X7_witness :
  (V090.ejectPinState
     (V090.loop (ioOf [ejectPin; readyPin; triggerPin] 310)
        (V090.run [ioOf [ejectPin; readyPin] 10;
                   ioOf [ejectPin; readyPin] 15;
                   ioOf [ejectPin; readyPin; triggerPin] 300;
                   ioOf [ejectPin; readyPin; triggerPin] 305] V090.init))
   = true /\
   V090.shotsRemaining
     (V090.run [ioOf [ejectPin; readyPin] 10;
                ioOf [ejectPin; readyPin] 15;
                ioOf [ejectPin; readyPin; triggerPin] 300;
                ioOf [ejectPin; readyPin; triggerPin] 305] V090.init) <> 0)
  /\
  (V090.flywheelPulse (V090.run longRun090 V090.init) = V090.flywheelRunPulse /\
   V090.flywheelStartTime (V090.run longRun090 V090.init) <> 0 /\
   V090.flywheelStartTime (V090.run longRun090 V090.init)
   + V090.flywheelSpoolTime <= lastClock 0 longRun090).
Proof.
  split.
  - destruct (proj1 X7_v090_pusher_runs_only_behind_spooled_flywheel
                (ioOf [ejectPin; readyPin; triggerPin] 310)
                (V090.run [ioOf [ejectPin; readyPin] 10;
                           ioOf [ejectPin; readyPin] 15;
                           ioOf [ejectPin; readyPin; triggerPin] 300;
                           ioOf [ejectPin; readyPin; triggerPin] 305] V090.init)
                eq_refl) as (A & B & _).
    split; assumption.
  - apply (proj2 X7_v090_pusher_runs_only_behind_spooled_flywheel).
    + cbn. lia.
    + reflexivity.
Defined.

Lemma X8_witness :
  V050.pusher
    (V050.loop (ioOf [magazinePin; ejectPin; disclPin; discrPin; triggerPin] 615)
               (V050.run pressNoReady050 V050.init))
  = V050.pusherRunPulse.
Proof.
  apply X8_v050_pusher_runs_with_flywheel_not_started;
    try reflexivity.
  - vm_compute. discriminate.
  - vm_compute. split; [discriminate | reflexivity].
Defined.

Lemma X9_witness :
  (V090.pusherPulse (V090.loop (ioOf [ejectPin] 15)
                               (V090.loop (ioOf [ejectPin] 10) V090.init))
   = (if V090.ejectPinState
           (V090.loop (ioOf [ejectPin] 15)
                      (V090.loop (ioOf [ejectPin] 10) V090.init))
      then if V090.positionPinState
                (V090.loop (ioOf [ejectPin] 15)
                           (V090.loop (ioOf [ejectPin] 10) V090.init))
           then V090.pusherReturnPulse else V090.pusherStopPulse
      else V090.pusherStopPulse) /\
   V090.pusherPulse (V090.loop (ioOf [ejectPin] 15)
                               (V090.loop (ioOf [ejectPin] 10) V090.init))
   <> V090.pusherRunPulse)
  /\
  (V090.shotsRemaining
     (V090.loop (ioOf [triggerPin; readyPin] 2000) midBurst090) = 0 /\
   V090.pusherPulse
     (V090.loop (ioOf [ejectPin; triggerPin; readyPin] 2001)
                (V090.loop (ioOf [triggerPin; readyPin] 2000) midBurst090))
   <> V090.pusherRunPulse).
Proof.
  split.
  - apply (proj1 X9_v090_empty_queue_stops_the_pusher). reflexivity.
  - apply (proj2 X9_v090_empty_queue_stops_the_pusher).
    right. reflexivity.
Defined.

Lemma X10_witness :
  V090.pusherPulse
    (V090.loop (ioOf [ejectPin; positionPin; triggerPin; readyPin] 2000)
               midBurst090)
  = V090.pusherPulse (V090.loop (ioOf [ejectPin; positionPin] 2000) midBurst090)
  /\
  V090.pusher
    (V090.loop (ioOf [ejectPin; positionPin; triggerPin; readyPin] 2000)
               midBurst090)
  = V090.pusher (V090.loop (ioOf [ejectPin; positionPin] 2000) midBurst090).
Proof.
  apply X10_v090_pusher_command_ignores_trigger_of_same_pass; reflexivity.
Defined.

Lemma X11_witness :
  (V090.shotsRemaining
     (V090.loop (ioOf [ejectPin; triggerPin; readyPin] 2001)
                (V090.loop (ioOf [ejectPin; triggerPin; readyPin] 2000)
                           midBurst090))
   = V090.shotsRemaining
       (V090.loop (ioOf [ejectPin; triggerPin; readyPin] 2000) midBurst090))
  /\
  (V050.shotsRemaining
     (V050.loop (ioOf [4; 5; 6; 7; 9; 10] 2001)
                (V050.loop (ioOf [4; 5; 6; 7; 9; 10] 2000) midBurst050))
   = V050.shotsRemaining
       (V050.loop (ioOf [4; 5; 6; 7; 9; 10] 2000) midBurst050)).
Proof.
  split.
  - apply (proj1 X11_count_changes_only_with_an_input); reflexivity.
  - apply (proj2 X11_count_changes_only_with_an_input); reflexivity.
Defined.
